(** * LiteDRAM wrapper of LambdaSoC: configuration, ports and build life cycle

    A shallow embedding of [thirdparty/lambdasoc/cores/litedram.py] and the
    properties of its configuration model, of the native port's memory-map
    attachment rule, of the builder's namespace and of the population of the
    control bus from the CSR listing.

    Python integers are [Z]; Python strings are [string], one character per
    code point below 256.  Objects that the code mutates and shares (memory
    maps) live in a store and are passed by reference. *)

From Stdlib Require Import ZArith String Ascii List Lia Bool.
From stdpp Require Import base list gmap strings.
Import ListNotations.

Local Open Scope string_scope.
Local Open Scope Z_scope.

(** ** Python values and exceptions *)

Module Py.

(** The values a caller can hand to the constructors below.  [VRef] is a
    reference to an object of the store. *)
Inductive value :=
| VNone
| VBool (b : bool)
| VInt (z : Z)
| VStr (s : string)
| VRef (l : nat).

#[global] Instance value_eq_dec : EqDecision value.
Proof. solve_decision. Defined.

(** An exception carries its format string and the arguments of [.format]. *)
Inductive exn :=
| TypeError (msg : string) (args : list value)
| ValueError (msg : string) (args : list value)
| AttributeError (msg : string) (args : list value)
| IndexError (msg : string)
| AssertionError
| FileNotFoundError (name : string)
| CsvError (msg : string).

Inductive result (A : Type) :=
| Ok (a : A)
| Raise (e : exn).
Arguments Ok {A} a.
Arguments Raise {A} e.

Definition bind {A B} (r : result A) (k : A -> result B) : result B :=
  match r with
  | Ok a => k a
  | Raise e => Raise e
  end.

(** [isinstance(v, str)] and [isinstance(v, int)]; [bool] is a subclass of
    [int] in Python. *)
Definition is_str (v : value) : bool :=
  match v with VStr _ => true | _ => false end.

Definition is_int (v : value) : bool :=
  match v with VInt _ | VBool _ => true | _ => false end.

Definition as_int (v : value) : Z :=
  match v with
  | VInt z => z
  | VBool true => 1
  | _ => 0
  end.

Definition as_str (v : value) : string :=
  match v with VStr s => s | _ => EmptyString end.

(** [v == s] for a string literal [s]. *)
Definition eq_str (v : value) (s : string) : bool :=
  match v with VStr t => bool_decide (t = s) | _ => false end.

(** [v in {z1, ..., zn}] for a set of integer literals: [True] equals [1] and
    [False] equals [0]. *)
Definition in_ints (v : value) (zs : list Z) : bool :=
  is_int v && bool_decide (as_int v ∈ zs).

(** [int.bit_length]. *)
Definition bit_length (z : Z) : Z :=
  if z =? 0 then 0 else Z.log2 (Z.abs z) + 1.

(** [nmigen.utils.log2_int(n)], with its default [need_pow2=True]. *)
Definition log2_int (n : Z) : result Z :=
  if n =? 0 then Ok 0
  else
    let r := bit_length (n - 1) in
    if negb (Z.shiftl 1 r =? n)
    then Raise (ValueError "{} is not a power of 2" [VInt n])
    else Ok r.

(** [nmigen.utils.log2_int(n, need_pow2=False)]. *)
Definition log2_up (n : Z) : Z :=
  if n =? 0 then 0 else bit_length (n - 1).

(** [nmigen.utils.bits_for(n)]; a number that is not positive takes a sign
    bit. *)
Definition bits_for (n : Z) : Z :=
  if 0 <? n then log2_up (n + 1) else log2_up (- n) + 1.

(** The double quote character, for the messages that contain one. *)
Definition dq : string := String (ascii_of_nat 34) EmptyString.

End Py.
Import Py.

Notation "'let*' x ':=' r 'in' k" := (bind r (fun x => k))
  (at level 10, x name, r at level 100, k at level 200).

(** ** Config *)

Module Cfg.

(** The keyword arguments of [Config.__init__], as the caller passes them. *)
Record Args := {
  a_memtype          : value;
  a_module_name      : value;
  a_module_bytes     : value;
  a_module_ranks     : value;
  a_input_clk_freq   : value;
  a_user_clk_freq    : value;
  a_input_domain     : value;
  a_user_domain      : value;
  a_user_data_width  : value;
  a_cmd_buffer_depth : value;
  a_csr_data_width   : value
}.

(** The attributes of a constructed [Config].  Every attribute has passed
    its check, so strings are stored as [string] and integers as [Z] (a
    [bool] as the integer it equals). *)
Record Config := {
  memtype          : string;
  _rate            : string;
  module_name      : string;
  module_bytes     : Z;
  module_ranks     : Z;
  input_clk_freq   : Z;
  user_clk_freq    : Z;
  input_domain     : string;
  user_domain      : string;
  user_data_width  : Z;
  cmd_buffer_depth : Z;
  csr_data_width   : Z
}.

Definition msg_memtype : string :=
  "Unsupported DRAM type, must be one of " ++ dq ++ "DDR2" ++ dq ++ ", "
  ++ dq ++ "DDR3" ++ dq ++ " or " ++ dq ++ "DDR4" ++ dq ++ ", not {!r}".
Definition msg_module_name : string :=
  "Module name must be a string, not {!r}".
Definition msg_module_bytes : string :=
  "Number of byte groups must be a positive integer, not {!r}".
Definition msg_module_ranks : string :=
  "Number of ranks must be a positive integer, not {!r}".
Definition msg_input_clk_freq : string :=
  "Input clock frequency must be a positive integer, not {!r}".
Definition msg_user_clk_freq : string :=
  "User clock frequency must be a positive integer, not {!r}".
Definition msg_input_domain : string :=
  "Input domain name must be a string, not {!r}".
Definition msg_user_domain : string :=
  "User domain name must be a string, not {!r}".
Definition msg_user_data_width : string :=
  "User port data width must be one of 8, 16, 32, 64 or 128, not {!r}".
Definition msg_cmd_buffer_depth : string :=
  "Command buffer depth must be a positive integer, not {!r}".
Definition msg_csr_data_width : string :=
  "CSR data width must be one of 8, 16, 32, or 64, not {!r}".

(** [Config.__init__]: the checks in the order of the source, then the
    attribute assignments. *)
Definition Config_init (a : Args) : result Config :=
  let* rate :=
    (if eq_str (a_memtype a) "DDR2" then Ok "1:2"
     else if eq_str (a_memtype a) "DDR3" || eq_str (a_memtype a) "DDR4"
     then Ok "1:4"
     else Raise (ValueError msg_memtype [a_memtype a])) in
  if negb (is_str (a_module_name a))
  then Raise (ValueError msg_module_name [a_module_name a])
  else if negb (is_int (a_module_bytes a)) || (as_int (a_module_bytes a) <=? 0)
  then Raise (ValueError msg_module_bytes [a_module_bytes a])
  else if negb (is_int (a_module_ranks a)) || (as_int (a_module_ranks a) <=? 0)
  then Raise (ValueError msg_module_ranks [a_module_ranks a])
  else if negb (is_int (a_input_clk_freq a)) || (as_int (a_input_clk_freq a) <=? 0)
  then Raise (ValueError msg_input_clk_freq [a_input_clk_freq a])
  else if negb (is_int (a_user_clk_freq a)) || (as_int (a_user_clk_freq a) <=? 0)
  then Raise (ValueError msg_user_clk_freq [a_user_clk_freq a])
  else if negb (is_str (a_input_domain a))
  then Raise (ValueError msg_input_domain [a_input_domain a])
  else if negb (is_str (a_user_domain a))
  then Raise (ValueError msg_user_domain [a_user_domain a])
  else if negb (in_ints (a_user_data_width a) [8; 16; 32; 64; 128])
  then Raise (ValueError msg_user_data_width [a_user_data_width a])
  else if negb (is_int (a_cmd_buffer_depth a)) || (as_int (a_cmd_buffer_depth a) <=? 0)
  then Raise (ValueError msg_cmd_buffer_depth [a_cmd_buffer_depth a])
  else if negb (in_ints (a_csr_data_width a) [8; 16; 32; 64])
  then Raise (ValueError msg_csr_data_width [a_csr_data_width a])
  else Ok {|
    memtype          := as_str (a_memtype a);
    _rate            := rate;
    module_name      := as_str (a_module_name a);
    module_bytes     := as_int (a_module_bytes a);
    module_ranks     := as_int (a_module_ranks a);
    input_clk_freq   := as_int (a_input_clk_freq a);
    user_clk_freq    := as_int (a_user_clk_freq a);
    input_domain     := as_str (a_input_domain a);
    user_domain      := as_str (a_user_domain a);
    user_data_width  := as_int (a_user_data_width a);
    cmd_buffer_depth := as_int (a_cmd_buffer_depth a);
    csr_data_width   := as_int (a_csr_data_width a)
  |}.

(** *** The device families *)

Record ECP5Config := {
  ecp5_base     : Config;
  init_clk_freq : Z
}.

(** [ECP5Config.__init__]: the base checks first, then its own. *)
Definition ECP5Config_init (init_clk_freq : value) (kwargs : Args)
    : result ECP5Config :=
  let* base := Config_init kwargs in
  if negb (is_int init_clk_freq) || (as_int init_clk_freq <=? 0)
  then Raise (ValueError "Init clock frequency must be a positive integer, not {!r}"
                [init_clk_freq])
  else Ok {| ecp5_base := base; init_clk_freq := as_int init_clk_freq |}.

Record Artix7Config := {
  a7_base          : Config;
  speedgrade       : string;
  cmd_latency      : Z;
  rtt_nom          : Z;
  rtt_wr           : Z;
  ron              : Z;
  iodelay_clk_freq : Z
}.

Definition speedgrades : list string := ["-1"; "-2"; "-2L"; "-2G"; "-3"].

(** [Artix7Config.__init__]: the base checks first, then its own. *)
Definition Artix7Config_init
    (speedgrade cmd_latency rtt_nom rtt_wr ron iodelay_clk_freq : value)
    (kwargs : Args) : result Artix7Config :=
  let* base := Config_init kwargs in
  if negb (existsb (eq_str speedgrade) speedgrades)
  then Raise (ValueError "Speed grade must be one of '{}', not {!r}"
                [VStr "-1', '-2', '-2L', '-2G', '-3"; speedgrade])
  else if negb (is_int cmd_latency) || (as_int cmd_latency <? 0)
  then Raise (ValueError "Command latency must be a non-negative integer, not {!r}"
                [cmd_latency])
  else if negb (is_int rtt_nom) || (as_int rtt_nom <? 0)
  then Raise (ValueError
                "Nominal termination impedance must be a non-negative integer, not {!r}"
                [rtt_nom])
  else if negb (is_int rtt_wr) || (as_int rtt_wr <? 0)
  then Raise (ValueError
                "Write termination impedance must be a non-negative integer, not {!r}"
                [rtt_wr])
  else if negb (is_int ron) || (as_int ron <? 0)
  then Raise (ValueError "Output driver impedance must be a non-negative integer, not {!r}"
                [ron])
  else if negb (is_int iodelay_clk_freq) || (as_int iodelay_clk_freq <=? 0)
  then Raise (ValueError "IODELAY clock frequency must be a positive integer, not {!r}"
                [iodelay_clk_freq])
  else Ok {| a7_base := base; speedgrade := as_str speedgrade;
             cmd_latency := as_int cmd_latency; rtt_nom := as_int rtt_nom;
             rtt_wr := as_int rtt_wr; ron := as_int ron;
             iodelay_clk_freq := as_int iodelay_clk_freq |}.

(** *** The declared domains, field by field *)

Inductive field :=
| f_memtype | f_module_name | f_module_bytes | f_module_ranks
| f_input_clk_freq | f_user_clk_freq | f_input_domain | f_user_domain
| f_user_data_width | f_cmd_buffer_depth | f_csr_data_width.

#[global] Instance field_eq_dec : EqDecision field.
Proof. solve_decision. Defined.

(** The position of a field in the order of the checks. *)
Definition rank (f : field) : nat :=
  match f with
  | f_memtype => 0 | f_module_name => 1 | f_module_bytes => 2
  | f_module_ranks => 3 | f_input_clk_freq => 4 | f_user_clk_freq => 5
  | f_input_domain => 6 | f_user_domain => 7 | f_user_data_width => 8
  | f_cmd_buffer_depth => 9 | f_csr_data_width => 10
  end%nat.

Definition all_fields : list field :=
  [f_memtype; f_module_name; f_module_bytes; f_module_ranks;
   f_input_clk_freq; f_user_clk_freq; f_input_domain; f_user_domain;
   f_user_data_width; f_cmd_buffer_depth; f_csr_data_width].

Definition field_value (a : Args) (f : field) : value :=
  match f with
  | f_memtype => a_memtype a
  | f_module_name => a_module_name a
  | f_module_bytes => a_module_bytes a
  | f_module_ranks => a_module_ranks a
  | f_input_clk_freq => a_input_clk_freq a
  | f_user_clk_freq => a_user_clk_freq a
  | f_input_domain => a_input_domain a
  | f_user_domain => a_user_domain a
  | f_user_data_width => a_user_data_width a
  | f_cmd_buffer_depth => a_cmd_buffer_depth a
  | f_csr_data_width => a_csr_data_width a
  end.

(** The message that names a field. *)
Definition complaint (f : field) : string :=
  match f with
  | f_memtype => msg_memtype
  | f_module_name => msg_module_name
  | f_module_bytes => msg_module_bytes
  | f_module_ranks => msg_module_ranks
  | f_input_clk_freq => msg_input_clk_freq
  | f_user_clk_freq => msg_user_clk_freq
  | f_input_domain => msg_input_domain
  | f_user_domain => msg_user_domain
  | f_user_data_width => msg_user_data_width
  | f_cmd_buffer_depth => msg_cmd_buffer_depth
  | f_csr_data_width => msg_csr_data_width
  end.

(** A positive integer; [True] is the integer 1. *)
Definition positive_integer (v : value) : Prop :=
  is_int v = true ∧ 0 < as_int v.

Definition one_of_strings (ss : list string) (v : value) : Prop :=
  match v with VStr s => s ∈ ss | _ => False end.

(** An integer equal to one of the widths. *)
Definition one_of_widths (ws : list Z) (v : value) : Prop :=
  is_int v = true ∧ as_int v ∈ ws.

Definition a_string (v : value) : Prop :=
  match v with VStr _ => True | _ => False end.

(** The domain the documentation declares for each field. *)
Definition in_domain (f : field) (v : value) : Prop :=
  match f with
  | f_memtype => one_of_strings ["DDR2"; "DDR3"; "DDR4"] v
  | f_module_name | f_input_domain | f_user_domain => a_string v
  | f_module_bytes | f_module_ranks | f_input_clk_freq | f_user_clk_freq
  | f_cmd_buffer_depth => positive_integer v
  | f_user_data_width => one_of_widths [8; 16; 32; 64; 128] v
  | f_csr_data_width => one_of_widths [8; 16; 32; 64] v
  end.

#[global] Instance in_domain_dec f v : Decision (in_domain f v).
Proof.
  destruct f; simpl; unfold positive_integer, one_of_widths, one_of_strings, a_string;
    destruct v; apply _.
Defined.

End Cfg.

(** ** The store of memory maps *)

Module Mem.

(** Modelled from the spec: [thirdparty.nmigen_soc.memory.MemoryMap] is not
    among the sources.  A memory map is an address range of [2^addr_width]
    units of [data_width] bits, partitioned into named, non-overlapping
    resource regions; once frozen it takes no further region.  [_resources]
    lists the regions as [(name, (start, stop))] in the order they were
    added, and [_next_addr] is where a region without an explicit address
    goes. *)
Record MemoryMap := {
  addr_width : Z;
  data_width : Z;
  _frozen    : bool;
  _resources : list (string * (Z * Z));
  _next_addr : Z
}.

(** Modelled from the spec: [MemoryMap(addr_width=..., data_width=...)], an
    empty, unfrozen map; both widths must be positive. *)
Definition MemoryMap_init (aw dw : Z) : result MemoryMap :=
  if aw <=? 0
  then Raise (ValueError "Address width must be a positive integer, not {!r}" [VInt aw])
  else if dw <=? 0
  then Raise (ValueError "Data width must be a positive integer, not {!r}" [VInt dw])
  else Ok {| addr_width := aw; data_width := dw; _frozen := false;
             _resources := []; _next_addr := 0 |}.

(** Modelled from the spec: [MemoryMap.freeze()]. *)
Definition freeze (m : MemoryMap) : MemoryMap :=
  {| addr_width := addr_width m; data_width := data_width m; _frozen := true;
     _resources := _resources m; _next_addr := _next_addr m |}.

Definition with_addr_width (aw : Z) (m : MemoryMap) : MemoryMap :=
  {| addr_width := aw; data_width := data_width m; _frozen := _frozen m;
     _resources := _resources m; _next_addr := _next_addr m |}.

Definition with_resource (r : string) (a b : Z) (m : MemoryMap) : MemoryMap :=
  {| addr_width := addr_width m; data_width := data_width m;
     _frozen := _frozen m; _resources := _resources m ++ [(r, (a, b))];
     _next_addr := b |}.

Definition has_resource (r : string) (m : MemoryMap) : bool :=
  existsb (fun e => bool_decide (fst e = r)) (_resources m).

(** Does [a, b) meet a region of the map? *)
Definition overlaps (a b : Z) (m : MemoryMap) : bool :=
  existsb (fun e => (fst (snd e) <? b) && (a <? snd (snd e))) (_resources m).

(** Modelled from the spec: [MemoryMap.add_resource(resource, size=...,
    addr=..., extend=...)].  The region is [size] units long (one unit when
    [size] is 0) at [addr], or at the end of the last region when no address
    is given.  A region that does not fit the address space is refused,
    unless [extend] is set: then the address width grows to fit it.  The
    method returns the map as it leaves it, also when it raises. *)
Definition add_resource (resource : string) (size : Z) (addr : option Z)
    (extend : bool) (m : MemoryMap) : MemoryMap * result (Z * Z) :=
  if _frozen m
  then (m, Raise (ValueError "Memory map has been frozen. Cannot add resource {!r}"
                    [VStr resource]))
  else if has_resource resource m
  then (m, Raise (ValueError "Resource {!r} is already added" [VStr resource]))
  else
    let a := match addr with Some a => a | None => _next_addr m end in
    if a <? 0
    then (m, Raise (ValueError "Address must be a non-negative integer, not {!r}" [VInt a]))
    else if size <? 0
    then (m, Raise (ValueError "Size must be a non-negative integer, not {!r}" [VInt size]))
    else
      let b := a + Z.max size 1 in
      let out := (2 ^ addr_width m <? a) || (2 ^ addr_width m <? b) in
      if out && negb extend
      then (m, Raise (ValueError "Address range {:#x}..{:#x} out of bounds for memory map"
                        [VInt a; VInt b]))
      else
        let m1 := if out then with_addr_width (bits_for b) m else m in
        if overlaps a b m1
        then (m1, Raise (ValueError "Address range {:#x}..{:#x} overlaps with {}"
                           [VInt a; VInt b]))
        else (with_resource resource a b m1, Ok (a, b)).

(** The store: the memory-map objects alive, a reference being an index. *)
Abbreviation Store := (list MemoryMap).

(** Allocation returns the reference of the new object. *)
Definition alloc (m : MemoryMap) (h : Store) : Store * nat :=
  ((h ++ [m])%list, length h).

(** [isinstance(v, MemoryMap)]: the reference and the object it denotes. *)
Definition as_MemoryMap (h : Store) (v : value) : option (nat * MemoryMap) :=
  match v with
  | VRef l => match h !! l with Some m => Some (l, m) | None => None end
  | _ => None
  end.

End Mem.

(** ** NativePort *)

Module NativePort.

Record NativePort := {
  addr_width  : Z;
  data_width  : Z;
  granularity : Z;
  _map        : option nat
}.

(** [NativePort.__init__]; the signal layout of the record is not part of
    the model. *)
Definition init (addr_width data_width : Z) : result NativePort :=
  if addr_width <=? 0
  then Raise (ValueError "Address width must be a positive integer, not {!r}"
                [VInt addr_width])
  else if (data_width <=? 0) || negb (Z.land data_width (data_width - 1) =? 0)
  then Raise (ValueError "Data width must be a positive power of two integer, not {!r}"
                [VInt data_width])
  else Ok {| addr_width := addr_width; data_width := data_width;
             granularity := 8; _map := None |}.

(** [nmigen.hdl.rec.Record], the base class of the port, is not part of these
    sources; what follows of it is the error of its [__getitem__], after the
    library.  This is how a record refers to itself in that error.  The name
    of the record, given to the constructor or found by the tracer, is not
    part of the state of the port: it is passed where it matters. *)
Definition record_reference (record_name : option string) : string :=
  match record_name with
  | None => "Unnamed record"
  | Some n => "Record '" ++ n ++ "'"
  end.

(** The error of [Record.__getitem__] for a name that is no field of the
    port, whose fields are [cmd], [w] and [r], joined in the order of the
    layout given by [__init__]. *)
Definition no_field (record_name : option string) (item : string) : exn :=
  AttributeError "{} does not have a field '{}'. Did you mean one of: {}?"
    [VStr (record_reference record_name); VStr item; VStr "cmd, w, r"].

(** The [memory_map] getter.  The property raises an [AttributeError] when
    the port has no map; [NativePort] is a [Record], whose [__getattr__] is
    then called with the name of the attribute, and it is the error of
    [__getattr__] that reaches the caller. *)
Definition memory_map (record_name : option string) (self : NativePort)
    : result nat :=
  match _map self with
  | None => Raise (no_field record_name "memory_map")
  | Some l => Ok l
  end.

Definition with_map (l : nat) (self : NativePort) : NativePort :=
  {| addr_width := addr_width self; data_width := data_width self;
     granularity := granularity self; _map := Some l |}.

Definition type_error (v : value) : exn :=
  TypeError "Memory map must be an instance of MemoryMap, not {!r}" [v].

(** The address width the port expects of its map:
    [max(1, addr_width + log2(data_width / 8))].  The division is the floor
    division of the source: a data width below 8 has no byte lane, and the
    source takes 0 granularity bits for it, as [Z.log2 0] is 0. *)
Definition map_addr_width (port : NativePort) : Z :=
  Z.max 1 (addr_width port + Z.log2 (data_width port / 8)).

(** The [memory_map] setter.  It works on the store and on the port, and
    returns both as it leaves them. *)
Definition set_memory_map (memory_map : value) (h : Mem.Store) (self : NativePort)
    : Mem.Store * NativePort * result unit :=
  match Mem.as_MemoryMap h memory_map with
  | None => (h, self, Raise (type_error memory_map))
  | Some (l, m) =>
      if negb (Mem.data_width m =? 8)
      then (h, self,
            Raise (ValueError
                     "Memory map has data width {}, which is not the same as native port granularity {}"
                     [VInt (Mem.data_width m); VInt 8]))
      else
        match log2_int (data_width self / 8) with
        | Raise e => (h, self, Raise e)
        | Ok granularity_bits =>
            if negb (Mem.addr_width m =? Z.max 1 (addr_width self + granularity_bits))
            then (h, self,
                  Raise (ValueError
                           "Memory map has address width {}, which is not the same as native port address width {} ({} address bits + {} granularity bits)"
                           [VInt (Mem.addr_width m);
                            VInt (addr_width self + granularity_bits);
                            VInt (addr_width self); VInt granularity_bits]))
            else (<[l := Mem.freeze m]> h, with_map l self, Ok tt)
        end
  end.

End NativePort.

(** ** The Wishbone interface of the control bus *)

Module Wishbone.

(** Modelled from the spec: [thirdparty.nmigen_soc.wishbone.Interface] is not
    among the sources.  The control bus has an address width, a data width
    and a granularity, and optionally owns a memory map. *)
Record Interface := {
  addr_width  : Z;
  data_width  : Z;
  granularity : Z;
  _map        : option nat
}.

(** Modelled from the spec: [wishbone.Interface(addr_width=...,
    data_width=..., granularity=...)]: a non-negative address width, a data
    width and a granularity among 8, 16, 32 and 64, the granularity at most
    the data width. *)
Definition init (addr_width data_width granularity : Z) : result Interface :=
  if addr_width <? 0
  then Raise (ValueError "Address width must be a non-negative integer, not {!r}"
                [VInt addr_width])
  else if negb (bool_decide (data_width ∈ [8; 16; 32; 64]))
  then Raise (ValueError "Data width must be one of 8, 16, 32, 64, not {!r}"
                [VInt data_width])
  else if negb (bool_decide (granularity ∈ [8; 16; 32; 64]))
  then Raise (ValueError "Granularity must be one of 8, 16, 32, 64, not {!r}"
                [VInt granularity])
  else if data_width <? granularity
  then Raise (ValueError "Granularity {} may not be greater than data width {}"
                [VInt granularity; VInt data_width])
  else Ok {| addr_width := addr_width; data_width := data_width;
             granularity := granularity; _map := None |}.

Definition with_map (l : nat) (self : Interface) : Interface :=
  {| addr_width := addr_width self; data_width := data_width self;
     granularity := granularity self; _map := Some l |}.

(** Modelled from the spec: the [memory_map] setter of the interface, the
    dimension check of the bus: the map's data width is the granularity and
    its address width is [max(1, addr_width + log2(data_width /
    granularity))]; the map is then frozen and stored. *)
Definition set_memory_map (memory_map : value) (h : Mem.Store) (self : Interface)
    : Mem.Store * Interface * result unit :=
  match Mem.as_MemoryMap h memory_map with
  | None =>
      (h, self, Raise (TypeError "Memory map must be an instance of MemoryMap, not {!r}"
                         [memory_map]))
  | Some (l, m) =>
      if negb (Mem.data_width m =? granularity self)
      then (h, self,
            Raise (ValueError
                     "Memory map has data width {}, which is not the same as bus interface granularity {}"
                     [VInt (Mem.data_width m); VInt (granularity self)]))
      else
        match log2_int (data_width self / granularity self) with
        | Raise e => (h, self, Raise e)
        | Ok granularity_bits =>
            if negb (Mem.addr_width m =? Z.max 1 (addr_width self + granularity_bits))
            then (h, self,
                  Raise (ValueError
                           "Memory map has address width {}, which is not the same as bus interface address width {} ({} address bits + {} granularity bits)"
                           [VInt (Mem.addr_width m);
                            VInt (addr_width self + granularity_bits);
                            VInt (addr_width self); VInt granularity_bits]))
            else (<[l := Mem.freeze m]> h, with_map l self, Ok tt)
        end
  end.

End Wishbone.

(** ** Text: [str.split], [int(s, base)] and [csv.reader] *)

Module Text.

Definition code (c : ascii) : N := N_of_ascii c.

Definition LF : ascii := ascii_of_nat 10.
Definition CR : ascii := ascii_of_nat 13.
Definition NUL : ascii := ascii_of_nat 0.
Definition QUOTE : ascii := ascii_of_nat 34.
Definition COMMA : ascii := ","%char.
Definition HASH : ascii := "#"%char.

(** [s.split("\n")]: the pieces between the line feeds, at least one. *)
Fixpoint split_lines (s : string) : list string :=
  match s with
  | EmptyString => [EmptyString]
  | String c s' =>
      if Ascii.eqb c LF then EmptyString :: split_lines s'
      else match split_lines s' with
           | x :: xs => String c x :: xs
           | [] => [String c EmptyString]
           end
  end.

(** The characters [int()] skips around a literal: the ASCII white space,
    and NEL and the no-break space above it. *)
Definition is_space (c : ascii) : bool :=
  let n := code c in
  ((9 <=? n) && (n <=? 13) || (n =? 32) || (n =? 133) || (n =? 160))%N.

(** The value of a character as a digit, in any base up to 36. *)
Definition digit_value (c : ascii) : option Z :=
  let n := code c in
  if ((48 <=? n) && (n <=? 57))%N then Some (Z.of_N n - 48)
  else if ((97 <=? n) && (n <=? 122))%N then Some (Z.of_N n - 97 + 10)
  else if ((65 <=? n) && (n <=? 90))%N then Some (Z.of_N n - 65 + 10)
  else None.

Fixpoint skip_spaces (s : string) : string :=
  match s with
  | String c s' => if is_space c then skip_spaces s' else s
  | EmptyString => s
  end.

(** The sign of a literal and what follows it. *)
Definition take_sign (s : string) : Z * string :=
  match s with
  | String "+" s' => (1, s')
  | String "-" s' => (-1, s')
  | _ => (1, s)
  end.

(** The prefix [0x] or [0X] of a literal in base 16, and the one underscore
    that may follow it. *)
Definition take_prefix (base : Z) (s : string) : string :=
  match s with
  | String "0" (String x s') =>
      if (base =? 16) && (Ascii.eqb x "x" || Ascii.eqb x "X")
      then match s' with
           | String "_" s'' => s''
           | _ => s'
           end
      else s
  | _ => s
  end.

(** The digits of a literal, single underscores allowed between them:
    [acc] is the value read so far, [digits] whether a digit was read and
    [prev] whether the previous character was an underscore.  The scan stops
    at the first other character and returns the rest; [None] is a doubled
    or a trailing underscore. *)
Fixpoint scan_digits (base acc : Z) (digits prev : bool) (s : string)
    : option (Z * bool * string) :=
  match s with
  | String c s' =>
      match digit_value c with
      | Some d =>
          if d <? base then scan_digits base (acc * base + d) true false s'
          else if prev then None else Some (acc, digits, s)
      | None =>
          if Ascii.eqb c "_"
          then if prev then None else scan_digits base acc digits true s'
          else if prev then None else Some (acc, digits, s)
      end
  | EmptyString => if prev then None else Some (acc, digits, s)
  end.

Definition invalid_literal (base : Z) (s : string) : exn :=
  ValueError "invalid literal for int() with base {}: {!r}" [VInt base; VStr s].

(** [int(s, base)] for base 10 and base 16. *)
Definition py_int (s : string) (base : Z) : result Z :=
  let (sign, s1) := take_sign (skip_spaces s) in
  let s2 := take_prefix base s1 in
  match s2 with
  | String "_" _ => Raise (invalid_literal base s)
  | _ =>
      match scan_digits base 0 false false s2 with
      | Some (n, true, rest) =>
          match skip_spaces rest with
          | EmptyString => Ok (sign * n)
          | _ => Raise (invalid_literal base s)
          end
      | _ => Raise (invalid_literal base s)
      end
  end.

(** *** [csv.reader] in the default dialect

    Delimiter [,], quote character, doubled quotes inside a quoted field, no
    escape character, not strict. *)

Inductive ParserState :=
| START_RECORD | START_FIELD | IN_FIELD | IN_QUOTED_FIELD
| QUOTE_IN_QUOTED_FIELD | EAT_CRNL.

#[global] Instance ParserState_eq_dec : EqDecision ParserState.
Proof. solve_decision. Defined.

Record Reader := {
  state  : ParserState;
  fields : list string;
  field  : string
}.

Definition parse_reset : Reader :=
  {| state := START_RECORD; fields := []; field := EmptyString |}.

Definition set_state (st : ParserState) (r : Reader) : Reader :=
  {| state := st; fields := fields r; field := field r |}.

Definition parse_save_field (r : Reader) : Reader :=
  {| state := state r; fields := fields r ++ [field r]; field := EmptyString |}.

Definition field_limit : N := 131072.

Definition parse_add_char (c : ascii) (r : Reader) : result Reader :=
  if (field_limit <=? N.of_nat (String.length (field r)))%N
  then Raise (CsvError "field larger than field limit (131072)")
  else Ok {| state := state r; fields := fields r;
             field := field r ++ String c EmptyString |}.

(** A character of the line, or [None] for the end of the line. *)
Definition is_newline (c : option ascii) : bool :=
  match c with
  | Some c => Ascii.eqb c LF || Ascii.eqb c CR
  | None => false
  end.

Definition after_line_end (c : option ascii) : ParserState :=
  match c with None => START_RECORD | Some _ => EAT_CRNL end.

Definition parse_process_char (r : Reader) (c : option ascii) : result Reader :=
  let start_field :=
    match c with
    | None => Ok (set_state START_RECORD (parse_save_field r))
    | Some ch =>
        if is_newline c then Ok (set_state EAT_CRNL (parse_save_field r))
        else if Ascii.eqb ch QUOTE then Ok (set_state IN_QUOTED_FIELD r)
        else if Ascii.eqb ch COMMA then Ok (set_state START_FIELD (parse_save_field r))
        else parse_add_char ch (set_state IN_FIELD r)
    end in
  match state r with
  | START_RECORD =>
      match c with
      | None => Ok r
      | Some _ => if is_newline c then Ok (set_state EAT_CRNL r) else start_field
      end
  | START_FIELD => start_field
  | IN_FIELD =>
      match c with
      | None => Ok (set_state START_RECORD (parse_save_field r))
      | Some ch =>
          if is_newline c then Ok (set_state EAT_CRNL (parse_save_field r))
          else if Ascii.eqb ch COMMA then Ok (set_state START_FIELD (parse_save_field r))
          else parse_add_char ch r
      end
  | IN_QUOTED_FIELD =>
      match c with
      | None => Ok r
      | Some ch =>
          if Ascii.eqb ch QUOTE then Ok (set_state QUOTE_IN_QUOTED_FIELD r)
          else parse_add_char ch r
      end
  | QUOTE_IN_QUOTED_FIELD =>
      match c with
      | None => Ok (set_state START_RECORD (parse_save_field r))
      | Some ch =>
          if Ascii.eqb ch QUOTE then parse_add_char ch (set_state IN_QUOTED_FIELD r)
          else if Ascii.eqb ch COMMA then Ok (set_state START_FIELD (parse_save_field r))
          else if is_newline c then Ok (set_state EAT_CRNL (parse_save_field r))
          else parse_add_char ch (set_state IN_FIELD r)
      end
  | EAT_CRNL =>
      match c with
      | None => Ok (set_state START_RECORD r)
      | Some _ =>
          if is_newline c then Ok r
          else Raise (CsvError "new-line character seen in unquoted field - do you need to open the file in universal-newline mode?")
      end
  end.

(** The characters of one line, then its end. *)
Fixpoint feed_line (r : Reader) (line : string) : result Reader :=
  match line with
  | String c rest =>
      if Ascii.eqb c NUL then Raise (CsvError "line contains NUL")
      else let* r' := parse_process_char r (Some c) in feed_line r' rest
  | EmptyString => parse_process_char r None
  end.

(** A record is pending at the end of the input when a field has been
    started or a quoted field is open. *)
Definition pending (r : Reader) : bool :=
  negb (String.length (field r) =? 0)%nat || bool_decide (state r = IN_QUOTED_FIELD).

(** [for row in csv.reader(lines): body(row)], the body working on a state
    [S] that it returns as it leaves it.  The reader is lazy: a line is read
    when the loop asks for the next row, so an error of the body on a row
    comes before an error of the reader on a later line. *)
Fixpoint for_rows {S : Type} (body : list string -> S -> S * result unit)
    (r : Reader) (lines : list string) (s : S) : S * result unit :=
  match lines with
  | [] =>
      if pending r then body (fields (parse_save_field r)) s else (s, Ok tt)
  | line :: rest =>
      match feed_line r line with
      | Raise e => (s, Raise e)
      | Ok r' =>
          if bool_decide (state r' = START_RECORD)
          then match body (fields r') s with
               | (s', Ok _) => for_rows body parse_reset rest s'
               | (s', Raise e) => (s', Raise e)
               end
          else for_rows body r' rest s
      end
  end.

(** The rows the reader yields for the lines, up to the end of the input or
    to the first error of the reader. *)
Fixpoint read_rows (r : Reader) (lines : list string)
    : list (list string) * result unit :=
  match lines with
  | [] =>
      if pending r then ([fields (parse_save_field r)], Ok tt) else ([], Ok tt)
  | line :: rest =>
      match feed_line r line with
      | Raise e => ([], Raise e)
      | Ok r' =>
          if bool_decide (state r' = START_RECORD)
          then let (rows, end_) := read_rows parse_reset rest in
               (fields r' :: rows, end_)
          else read_rows r' rest
      end
  end.

Definition csv_rows (lines : list string) : list (list string) * result unit :=
  read_rows parse_reset lines.

(** The body of a loop run on a list of rows, up to its first error. *)
Fixpoint run_rows {S : Type} (body : list string -> S -> S * result unit)
    (rows : list (list string)) (s : S) : S * result unit :=
  match rows with
  | [] => (s, Ok tt)
  | row :: rest =>
      match body row s with
      | (s', Ok _) => run_rows body rest s'
      | (s', Raise e) => (s', Raise e)
      end
  end.

End Text.

(** ** Core and Builder *)

Module Litedram.

(** What [litedram.modules] tells about a DRAM module: its type, its number
    of banks and its geometry. *)
Record GeomSettings := {
  bankbits : Z;
  rowbits  : Z;
  colbits  : Z
}.

Record SDRAMModule := {
  memtype       : string;
  nbanks        : Z;
  geom_settings : GeomSettings
}.

(** Modelled from the spec: [nmigen.build.run.BuildPlan], a named script and
    a set of (relative path, text content) file pairs. *)
Record BuildPlan := {
  script : string;
  files  : list (string * string)
}.

(** Modelled from the spec: [nmigen.build.run.BuildProducts], the artifact
    bundle; it supports fetching a named text artifact by file name. *)
Abbreviation BuildProducts := (gmap string string).

Definition BuildProducts_get (filename : string) (products : BuildProducts)
    : result string :=
  match products !! filename with
  | Some text => Ok text
  | None => Raise (FileNotFoundError filename)
  end.

Record Core := {
  config    : Cfg.Config;
  name      : string;
  size      : Z;
  user_port : NativePort.NativePort;
  _ctrl_bus : option Wishbone.Interface;
  _pins     : value
}.

Definition with_ctrl_bus (bus : Wishbone.Interface) (self : Core) : Core :=
  {| config := config self; name := name self; size := size self;
     user_port := user_port self; _ctrl_bus := Some bus; _pins := _pins self |}.

Record Builder := {
  namespace : gset string
}.

(** [Builder.__init__]. *)
Definition Builder_init : Builder := {| namespace := ∅ |}.

(** What [build] returns: the plan, or the products of its execution. *)
Inductive BuildResult :=
| Plan (plan : BuildPlan)
| Products (products : BuildProducts).

(** The error of [ctrl_bus] before the build. *)
Definition not_populated : exn :=
  AttributeError
    "Control bus memory map has not been populated. Core.build(do_build=True) must be called before accessing Core.ctrl_bus"
    [].

(** The [ctrl_bus] getter. *)
Definition ctrl_bus (self : Core) : result Wishbone.Interface :=
  match _ctrl_bus self with
  | None => Raise not_populated
  | Some bus => Ok bus
  end.

(** The error of [prepare] on a name that is taken. *)
Definition name_conflict (n : string) : exn :=
  ValueError
    "LiteDRAM core name '{}' has already been used for a previous build. Building this instance may overwrite previous build products. Passing `name_force=True` will disable this check"
    [VStr n].

(** [2**e] as an integer; a negative exponent gives a float in Python,
    which no integer stands for. *)
Definition pow2 (e : Z) : option Z :=
  if e <? 0 then None else Some (2 ^ e).

(** The body of the loop of [_populate_ctrl_map], on the local [ctrl_map]. *)
Definition ctrl_row (csr_data_width : Z) (row : list string)
    (ctrl_map : Mem.MemoryMap) : Mem.MemoryMap * result unit :=
  match row with
  | [] => (ctrl_map, Ok tt)
  | EmptyString :: _ => (ctrl_map, Raise (IndexError "string index out of range"))
  | String c _ :: _ =>
      if Ascii.eqb c Text.HASH then (ctrl_map, Ok tt)
      else
        match row with
        | [res_type; res_name; addr; size; attrs] =>
            if bool_decide (res_type = "csr_register")
            then
              match Text.py_int addr 16 with
              | Raise e => (ctrl_map, Raise e)
              | Ok a =>
                  match Text.py_int size 10 with
                  | Raise e => (ctrl_map, Raise e)
                  | Ok sz =>
                      match Mem.add_resource res_name
                              (sz * csr_data_width / Mem.data_width ctrl_map)
                              (Some a) true ctrl_map with
                      | (m, Ok _) => (m, Ok tt)
                      | (m, Raise e) => (m, Raise e)
                      end
                  end
              end
            else (ctrl_map, Ok tt)
        | _ =>
            (ctrl_map,
             if (length row <? 5)%nat
             then Raise (ValueError "not enough values to unpack (expected 5, got {})"
                           [VInt (Z.of_nat (length row))])
             else Raise (ValueError "too many values to unpack (expected 5)" []))
        end
  end.

(** *** The rows of the listing, as the documentation reads them *)

(** A row of the recognized kind. *)
Definition mapped_row (row : list string) : bool :=
  match row with
  | res_type :: _ => bool_decide (res_type = "csr_register")
  | [] => false
  end.

(** What a row asks of the memory map: the name, the address read in base
    16 and the size read in base 10, scaled by the ratio of the widths. *)
Definition request_of (csr_data_width : Z) (row : list string)
    : option (string * Z * Z) :=
  match row with
  | [_; res_name; addr; size; _] =>
      match Text.py_int addr 16, Text.py_int size 10 with
      | Ok a, Ok sz => Some (res_name, a, sz * (csr_data_width / 8))
      | _, _ => None
      end
  | _ => None
  end.

(** The requests, made of the map one after the other, in extend mode. *)
Fixpoint add_requests (reqs : list (string * Z * Z)) (m : Mem.MemoryMap)
    : Mem.MemoryMap * result unit :=
  match reqs with
  | [] => (m, Ok tt)
  | (res_name, a, sz) :: rest =>
      match Mem.add_resource res_name sz (Some a) true m with
      | (m', Ok _) => add_requests rest m'
      | (m', Raise e) => (m', Raise e)
      end
  end.

(** A row the loop takes without an error of its own: an empty row, a
    comment, or five fields the first of which is not empty. *)
Definition well_formed (row : list string) : bool :=
  match row with
  | [] => true
  | EmptyString :: _ => false
  | String c _ :: _ => Ascii.eqb c Text.HASH || (length row =? 5)%nat
  end.

Definition is_raise {A} (r : result A) : bool :=
  match r with Raise _ => true | Ok _ => false end.

(** A malformed data row: a row that is not a comment and has not five
    fields, or a row of the recognized kind whose address or size is not a
    number. *)
Definition malformed (row : list string) : bool :=
  match row with
  | String c _ :: _ =>
      negb (Ascii.eqb c Text.HASH)
      && match row with
         | [res_type; _; addr; size; _] =>
             bool_decide (res_type = "csr_register")
             && (is_raise (Text.py_int addr 16) || is_raise (Text.py_int size 10))
         | _ => true
         end
  | _ => false
  end.

(** The error of a malformed row: the count of its fields when they are not
    five, the literal that is not a number otherwise. *)
Definition row_error (row : list string) : exn :=
  match row with
  | [_; _; addr; size; _] =>
      if is_raise (Text.py_int addr 16) then Text.invalid_literal 16 addr
      else Text.invalid_literal 10 size
  | _ =>
      if (length row <? 5)%nat
      then ValueError "not enough values to unpack (expected 5, got {})"
             [VInt (Z.of_nat (length row))]
      else ValueError "too many values to unpack (expected 5)" []
  end.

(** What the loop keeps of the control map: a byte-wide map of at least one
    address bit. *)
Definition ctrl_inv (m : Mem.MemoryMap) : Prop :=
  Mem.data_width m = 8 ∧ 1 <= Mem.addr_width m.

(** The empty map [_populate_ctrl_map] starts from. *)
Definition empty_ctrl_map : Mem.MemoryMap :=
  {| Mem.addr_width := 1; Mem.data_width := 8; Mem._frozen := false;
     Mem._resources := []; Mem._next_addr := 0 |}.

(** [Core._populate_ctrl_map].  The state is the store and the core; both
    are returned as the method leaves them, also when it raises. *)
Definition _populate_ctrl_map (build_products : BuildProducts)
    (h : Mem.Store) (self : Core) : Mem.Store * Core * result unit :=
  match Mem.MemoryMap_init 1 8 with
  | Raise e => (h, self, Raise e)
  | Ok m0 =>
      let (h1, ctrl_map) := Mem.alloc m0 h in
      match BuildProducts_get (name self ++ "_csr.csv") build_products with
      | Raise e => (h1, self, Raise e)
      | Ok csr_csv =>
          match Text.for_rows (ctrl_row (Cfg.csr_data_width (config self)))
                  Text.parse_reset (Text.split_lines csr_csv) m0 with
          | (m, Raise e) => (<[ctrl_map := m]> h1, self, Raise e)
          | (m, Ok _) =>
              let h2 := <[ctrl_map := m]> h1 in
              match log2_int (Cfg.csr_data_width (config self) / Mem.data_width m) with
              | Raise e => (h2, self, Raise e)
              | Ok ratio_bits =>
                  match Wishbone.init (Mem.addr_width m - ratio_bits)
                          (Cfg.csr_data_width (config self)) (Mem.data_width m) with
                  | Raise e => (h2, self, Raise e)
                  | Ok bus =>
                      match Wishbone.set_memory_map (VRef ctrl_map) h2 bus with
                      | (h3, bus', r) => (h3, with_ctrl_bus bus' self, r)
                      end
                  end
              end
          end
      end
  end.

Section Collaborators.

(** The classes of [litedram.modules] by name; a class is called with the
    clock frequency and the rate. *)
Variable litedram_modules : string -> option (Z -> string -> result SDRAMModule).

(** [tracer.get_var_name], the name of the variable the core is assigned to,
    if the tracer finds one. *)
Variable get_var_name : result string.

(** The rendering of [Builder.file_templates], names and contents, by jinja2
    for a core and the [sim] flag. *)
Variable render_files : Core -> bool -> list (string * string).

(** [BuildPlan.execute_local], the run of the plan in a build directory. *)
Variable execute_local : BuildPlan -> string -> result BuildProducts.

(** [Config.get_module]. *)
Definition get_module (self : Cfg.Config) : result SDRAMModule :=
  match litedram_modules (Cfg.module_name self) with
  | None =>
      Raise (AttributeError "module 'litedram.modules' has no attribute {!r}"
               [VStr (Cfg.module_name self)])
  | Some module_class =>
      let* module := module_class (Cfg.user_clk_freq self) (Cfg._rate self) in
      if bool_decide (memtype module = Cfg.memtype self)
      then Ok module
      else Raise AssertionError
  end.

(** [Core.__init__].  The state is the store, where the map of the user
    port is allocated. *)
Definition Core_init (config : Cfg.Config) (pins : value) (name : value)
    (h : Mem.Store) : Mem.Store * result Core :=
  let lift {A} (r : result A) (k : A -> Mem.Store * result Core) :=
    match r with Ok a => k a | Raise e => (h, Raise e) end in
  lift (if negb (bool_decide (name = VNone)) && negb (is_str name)
        then Raise (TypeError "Name must be a string, not {!r}" [name])
        else match name with
             | VStr (String c n) => Ok (String c n)
             | _ => get_var_name
             end) (fun self_name =>
  lift (get_module config) (fun module =>
  let geom := geom_settings module in
  let size := option_map (Z.mul (Cfg.module_bytes config))
                (pow2 (bankbits geom + rowbits geom + colbits geom)) in
  lift (log2_int (nbanks module)) (fun bank_bits =>
  lift (log2_int (Cfg.module_ranks config)) (fun rank_bits =>
  let user_addr_width := rowbits geom + colbits geom + bank_bits + Z.max rank_bits 1 in
  lift (log2_int (Cfg.user_data_width config / 8)) (fun width_bits =>
  lift (NativePort.init (user_addr_width - width_bits) (Cfg.user_data_width config))
    (fun port =>
  lift (Mem.MemoryMap_init user_addr_width 8) (fun m0 =>
  let (h1, user_map) := Mem.alloc m0 h in
  match size with
  | None =>
      (h1, Raise (ValueError "Size must be a non-negative integer, not {!r}" []))
  | Some size =>
      match Mem.add_resource "user_port_0" size None false m0 with
      | (m1, Raise e) => (<[user_map := m1]> h1, Raise e)
      | (m1, Ok _) =>
          match NativePort.set_memory_map (VRef user_map) (<[user_map := m1]> h1) port with
          | (h2, _, Raise e) => (h2, Raise e)
          | (h2, port', Ok _) =>
              (h2, Ok {| config := config; name := self_name; size := size;
                         user_port := port'; _ctrl_bus := None; _pins := pins |})
          end
      end
  end))))))).

(** [Builder.prepare]. *)
Definition prepare (core : Core) (sim name_force : bool) (self : Builder)
    : Builder * result BuildPlan :=
  if bool_decide (name core ∈ namespace self) && negb name_force
  then (self, Raise (name_conflict (name core)))
  else ({| namespace := {[ name core ]} ∪ namespace self |},
        Ok {| script := "build_" ++ name core; files := render_files core sim |}).

(** [Core.build].  The state is the store, the core and the builder. *)
Definition build (builder : Builder) (do_build : bool) (build_dir : string)
    (sim name_force : bool) (h : Mem.Store) (self : Core)
    : Mem.Store * Core * Builder * result BuildResult :=
  match prepare self sim name_force builder with
  | (builder', Raise e) => (h, self, builder', Raise e)
  | (builder', Ok plan) =>
      if negb do_build then (h, self, builder', Ok (Plan plan))
      else
        match execute_local plan build_dir with
        | Raise e => (h, self, builder', Raise e)
        | Ok products =>
            match _populate_ctrl_map products h self with
            | (h', self', Raise e) => (h', self', builder', Raise e)
            | (h', self', Ok _) => (h', self', builder', Ok (Products products))
            end
        end
  end.

End Collaborators.

End Litedram.

(** ** A sample design

    The Micron MT41K64M16 of the ECP5 evaluation boards: a DDR3 module of 8
    banks, 13 row bits and 10 column bits. *)

Module Sample.
Import Litedram.

Definition args : Cfg.Args := {|
  Cfg.a_memtype          := VStr "DDR3";
  Cfg.a_module_name      := VStr "MT41K64M16";
  Cfg.a_module_bytes     := VInt 1;
  Cfg.a_module_ranks     := VInt 1;
  Cfg.a_input_clk_freq   := VInt 100000000;
  Cfg.a_user_clk_freq    := VInt 70000000;
  Cfg.a_input_domain     := VStr "litedram_input";
  Cfg.a_user_domain      := VStr "litedram_user";
  Cfg.a_user_data_width  := VInt 128;
  Cfg.a_cmd_buffer_depth := VInt 16;
  Cfg.a_csr_data_width   := VInt 32
|}.

Definition with_memtype (v : value) (a : Cfg.Args) : Cfg.Args := {|
  Cfg.a_memtype          := v;
  Cfg.a_module_name      := Cfg.a_module_name a;
  Cfg.a_module_bytes     := Cfg.a_module_bytes a;
  Cfg.a_module_ranks     := Cfg.a_module_ranks a;
  Cfg.a_input_clk_freq   := Cfg.a_input_clk_freq a;
  Cfg.a_user_clk_freq    := Cfg.a_user_clk_freq a;
  Cfg.a_input_domain     := Cfg.a_input_domain a;
  Cfg.a_user_domain      := Cfg.a_user_domain a;
  Cfg.a_user_data_width  := Cfg.a_user_data_width a;
  Cfg.a_cmd_buffer_depth := Cfg.a_cmd_buffer_depth a;
  Cfg.a_csr_data_width   := Cfg.a_csr_data_width a
|}.

Definition with_module_bytes (v : value) (a : Cfg.Args) : Cfg.Args := {|
  Cfg.a_memtype          := Cfg.a_memtype a;
  Cfg.a_module_name      := Cfg.a_module_name a;
  Cfg.a_module_bytes     := v;
  Cfg.a_module_ranks     := Cfg.a_module_ranks a;
  Cfg.a_input_clk_freq   := Cfg.a_input_clk_freq a;
  Cfg.a_user_clk_freq    := Cfg.a_user_clk_freq a;
  Cfg.a_input_domain     := Cfg.a_input_domain a;
  Cfg.a_user_domain      := Cfg.a_user_domain a;
  Cfg.a_user_data_width  := Cfg.a_user_data_width a;
  Cfg.a_cmd_buffer_depth := Cfg.a_cmd_buffer_depth a;
  Cfg.a_csr_data_width   := Cfg.a_csr_data_width a
|}.

Definition with_module_ranks (v : value) (a : Cfg.Args) : Cfg.Args := {|
  Cfg.a_memtype          := Cfg.a_memtype a;
  Cfg.a_module_name      := Cfg.a_module_name a;
  Cfg.a_module_bytes     := Cfg.a_module_bytes a;
  Cfg.a_module_ranks     := v;
  Cfg.a_input_clk_freq   := Cfg.a_input_clk_freq a;
  Cfg.a_user_clk_freq    := Cfg.a_user_clk_freq a;
  Cfg.a_input_domain     := Cfg.a_input_domain a;
  Cfg.a_user_domain      := Cfg.a_user_domain a;
  Cfg.a_user_data_width  := Cfg.a_user_data_width a;
  Cfg.a_cmd_buffer_depth := Cfg.a_cmd_buffer_depth a;
  Cfg.a_csr_data_width   := Cfg.a_csr_data_width a
|}.

(** The configuration [Config.__init__] makes of [args]. *)
Definition cfg_of (a : Cfg.Args) (rate : string) : Cfg.Config := {|
  Cfg.memtype          := as_str (Cfg.a_memtype a);
  Cfg._rate            := rate;
  Cfg.module_name      := as_str (Cfg.a_module_name a);
  Cfg.module_bytes     := as_int (Cfg.a_module_bytes a);
  Cfg.module_ranks     := as_int (Cfg.a_module_ranks a);
  Cfg.input_clk_freq   := as_int (Cfg.a_input_clk_freq a);
  Cfg.user_clk_freq    := as_int (Cfg.a_user_clk_freq a);
  Cfg.input_domain     := as_str (Cfg.a_input_domain a);
  Cfg.user_domain      := as_str (Cfg.a_user_domain a);
  Cfg.user_data_width  := as_int (Cfg.a_user_data_width a);
  Cfg.cmd_buffer_depth := as_int (Cfg.a_cmd_buffer_depth a);
  Cfg.csr_data_width   := as_int (Cfg.a_csr_data_width a)
|}.

Definition cfg : Cfg.Config := cfg_of args "1:4".

Definition MT41K64M16 (memtype : string) : SDRAMModule := {|
  memtype       := memtype;
  nbanks        := 8;
  geom_settings := {| bankbits := 3; rowbits := 13; colbits := 10 |}
|}.

(** A geometry provider that knows this module only. *)
Definition modules (n : string) : option (Z -> string -> result SDRAMModule) :=
  if bool_decide (n = "MT41K64M16") then Some (fun _ _ => Ok (MT41K64M16 "DDR3"))
  else None.

(** A provider whose table is corrupt: it reports the module as DDR2. *)
Definition corrupt_modules (n : string)
    : option (Z -> string -> result SDRAMModule) :=
  if bool_decide (n = "MT41K64M16") then Some (fun _ _ => Ok (MT41K64M16 "DDR2"))
  else None.

(** No variable name for the tracer to find. *)
Definition no_var_name : result string :=
  Raise (ValueError "name not found" []).

Definition no_files (core : Core) (sim : bool) : list (string * string) := [].

(** An executor that produces the given CSR listing for the core [dram]. *)
Definition executor (listing : string) (plan : BuildPlan) (build_dir : string)
    : result BuildProducts :=
  Ok {[ "dram_csr.csv" := listing ]}.

Definition newline : string := String Text.LF EmptyString.

(** Listings: the row of the documentation with the kind the code
    recognizes and with the kind [register], and rows with an address that
    is not a number. *)
Definition status_row : string := "csr_register,ctrl_status,0x10,1,ro".
Definition reset_row : string := "csr_register,ctrl_reset,0x0,1,rw".
Definition register_status_row : string := "register,ctrl_status,0x10,1,ro".
Definition register_bad_row : string := "register,bad_addr,ZZ,1,ro".
Definition bad_row : string := "csr_register,bad_addr,ZZ,1,ro".

(** The control map and the control bus made of [status_row], and of
    [reset_row], for a control data width of 32 bits. *)
Definition status_map : Mem.MemoryMap :=
  {| Mem.addr_width := 5; Mem.data_width := 8; Mem._frozen := true;
     Mem._resources := [("ctrl_status", (16, 20))]; Mem._next_addr := 20 |}.

Definition status_bus (l : nat) : Wishbone.Interface :=
  {| Wishbone.addr_width := 3; Wishbone.data_width := 32;
     Wishbone.granularity := 8; Wishbone._map := Some l |}.

Definition reset_map : Mem.MemoryMap :=
  {| Mem.addr_width := 3; Mem.data_width := 8; Mem._frozen := true;
     Mem._resources := [("ctrl_reset", (0, 4))]; Mem._next_addr := 4 |}.

Definition reset_bus (l : nat) : Wishbone.Interface :=
  {| Wishbone.addr_width := 1; Wishbone.data_width := 32;
     Wishbone.granularity := 8; Wishbone._map := Some l |}.

(** A port of 4 address bits and 8 data bits, and a byte-wide memory map of
    a given address width. *)
Definition byte_port : NativePort.NativePort :=
  {| NativePort.addr_width := 4; NativePort.data_width := 8;
     NativePort.granularity := 8; NativePort._map := None |}.

Definition byte_map (aw : Z) : Mem.MemoryMap :=
  {| Mem.addr_width := aw; Mem.data_width := 8; Mem._frozen := false;
     Mem._resources := []; Mem._next_addr := 0 |}.

(** The store and the core that [Core.__init__] makes of [cfg] in an empty
    store, for a core of the given name. *)
Definition store : Mem.Store :=
  [ {| Mem.addr_width := 27; Mem.data_width := 8; Mem._frozen := true;
       Mem._resources := [("user_port_0", (0, 67108864))];
       Mem._next_addr := 67108864 |} ].

Definition core (n : string) : Core := {|
  config    := cfg;
  name      := n;
  size      := 67108864;
  user_port := {| NativePort.addr_width := 23; NativePort.data_width := 128;
                  NativePort.granularity := 8; NativePort._map := Some 0%nat |};
  _ctrl_bus := None;
  _pins     := VNone
|}.

End Sample.

(** ** Further domains and drivers *)

Module More.
Import Litedram.

(** A non-negative integer; [False] is the integer 0. *)
Definition non_negative_integer (v : value) : Prop :=
  is_int v = true ∧ 0 <= as_int v.

(** The rate [Config.__init__] derives from a memory type. *)
Definition rate_of (memtype : string) : string :=
  if bool_decide (memtype = "DDR2") then "1:2" else "1:4".

(** The name [Core.__init__] gives the core: the [name] argument when it is
    a string that is not empty, the name the tracer finds when the argument
    is [None] or the empty string. *)
Definition resolve_name (get_var_name : result string) (name : value)
    : result string :=
  if negb (bool_decide (name = VNone)) && negb (is_str name)
  then Raise (TypeError "Name must be a string, not {!r}" [name])
  else match name with
       | VStr (String c n) => Ok (String c n)
       | _ => get_var_name
       end.

(** The address width of the user map of a core:
    [rowbits + colbits + log2(nbanks) + max(log2(ranks), 1)]. *)
Definition user_addr_width (module : SDRAMModule) (bank_bits rank_bits : Z) : Z :=
  rowbits (geom_settings module) + colbits (geom_settings module)
  + bank_bits + Z.max rank_bits 1.

(** The sum of the bank, row and column bits of a module. *)
Definition geom_bits (module : SDRAMModule) : Z :=
  bankbits (geom_settings module) + rowbits (geom_settings module)
  + colbits (geom_settings module).

(** The characters [\s] matches in a [str] pattern, among the code points
    below 256. *)
Definition is_whitespace (c : ascii) : bool :=
  let n := Text.code c in
  ((9 <=? n) && (n <=? 13) || (28 <=? n) && (n <=? 32) || (n =? 133) || (n =? 160))%N.

Definition SPACE : ascii := " "%char.

(** [re.sub(r"\s+", " ", s)]: every maximal run of white space becomes one
    space.  [in_run] tells that the previous character was white space. *)
Fixpoint collapse (in_run : bool) (s : string) : string :=
  match s with
  | EmptyString => EmptyString
  | String c s' =>
      if is_whitespace c
      then if in_run then collapse true s' else String SPACE (collapse true s')
      else String c (collapse false s')
  end.

Definition normalize_space (s : string) : string := collapse false s.

(** A text whose only white space is single spaces: [prev] tells that the
    previous character was a space. *)
Fixpoint single_spaced (prev : bool) (s : string) : bool :=
  match s with
  | EmptyString => true
  | String c s' =>
      if Ascii.eqb c SPACE then negb prev && single_spaced true s'
      else negb (is_whitespace c) && single_spaced false s'
  end.

(** ["\n".join(commands)]. *)
Fixpoint join_lines (commands : list string) : string :=
  match commands with
  | [] => EmptyString
  | [c] => c
  | c :: rest => c ++ String Text.LF (join_lines rest)
  end.

(** [emit_commands] of [Builder.prepare]: every command template is
    rendered (with its origin, the index counted from 1), its white space is
    normalized, and the commands are joined by line feeds.  [render] is the
    rendering by jinja2. *)
Definition emit_commands (render : string -> nat -> string)
    (command_templates : list string) : string :=
  join_lines
    (imap (fun index command_tpl => normalize_space (render command_tpl (S index)))
       command_templates).

(** A sequence of calls of [prepare] on one builder: the builder it leaves
    and the results of the calls, in order. *)
Fixpoint prepare_all (render_files : Core -> bool -> list (string * string))
    (calls : list (Core * bool * bool)) (self : Builder)
    : Builder * list (result BuildPlan) :=
  match calls with
  | [] => (self, [])
  | (core, sim, name_force) :: rest =>
      let (self', r) := prepare render_files core sim name_force self in
      let (self'', rs) := prepare_all render_files rest self' in
      (self'', r :: rs)
  end.

(** The control map made of [Sample.reset_row], before it is frozen. *)
Definition unfrozen_reset_map : Mem.MemoryMap :=
  {| Mem.addr_width := 3; Mem.data_width := 8; Mem._frozen := false;
     Mem._resources := [("ctrl_reset", (0, 4))]; Mem._next_addr := 4 |}.

End More.

(** * Properties *)

(** ** Config *)

Section ConfigProps.
Import Cfg.

Lemma memtype_check v :
  one_of_strings ["DDR2"; "DDR3"; "DDR4"] v ↔
  eq_str v "DDR2" || (eq_str v "DDR3" || eq_str v "DDR4") = true.
Proof.
  destruct v; simpl; try (split; [tauto | discriminate]).
  rewrite !orb_true_iff, !bool_decide_eq_true.
  rewrite !elem_of_cons, elem_of_nil. tauto.
Qed.

Lemma positive_check v :
  positive_integer v ↔ negb (is_int v) || (as_int v <=? 0) = false.
Proof.
  unfold positive_integer.
  rewrite orb_false_iff, negb_false_iff, Z.leb_gt. tauto.
Qed.

Lemma string_check v : a_string v ↔ negb (is_str v) = false.
Proof. destruct v; simpl; split; (tauto || discriminate || done). Qed.

Lemma width_check ws v : one_of_widths ws v ↔ negb (in_ints v ws) = false.
Proof.
  unfold one_of_widths, in_ints.
  rewrite negb_false_iff, andb_true_iff, bool_decide_eq_true. tauto.
Qed.

Ltac domain_to_check :=
  repeat match goal with
  | H : one_of_strings _ _ |- _ => apply memtype_check in H
  | H : positive_integer _ |- _ => apply positive_check in H
  | H : a_string _ |- _ => apply string_check in H
  | H : one_of_widths _ _ |- _ => apply width_check in H
  | H : ¬ one_of_strings _ _ |- _ =>
      rewrite memtype_check in H; apply not_true_iff_false in H
  | H : ¬ positive_integer _ |- _ =>
      rewrite positive_check in H; apply not_false_iff_true in H
  | H : ¬ a_string _ |- _ =>
      rewrite string_check in H; apply not_false_iff_true in H
  | H : ¬ one_of_widths _ _ |- _ =>
      rewrite width_check in H; apply not_false_iff_true in H
  end.

Ltac use_checks :=
  repeat match goal with
  | H : ?b = true |- context [?b] => rewrite H
  | H : ?b = false |- context [?b] => rewrite H
  end.

(** The rate of a supported memory type. *)
Lemma rate_of_memtype v :
  eq_str v "DDR2" || (eq_str v "DDR3" || eq_str v "DDR4") = true →
  ∃ rate,
    (if eq_str v "DDR2" then Ok "1:2"
     else if eq_str v "DDR3" || eq_str v "DDR4" then Ok "1:4"
     else Raise (ValueError msg_memtype [v])) = Ok rate.
Proof.
  intros H. destruct (eq_str v "DDR2"); [by eexists|].
  simpl in H. rewrite H. by eexists.
Qed.

Lemma no_rate_of_memtype v :
  eq_str v "DDR2" || (eq_str v "DDR3" || eq_str v "DDR4") = false →
  (if eq_str v "DDR2" then Ok "1:2"
   else if eq_str v "DDR3" || eq_str v "DDR4" then Ok "1:4"
   else Raise (ValueError msg_memtype [v])) = Raise (ValueError msg_memtype [v]).
Proof.
  intros H. apply orb_false_iff in H as [-> ->]. done.
Qed.

(** The first field out of its domain decides the error. *)
Lemma Config_init_first_violation a f :
  ¬ in_domain f (field_value a f) →
  (∀ g, (rank g < rank f)%nat → in_domain g (field_value a g)) →
  Config_init a = Raise (ValueError (complaint f) [field_value a f]).
Proof.
  intros Hbad Hpre.
  assert (Hp : ∀ g, (rank g <? rank f)%nat = true → in_domain g (field_value a g))
    by (intros g Hg; apply Hpre, Nat.ltb_lt, Hg).
  pose proof (Hp f_memtype) as H0. pose proof (Hp f_module_name) as H1.
  pose proof (Hp f_module_bytes) as H2. pose proof (Hp f_module_ranks) as H3.
  pose proof (Hp f_input_clk_freq) as H4. pose proof (Hp f_user_clk_freq) as H5.
  pose proof (Hp f_input_domain) as H6. pose proof (Hp f_user_domain) as H7.
  pose proof (Hp f_user_data_width) as H8. pose proof (Hp f_cmd_buffer_depth) as H9.
  clear Hp Hpre.
  destruct f; simpl in *;
    repeat match goal with
    | H : ?c = true → _ |- _ =>
        let b := eval vm_compute in c in
        match b with
        | true => specialize (H eq_refl)
        | false => clear H
        end
    end;
    domain_to_check; unfold Config_init;
    try (rewrite (no_rate_of_memtype _ Hbad); reflexivity);
    destruct (rate_of_memtype _ H0) as [rate ->]; simpl;
    use_checks; reflexivity.
Qed.

Lemma Config_init_all_valid a :
  (∀ f, in_domain f (field_value a f)) → ∃ cfg, Config_init a = Ok cfg.
Proof.
  intros Hall.
  pose proof (Hall f_memtype) as H0. pose proof (Hall f_module_name) as H1.
  pose proof (Hall f_module_bytes) as H2. pose proof (Hall f_module_ranks) as H3.
  pose proof (Hall f_input_clk_freq) as H4. pose proof (Hall f_user_clk_freq) as H5.
  pose proof (Hall f_input_domain) as H6. pose proof (Hall f_user_domain) as H7.
  pose proof (Hall f_user_data_width) as H8. pose proof (Hall f_cmd_buffer_depth) as H9.
  pose proof (Hall f_csr_data_width) as H10.
  clear Hall. simpl in *. domain_to_check. unfold Config_init.
  destruct (rate_of_memtype _ H0) as [rate ->]; simpl.
  use_checks. by eexists.
Qed.

(** Some field out of its domain: the first such field exists. *)
Lemma first_violation_exists a :
  (∃ f, ¬ in_domain f (field_value a f)) →
  ∃ g, ¬ in_domain g (field_value a g) ∧
       ∀ g', (rank g' < rank g)%nat → in_domain g' (field_value a g').
Proof.
  intros [f Hf].
  destruct (decide (in_domain f_memtype (field_value a f_memtype))) as [V0|];
    [|exists f_memtype; split; [done|intros g'; destruct g'; simpl; lia]].
  destruct (decide (in_domain f_module_name (field_value a f_module_name))) as [V1|];
    [|exists f_module_name; split; [done|intros g'; destruct g'; simpl; (done || lia)]].
  destruct (decide (in_domain f_module_bytes (field_value a f_module_bytes))) as [V2|];
    [|exists f_module_bytes; split; [done|intros g'; destruct g'; simpl; (done || lia)]].
  destruct (decide (in_domain f_module_ranks (field_value a f_module_ranks))) as [V3|];
    [|exists f_module_ranks; split; [done|intros g'; destruct g'; simpl; (done || lia)]].
  destruct (decide (in_domain f_input_clk_freq (field_value a f_input_clk_freq))) as [V4|];
    [|exists f_input_clk_freq; split; [done|intros g'; destruct g'; simpl; (done || lia)]].
  destruct (decide (in_domain f_user_clk_freq (field_value a f_user_clk_freq))) as [V5|];
    [|exists f_user_clk_freq; split; [done|intros g'; destruct g'; simpl; (done || lia)]].
  destruct (decide (in_domain f_input_domain (field_value a f_input_domain))) as [V6|];
    [|exists f_input_domain; split; [done|intros g'; destruct g'; simpl; (done || lia)]].
  destruct (decide (in_domain f_user_domain (field_value a f_user_domain))) as [V7|];
    [|exists f_user_domain; split; [done|intros g'; destruct g'; simpl; (done || lia)]].
  destruct (decide (in_domain f_user_data_width (field_value a f_user_data_width))) as [V8|];
    [|exists f_user_data_width; split; [done|intros g'; destruct g'; simpl; (done || lia)]].
  destruct (decide (in_domain f_cmd_buffer_depth (field_value a f_cmd_buffer_depth))) as [V9|];
    [|exists f_cmd_buffer_depth; split; [done|intros g'; destruct g'; simpl; (done || lia)]].
  destruct (decide (in_domain f_csr_data_width (field_value a f_csr_data_width))) as [V10|];
    [|exists f_csr_data_width; split; [done|intros g'; destruct g'; simpl; (done || lia)]].
  destruct f; contradiction.
Qed.

Lemma complaint_inj f g : complaint f = complaint g → f = g.
Proof.
  destruct f, g; intros H; try reflexivity; vm_compute in H; discriminate H.
Qed.

(** What a constructed configuration is known to satisfy. *)
Lemma Config_init_ok_inv a cfg :
  Config_init a = Ok cfg →
  0 < module_bytes cfg ∧ 0 < module_ranks cfg
  ∧ user_data_width cfg ∈ [8; 16; 32; 64; 128]
  ∧ csr_data_width cfg ∈ [8; 16; 32; 64].
Proof.
  unfold Config_init.
  destruct (if eq_str (a_memtype a) "DDR2" then _ else _) as [rate|]; simpl;
    [|discriminate].
  repeat match goal with
  | |- context [if ?b then _ else _] => destruct b eqn:?; [discriminate|]
  end.
  intros [= <-]. simpl.
  repeat match goal with
  | H : negb (is_int _) || _ = false |- _ => apply positive_check in H as [_ ?]
  | H : negb (in_ints _ _) = false |- _ => apply width_check in H as [_ ?]
  end.
  done.
Qed.

(** C8: a field value out of its declared domain makes [Config.__init__]
    fail with a [ValueError] whose message names the field and whose
    argument is the offending value.  The checks run in a fixed order and
    stop at the first violation: the error is the one of the first field out
    of its domain.  No configuration is returned then, by the base class or
    by a device family, and the messages of two fields differ. *)
Theorem Config_init_rejects_invalid_fields (a : Args) :
  (∀ f, ¬ in_domain f (field_value a f) →
        (∀ g, (rank g < rank f)%nat → in_domain g (field_value a g)) →
        Config_init a = Raise (ValueError (complaint f) [field_value a f]))
  ∧ ((∃ f, ¬ in_domain f (field_value a f)) →
     ∃ g, ¬ in_domain g (field_value a g)
          ∧ Config_init a = Raise (ValueError (complaint g) [field_value a g])
          ∧ (∀ v, ECP5Config_init v a
                  = Raise (ValueError (complaint g) [field_value a g]))
          ∧ (∀ v1 v2 v3 v4 v5 v6, Artix7Config_init v1 v2 v3 v4 v5 v6 a
                  = Raise (ValueError (complaint g) [field_value a g])))
  ∧ (∀ f g, complaint f = complaint g → f = g).
Proof.
  split; [|split].
  - intros f. apply Config_init_first_violation.
  - intros Hbad. destruct (first_violation_exists a Hbad) as (g & Hg & Hpre).
    exists g. pose proof (Config_init_first_violation a g Hg Hpre) as E.
    split; [done|]. split; [done|].
    unfold ECP5Config_init, Artix7Config_init. rewrite E. done.
  - apply complaint_inj.
Qed.

Lemma Config_init_rejects_invalid_fields_witness :
  Config_init (Sample.with_module_bytes (VInt 0) Sample.args)
  = Raise (ValueError msg_module_bytes [VInt 0])
  ∧ Config_init (Sample.with_memtype (VStr "DDR5") Sample.args)
    = Raise (ValueError msg_memtype [VStr "DDR5"]).
Proof.
  split.
  - apply (proj1 (Config_init_rejects_invalid_fields
                    (Sample.with_module_bytes (VInt 0) Sample.args)) f_module_bytes).
    + apply (bool_decide_eq_false_1 _). vm_compute. reflexivity.
    + intros g Hg. apply (bool_decide_eq_true_1 _).
      destruct g; simpl in Hg; try lia; vm_compute; reflexivity.
  - apply (proj1 (Config_init_rejects_invalid_fields
                    (Sample.with_memtype (VStr "DDR5") Sample.args)) f_memtype).
    + apply (bool_decide_eq_false_1 _). vm_compute. reflexivity.
    + intros g Hg. destruct g; simpl in Hg; lia.
Defined.

End ConfigProps.

(** ** The geometry provider *)

Section ProviderProps.
Import Litedram.

Variable litedram_modules : string -> option (Z -> string -> result SDRAMModule).

(** C9: when the geometry provider answers with a module description,
    [Config.get_module] fails with an [AssertionError] whenever the memory
    type of the description differs from the configured one, and returns the
    description unchanged otherwise. *)
Theorem get_module_checks_memtype (self : Cfg.Config)
    (module_class : Z -> string -> result SDRAMModule) (module : SDRAMModule) :
  litedram_modules (Cfg.module_name self) = Some module_class →
  module_class (Cfg.user_clk_freq self) (Cfg._rate self) = Ok module →
  (memtype module ≠ Cfg.memtype self →
   get_module litedram_modules self = Raise AssertionError)
  ∧ (memtype module = Cfg.memtype self →
     get_module litedram_modules self = Ok module).
Proof.
  intros Hclass Hmodule. unfold get_module. rewrite Hclass, Hmodule. simpl.
  split; intros H.
  - by rewrite bool_decide_eq_false_2.
  - by rewrite bool_decide_eq_true_2.
Qed.

End ProviderProps.

Lemma get_module_checks_memtype_witness :
  Litedram.get_module Sample.corrupt_modules Sample.cfg = Raise AssertionError
  ∧ Litedram.get_module Sample.modules Sample.cfg = Ok (Sample.MT41K64M16 "DDR3").
Proof.
  split.
  - apply (proj1 (get_module_checks_memtype Sample.corrupt_modules Sample.cfg
                    (fun _ _ => Ok (Sample.MT41K64M16 "DDR2"))
                    (Sample.MT41K64M16 "DDR2") eq_refl eq_refl)).
    simpl. discriminate.
  - apply (proj2 (get_module_checks_memtype Sample.modules Sample.cfg
                    (fun _ _ => Ok (Sample.MT41K64M16 "DDR3"))
                    (Sample.MT41K64M16 "DDR3") eq_refl eq_refl)).
    reflexivity.
Defined.

(** ** The namespace of the builder *)

Section NamespaceProps.
Import Litedram.

Variable render_files : Core -> bool -> list (string * string).
Variable execute_local : BuildPlan -> string -> result BuildProducts.

Lemma prepare_conflict core sim self :
  name core ∈ namespace self →
  prepare render_files core sim false self = (self, Raise (name_conflict (name core))).
Proof.
  intros Hin. unfold prepare. by rewrite bool_decide_eq_true_2.
Qed.

Lemma prepare_success core sim name_force self :
  name core ∉ namespace self ∨ name_force = true →
  prepare render_files core sim name_force self
  = ({| namespace := {[ name core ]} ∪ namespace self |},
     Ok {| script := "build_" ++ name core; files := render_files core sim |}).
Proof.
  intros H. unfold prepare.
  destruct H as [H | ->].
  - by rewrite bool_decide_eq_false_2.
  - by rewrite andb_false_r.
Qed.

Lemma prepare_inv core sim name_force self self' plan :
  prepare render_files core sim name_force self = (self', Ok plan) →
  namespace self' = {[ name core ]} ∪ namespace self
  ∧ plan = {| script := "build_" ++ name core; files := render_files core sim |}.
Proof.
  unfold prepare.
  destruct (bool_decide (name core ∈ namespace self) && negb name_force);
    intros [= <- <-]; done.
Qed.

(** The namespace never loses a name, whatever [prepare] returns. *)
Lemma prepare_grows core sim name_force self self' r :
  prepare render_files core sim name_force self = (self', r) →
  namespace self ⊆ namespace self'.
Proof.
  unfold prepare.
  destruct (bool_decide (name core ∈ namespace self) && negb name_force);
    intros [= <- <-]; simpl; set_solver.
Qed.

(** C3: preparing a core whose name is free, or with [name_force], succeeds
    and claims the name: the namespace is the one it was with that name.
    Preparing then a second core of the same name on the same builder fails
    with the name-conflict [ValueError] and leaves the builder as it is,
    unless [name_force] is passed; with [name_force] it succeeds and the
    name stays in the namespace, so that a third attempt with the same name
    behaves like the second.  Every successful [prepare] leaves the name of
    its core in the namespace. *)
Theorem prepare_name_conflict (first second third : Core)
    (sim1 name_force1 : bool) (self : Builder) :
  name first ∉ namespace self ∨ name_force1 = true →
  name second = name first →
  name third = name first →
  (∃ self1 plan1,
     prepare render_files first sim1 name_force1 self = (self1, Ok plan1)
     ∧ plan1 = {| script := "build_" ++ name first;
                  files := render_files first sim1 |}
     ∧ namespace self1 = {[ name first ]} ∪ namespace self
     ∧ name first ∈ namespace self1
     ∧ (∀ sim, prepare render_files second sim false self1
               = (self1, Raise (name_conflict (name second))))
     ∧ (∀ sim, ∃ self2 plan2,
           prepare render_files second sim true self1 = (self2, Ok plan2)
           ∧ namespace self2 = {[ name second ]} ∪ namespace self1
           ∧ name second ∈ namespace self2
           ∧ (∀ sim', prepare render_files third sim' false self2
                      = (self2, Raise (name_conflict (name third))))
           ∧ (∀ sim', ∃ self3 plan3,
                 prepare render_files third sim' true self2 = (self3, Ok plan3)
                 ∧ name third ∈ namespace self3)))
  ∧ (∀ core sim name_force builder builder' plan,
       prepare render_files core sim name_force builder = (builder', Ok plan) →
       name core ∈ namespace builder').
Proof.
  intros Hfree Hsecond Hthird. split.
  - eexists _, _. split; [by apply prepare_success|].
    split; [reflexivity|]. split; [reflexivity|]. simpl.
    assert (Hin1 : name first ∈ {[ name first ]} ∪ namespace self)
      by (apply elem_of_union_l, elem_of_singleton; reflexivity).
    split; [done|]. split.
    + intros sim. apply prepare_conflict. simpl. by rewrite Hsecond.
    + intros sim. eexists _, _. split; [apply prepare_success; by right|].
      split; [reflexivity|]. simpl.
      split; [apply elem_of_union_l, elem_of_singleton; reflexivity|]. split.
      * intros sim'. apply prepare_conflict. simpl. rewrite Hthird, Hsecond.
        apply elem_of_union_l, elem_of_singleton; reflexivity.
      * intros sim'. eexists _, _. split; [apply prepare_success; by right|].
        simpl. apply elem_of_union_l, elem_of_singleton; reflexivity.
  - intros core sim name_force builder builder' plan Hprep.
    apply prepare_inv in Hprep as [-> _].
    apply elem_of_union_l, elem_of_singleton; reflexivity.
Qed.

(** C10: [Core.build] with [do_build=False] returns the plan of [prepare]
    without running it: the executor plays no part, the store and the core
    are as before, so a control bus that was not populated still is not and
    its access still fails; yet the name of the core is in the namespace of
    the builder, and preparing another core of that name conflicts. *)
Theorem build_without_execution_claims_name (builder : Builder)
    (build_dir : string) (sim name_force : bool) (h : Mem.Store) (self : Core) :
  name self ∉ namespace builder ∨ name_force = true →
  ∃ builder' plan,
    build render_files execute_local builder false build_dir sim name_force h self
    = (h, self, builder', Ok (Plan plan))
    ∧ prepare render_files self sim name_force builder = (builder', Ok plan)
    ∧ (∀ other_executor,
         build render_files other_executor builder false build_dir sim name_force h self
         = (h, self, builder', Ok (Plan plan)))
    ∧ (_ctrl_bus self = None → ctrl_bus self = Raise not_populated)
    ∧ name self ∈ namespace builder'
    ∧ (∀ other sim', name other = name self →
         prepare render_files other sim' false builder'
         = (builder', Raise (name_conflict (name other)))).
Proof.
  intros Hfree. eexists _, _.
  pose proof (prepare_success self sim name_force builder Hfree) as Hprep.
  split; [unfold build; rewrite Hprep; reflexivity|].
  split; [exact Hprep|].
  split; [intros other_executor; unfold build; rewrite Hprep; reflexivity|].
  split; [intros Hnone; unfold ctrl_bus; by rewrite Hnone|].
  split; [simpl; apply elem_of_union_l, elem_of_singleton; reflexivity|].
  intros other sim' Hother. apply prepare_conflict. simpl. rewrite Hother.
  apply elem_of_union_l, elem_of_singleton; reflexivity.
Qed.

End NamespaceProps.

Lemma prepare_name_conflict_witness :
  ∃ self1 plan1,
    Litedram.prepare Sample.no_files (Sample.core "dram") false false
      Litedram.Builder_init = (self1, Ok plan1)
    ∧ "dram" ∈ Litedram.namespace self1
    ∧ Litedram.prepare Sample.no_files (Sample.core "dram") true false self1
      = (self1, Raise (Litedram.name_conflict "dram")).
Proof.
  destruct (proj1 (prepare_name_conflict Sample.no_files
                     (Sample.core "dram") (Sample.core "dram") (Sample.core "dram")
                     false false Litedram.Builder_init
                     (or_introl (not_elem_of_empty (C:=gset string) "dram"))
                     eq_refl eq_refl))
    as (self1 & plan1 & Hfirst & _ & _ & Hin & Hsecond & _).
  exists self1, plan1. split; [exact Hfirst|]. split; [exact Hin|].
  exact (Hsecond true).
Defined.

Lemma build_without_execution_claims_name_witness :
  ∃ builder' plan,
    Litedram.build Sample.no_files (Sample.executor Sample.status_row) Litedram.Builder_init
      false "build/litedram" false false Sample.store (Sample.core "dram")
    = (Sample.store, Sample.core "dram", builder', Ok (Litedram.Plan plan))
    ∧ "dram" ∈ Litedram.namespace builder'.
Proof.
  destruct (build_without_execution_claims_name Sample.no_files
              (Sample.executor Sample.status_row) Litedram.Builder_init "build/litedram"
              false false Sample.store (Sample.core "dram"))
    as (builder' & plan & Hbuild & _ & _ & _ & Hin & _).
  - left. apply (bool_decide_eq_false_1 _). vm_compute. reflexivity.
  - exists builder', plan. split; [exact Hbuild | exact Hin].
Defined.

(** ** Powers of two *)

Section Log2Props.

Lemma bit_length_pred_pow2 k : 0 <= k → bit_length (2 ^ k - 1) = k.
Proof.
  intros Hk. unfold bit_length.
  destruct (Z.eq_dec k 0) as [-> | Hne]; [reflexivity|].
  assert (1 < 2 ^ k) by (apply Z.pow_gt_1; lia).
  destruct (Z.eqb_spec (2 ^ k - 1) 0); [lia|].
  rewrite Z.abs_eq by lia.
  replace (2 ^ k - 1) with (Z.pred (2 ^ k)) by lia.
  rewrite Z.log2_pred_pow2 by lia. lia.
Qed.

Lemma log2_int_pow2 k : 0 <= k → log2_int (2 ^ k) = Ok k.
Proof.
  intros Hk. unfold log2_int.
  assert (0 < 2 ^ k) by (apply Z.pow_pos_nonneg; lia).
  destruct (Z.eqb_spec (2 ^ k) 0); [lia|].
  rewrite bit_length_pred_pow2 by done.
  rewrite Z.shiftl_1_l, Z.eqb_refl. reflexivity.
Qed.

(** [log2_int] succeeds on the powers of two and on 0 only. *)
Lemma log2_int_inv n r : log2_int n = Ok r → n = 0 ∧ r = 0 ∨ 0 <= r ∧ n = 2 ^ r.
Proof.
  unfold log2_int. destruct (Z.eqb_spec n 0) as [-> | Hne].
  - intros [= <-]. by left.
  - destruct (Z.eqb_spec (Z.shiftl 1 (bit_length (n - 1))) n) as [E | E];
      simpl; [|discriminate].
    intros [= <-]. right.
    assert (0 <= bit_length (n - 1)).
    { unfold bit_length. destruct (n - 1 =? 0); [lia|].
      pose proof (Z.log2_nonneg (Z.abs (n - 1))). lia. }
    split; [done|]. by rewrite Z.shiftl_1_l in E.
Qed.

(** [x & x - 1] is zero for a positive [x] only when [x] is a power of two. *)
Lemma land_pred_pow2 x : 0 < x → Z.land x (x - 1) = 0 → x = 2 ^ Z.log2 x.
Proof.
  intros Hpos Hland.
  destruct (Z.log2_spec x Hpos) as [Hlo Hhi].
  destruct (Z.eq_dec x (2 ^ Z.log2 x)) as [|Hne]; [done|exfalso].
  assert (0 < 2 ^ Z.log2 x) by (apply Z.pow_pos_nonneg; [lia | apply Z.log2_nonneg]).
  assert (Hlog : Z.log2 (x - 1) = Z.log2 x).
  { apply Z.log2_unique; [apply Z.log2_nonneg|]. lia. }
  assert (Hbit : Z.testbit (Z.land x (x - 1)) (Z.log2 x) = true).
  { rewrite Z.land_spec, Z.bit_log2 by done.
    rewrite <- Hlog. rewrite Z.bit_log2 by lia. reflexivity. }
  rewrite Hland, Z.bits_0 in Hbit. discriminate.
Qed.

(** The granularity bits of a port whose data width is a power of two. *)
Lemma log2_int_byte_lanes dw :
  0 < dw → Z.land dw (dw - 1) = 0 → log2_int (dw / 8) = Ok (Z.log2 (dw / 8)).
Proof.
  intros Hpos Hland. pose proof (land_pred_pow2 dw Hpos Hland) as Hdw.
  pose proof (Z.log2_nonneg dw) as Hk.
  destruct (Z_lt_le_dec (Z.log2 dw) 3) as [Hsmall | Hbig].
  - assert (Hcase : Z.log2 dw = 0 ∨ Z.log2 dw = 1 ∨ Z.log2 dw = 2) by lia.
    destruct Hcase as [E | [E | E]]; rewrite E in Hdw; rewrite Hdw; reflexivity.
  - assert (Hq : dw / 8 = 2 ^ (Z.log2 dw - 3)).
    { rewrite Hdw at 1. replace (Z.log2 dw) with ((Z.log2 dw - 3) + 3) at 1 by lia.
      rewrite Z.pow_add_r by lia. change (2 ^ 3) with 8.
      apply Z.div_mul. lia. }
    rewrite Hq, Z.log2_pow2 by lia. apply log2_int_pow2. lia.
Qed.

End Log2Props.

(** ** The memory map of the native port *)

Section PortProps.
Import NativePort.

Lemma init_inv aw dw port :
  init aw dw = Ok port →
  addr_width port = aw ∧ data_width port = dw ∧ _map port = None
  ∧ 0 < aw ∧ 0 < dw ∧ Z.land dw (dw - 1) = 0.
Proof.
  unfold init. destruct (Z.leb_spec aw 0); [discriminate|].
  destruct (Z.leb_spec dw 0); [discriminate|]. simpl.
  destruct (Z.eqb_spec (Z.land dw (dw - 1)) 0); [|discriminate]. simpl.
  intros [= <-]. simpl. repeat split; (done || lia).
Qed.

Lemma set_memory_map_not_a_map v h port :
  Mem.as_MemoryMap h v = None →
  set_memory_map v h port = (h, port, Raise (type_error v)).
Proof. intros H. unfold set_memory_map. by rewrite H. Qed.

Lemma set_memory_map_mismatch v h port l m :
  Mem.as_MemoryMap h v = Some (l, m) →
  log2_int (data_width port / 8) = Ok (Z.log2 (data_width port / 8)) →
  Mem.data_width m ≠ 8 ∨ Mem.addr_width m ≠ map_addr_width port →
  ∃ msg args, set_memory_map v h port = (h, port, Raise (ValueError msg args)).
Proof.
  intros Hv Hlog Hdim. unfold set_memory_map. rewrite Hv.
  destruct (Z.eqb_spec (Mem.data_width m) 8) as [E8 | N8]; simpl;
    [|by eexists _, _].
  rewrite Hlog.
  destruct Hdim as [|Haw]; [done|].
  unfold map_addr_width in Haw.
  destruct (Z.eqb_spec (Mem.addr_width m)
              (Z.max 1 (addr_width port + Z.log2 (data_width port / 8))));
    [done|]. simpl. by eexists _, _.
Qed.

Lemma set_memory_map_match v h port l m :
  Mem.as_MemoryMap h v = Some (l, m) →
  log2_int (data_width port / 8) = Ok (Z.log2 (data_width port / 8)) →
  Mem.data_width m = 8 →
  Mem.addr_width m = map_addr_width port →
  set_memory_map v h port = (<[l := Mem.freeze m]> h, with_map l port, Ok tt).
Proof.
  intros Hv Hlog H8 Haw. unfold set_memory_map. rewrite Hv, H8. simpl.
  rewrite Hlog, Haw. unfold map_addr_width. rewrite Z.eqb_refl. reflexivity.
Qed.

Lemma as_MemoryMap_Some h v l m :
  Mem.as_MemoryMap h v = Some (l, m) → v = VRef l ∧ h !! l = Some m.
Proof.
  destruct v; simpl; try discriminate.
  destruct (h !! l0) eqn:E; [|discriminate]. intros [= <- <-]. done.
Qed.

(** A successful attachment: what was attached, and what the store holds. *)
Lemma set_memory_map_ok_inv v h port h1 port1 :
  set_memory_map v h port = (h1, port1, Ok tt) →
  ∃ l m gb, Mem.as_MemoryMap h v = Some (l, m)
         ∧ h1 = <[l := Mem.freeze m]> h ∧ port1 = with_map l port
         ∧ Mem.data_width m = 8
         ∧ log2_int (data_width port / 8) = Ok gb
         ∧ Mem.addr_width m = Z.max 1 (addr_width port + gb).
Proof.
  unfold set_memory_map.
  destruct (Mem.as_MemoryMap h v) as [[l m]|] eqn:Hv; [|discriminate].
  destruct (Z.eqb_spec (Mem.data_width m) 8); simpl; [|discriminate].
  destruct (log2_int (data_width port / 8)) as [gb|]; [|discriminate].
  destruct (Z.eqb_spec (Mem.addr_width m) (Z.max 1 (addr_width port + gb)));
    simpl; [|discriminate].
  intros [= <- <-]. by exists l, m, gb.
Qed.

Lemma frozen_map_refuses m r size addr extend :
  Mem._frozen m = true →
  ∃ e, Mem.add_resource r size addr extend m = (m, Raise e).
Proof. intros H. unfold Mem.add_resource. rewrite H. by eexists. Qed.

(** C5: the [memory_map] setter of a native port fails with a [TypeError]
    when its argument is not a memory map; for a memory map, it fails with a
    [ValueError] exactly when the data width of the map is not 8 or its
    address width is not [max(1, addr_width + log2(data_width / 8))], the
    store and the port being left as they were; otherwise it freezes the map
    in the store and stores its reference on the port. *)
Theorem set_memory_map_checks (aw dw : Z) (port : NativePort) (v : value)
    (h : Mem.Store) :
  init aw dw = Ok port →
  match Mem.as_MemoryMap h v with
  | None => set_memory_map v h port = (h, port, Raise (type_error v))
  | Some (l, m) =>
      ((Mem.data_width m ≠ 8 ∨ Mem.addr_width m ≠ map_addr_width port)
       ↔ ∃ msg args,
           set_memory_map v h port = (h, port, Raise (ValueError msg args)))
      ∧ (Mem.data_width m = 8 ∧ Mem.addr_width m = map_addr_width port →
         set_memory_map v h port
         = (<[l := Mem.freeze m]> h, with_map l port, Ok tt)
         ∧ <[l := Mem.freeze m]> h !! l = Some (Mem.freeze m)
         ∧ Mem._frozen (Mem.freeze m) = true
         ∧ ∀ record_name, memory_map record_name (with_map l port) = Ok l)
  end.
Proof.
  intros Hinit. apply init_inv in Hinit as (Haw & Hdw & _ & _ & Hpos & Hland).
  assert (Hlog : log2_int (data_width port / 8) = Ok (Z.log2 (data_width port / 8)))
    by (rewrite Hdw; by apply log2_int_byte_lanes).
  destruct (Mem.as_MemoryMap h v) as [[l m]|] eqn:Hv;
    [|by apply set_memory_map_not_a_map].
  split.
  - split; [intros Hdim; by eapply set_memory_map_mismatch|].
    intros (msg & args & Hfail).
    destruct (Z.eq_dec (Mem.data_width m) 8) as [H8|]; [|by left].
    destruct (Z.eq_dec (Mem.addr_width m) (map_addr_width port)) as [Hw|]; [|by right].
    rewrite (set_memory_map_match v h port l m Hv Hlog H8 Hw) in Hfail.
    discriminate.
  - intros [H8 Hw]. split; [by apply set_memory_map_match|].
    apply as_MemoryMap_Some in Hv as [_ Hl].
    split; [apply list_lookup_insert_eq; by eapply lookup_lt_Some|]. done.
Qed.

(** C6, amended: once a memory map has been attached to a native port, the
    map is frozen: the store holds it frozen under the reference the port
    keeps, and every [add_resource] on it fails and leaves it as it is.  The
    port does not refuse a later attachment for having a map: the setter
    fails then as it does on a port without a map (on what is not a memory
    map, and on a mismatch of dimensions), attaching the same map again
    succeeds and changes nothing, and attaching another map of matching
    dimensions succeeds and replaces the reference the port keeps. *)
Theorem attached_map_frozen_and_replaceable (aw dw : Z) (port port1 : NativePort)
    (v : value) (h h1 : Mem.Store) :
  init aw dw = Ok port →
  set_memory_map v h port = (h1, port1, Ok tt) →
  ∃ l m,
    v = VRef l ∧ (∀ record_name, memory_map record_name port1 = Ok l)
    ∧ h1 !! l = Some m
    ∧ Mem._frozen m = true
    ∧ (∀ r size addr extend,
         ∃ e, Mem.add_resource r size addr extend m = (m, Raise e))
    ∧ set_memory_map v h1 port1 = (h1, port1, Ok tt)
    ∧ (∀ v' l' m',
         Mem.as_MemoryMap h1 v' = Some (l', m') →
         Mem.data_width m' = 8 →
         Mem.addr_width m' = map_addr_width port →
         set_memory_map v' h1 port1
         = (<[l' := Mem.freeze m']> h1, with_map l' port1, Ok tt)
         ∧ ∀ record_name, memory_map record_name (with_map l' port1) = Ok l')
    ∧ (∀ v', Mem.as_MemoryMap h1 v' = None →
         set_memory_map v' h1 port1 = (h1, port1, Raise (type_error v')))
    ∧ (∀ v' l' m',
         Mem.as_MemoryMap h1 v' = Some (l', m') →
         Mem.data_width m' ≠ 8 ∨ Mem.addr_width m' ≠ map_addr_width port →
         ∃ msg args,
           set_memory_map v' h1 port1 = (h1, port1, Raise (ValueError msg args))).
Proof.
  intros Hinit Hset.
  apply init_inv in Hinit as (Haw & Hdw & _ & _ & Hpos & Hland).
  assert (Hlog : log2_int (data_width port / 8) = Ok (Z.log2 (data_width port / 8)))
    by (rewrite Hdw; by apply log2_int_byte_lanes).
  apply set_memory_map_ok_inv in Hset
    as (l & m0 & gb & Hv & -> & -> & H8 & Hgb & Hw).
  rewrite Hlog in Hgb. injection Hgb as <-.
  apply as_MemoryMap_Some in Hv as [-> Hl].
  assert (Hl1 : <[l := Mem.freeze m0]> h !! l = Some (Mem.freeze m0))
    by (apply list_lookup_insert_eq; by eapply lookup_lt_Some).
  exists l, (Mem.freeze m0).
  split; [done|]. split; [done|]. split; [done|]. split; [done|].
  split; [intros; by apply frozen_map_refuses|].
  split.
  { rewrite (set_memory_map_match (VRef l) _ (with_map l port) l (Mem.freeze m0));
      [|simpl; by rewrite Hl1|done|done|done].
    by rewrite list_insert_insert_eq. }
  split.
  { intros v' l' m' Hv' H8' Hw'. split; [|done].
    by apply set_memory_map_match. }
  split; [intros v' Hv'; by apply set_memory_map_not_a_map|].
  intros v' l' m' Hv' Hdim. by eapply set_memory_map_mismatch.
Qed.

End PortProps.

Lemma set_memory_map_checks_witness :
  NativePort.set_memory_map (VRef 0) [Sample.byte_map 4] Sample.byte_port
  = ([Mem.freeze (Sample.byte_map 4)], NativePort.with_map 0 Sample.byte_port, Ok tt)
  ∧ (∃ msg args,
       NativePort.set_memory_map (VRef 0) [Sample.byte_map 5] Sample.byte_port
       = ([Sample.byte_map 5], Sample.byte_port, Raise (ValueError msg args)))
  ∧ NativePort.set_memory_map VNone [Sample.byte_map 4] Sample.byte_port
    = ([Sample.byte_map 4], Sample.byte_port, Raise (NativePort.type_error VNone)).
Proof.
  split; [|split].
  - apply (proj2 (set_memory_map_checks 4 8 Sample.byte_port (VRef 0)
                    [Sample.byte_map 4] eq_refl)).
    split; reflexivity.
  - apply (proj1 (set_memory_map_checks 4 8 Sample.byte_port (VRef 0)
                    [Sample.byte_map 5] eq_refl)).
    right. vm_compute. discriminate.
  - apply (set_memory_map_checks 4 8 Sample.byte_port VNone
             [Sample.byte_map 4] eq_refl).
Defined.

(** C6, as stated, fails: a port that has a map takes another one. *)
Lemma second_attachment_succeeds :
  let h := [Sample.byte_map 4; Sample.byte_map 4] in
  let h1 := [Mem.freeze (Sample.byte_map 4); Sample.byte_map 4] in
  let h2 := [Mem.freeze (Sample.byte_map 4); Mem.freeze (Sample.byte_map 4)] in
  NativePort.init 4 8 = Ok Sample.byte_port
  ∧ NativePort.set_memory_map (VRef 0) h Sample.byte_port
    = (h1, NativePort.with_map 0 Sample.byte_port, Ok tt)
  ∧ NativePort.set_memory_map (VRef 1) h1 (NativePort.with_map 0 Sample.byte_port)
    = (h2, NativePort.with_map 1 Sample.byte_port, Ok tt)
  ∧ NativePort.set_memory_map (VRef 0) h1 (NativePort.with_map 0 Sample.byte_port)
    = (h1, NativePort.with_map 0 Sample.byte_port, Ok tt).
Proof. vm_compute. repeat split; reflexivity. Qed.

Lemma attached_map_frozen_and_replaceable_witness :
  ∃ l m,
    NativePort.memory_map None (NativePort.with_map 0 Sample.byte_port) = Ok l
    ∧ [Mem.freeze (Sample.byte_map 4)] !! l = Some m
    ∧ Mem._frozen m = true.
Proof.
  destruct (attached_map_frozen_and_replaceable 4 8 Sample.byte_port
              (NativePort.with_map 0 Sample.byte_port) (VRef 0)
              [Sample.byte_map 4] [Mem.freeze (Sample.byte_map 4)]
              eq_refl eq_refl)
    as (l & m & _ & Hmap & Hl & Hfrozen & _).
  exists l, m. split; [exact (Hmap None)|]. split; [exact Hl | exact Hfrozen].
Defined.

(** ** The store *)

Section StoreProps.

Lemma lookup_alloc (h : Mem.Store) m : (h ++ [m])%list !! length h = Some m.
Proof. by apply list_lookup_middle. Qed.

Lemma insert_alloc (h : Mem.Store) m m' :
  <[length h := m']> (h ++ [m])%list = (h ++ [m'])%list.
Proof.
  rewrite insert_app_r_alt by lia. by rewrite Nat.sub_diag.
Qed.

End StoreProps.

(** ** The construction of the core *)

Section CoreProps.
Import Litedram.

Variable litedram_modules : string -> option (Z -> string -> result SDRAMModule).
Variable get_var_name : result string.

(** The capacity: byte groups times two to the bank, row and column bits. *)
Lemma Core_init_ok_inv config pins nm h h' core :
  Core_init litedram_modules get_var_name config pins nm h = (h', Ok core) →
  ∃ module,
    get_module litedram_modules config = Ok module
    ∧ Litedram.config core = config
    ∧ size core = Cfg.module_bytes config
                  * 2 ^ (bankbits (geom_settings module)
                         + rowbits (geom_settings module)
                         + colbits (geom_settings module))
    ∧ _ctrl_bus core = None.
Proof.
  unfold Core_init, pow2.
  destruct (if negb (bool_decide (nm = VNone)) && negb (is_str nm) then _ else _);
    [|intros [= _ ?]; discriminate].
  destruct (get_module litedram_modules config) as [module|];
    [|intros [= _ ?]; discriminate].
  destruct (log2_int (nbanks module)); [|intros [= _ ?]; discriminate].
  destruct (log2_int (Cfg.module_ranks config)); [|intros [= _ ?]; discriminate].
  destruct (log2_int (Cfg.user_data_width config / 8));
    [|intros [= _ ?]; discriminate].
  destruct (NativePort.init _ _); [|intros [= _ ?]; discriminate].
  destruct (Mem.MemoryMap_init _ _); [|intros [= _ ?]; discriminate].
  simpl.
  destruct (_ <? 0); simpl; [intros [= _ ?]; discriminate|].
  destruct (Mem.add_resource _ _ _ _ _) as [m1 [?|?]];
    [|intros [= _ ?]; discriminate].
  destruct (NativePort.set_memory_map _ _ _) as [[h2 port'] [[]|?]];
    [|intros [= _ ?]; discriminate].
  intros [= _ <-]. exists module. done.
Qed.

Lemma user_data_width_lanes udw :
  udw ∈ [8; 16; 32; 64; 128] →
  0 < udw ∧ Z.land udw (udw - 1) = 0 ∧ 0 <= Z.log2 (udw / 8)
  ∧ log2_int (udw / 8) = Ok (Z.log2 (udw / 8)).
Proof.
  rewrite !elem_of_cons, elem_of_nil.
  intros [-> | [-> | [-> | [-> | [-> | []]]]]]; vm_compute; repeat split; congruence.
Qed.

Lemma NativePort_init_ok aw dw :
  0 < aw → 0 < dw → Z.land dw (dw - 1) = 0 →
  NativePort.init aw dw
  = Ok {| NativePort.addr_width := aw; NativePort.data_width := dw;
          NativePort.granularity := 8; NativePort._map := None |}.
Proof.
  intros Haw Hdw Hland. unfold NativePort.init.
  destruct (Z.leb_spec aw 0); [lia|]. destruct (Z.leb_spec dw 0); [lia|].
  rewrite Hland. reflexivity.
Qed.

Lemma MemoryMap_init_ok aw dw :
  0 < aw → 0 < dw →
  Mem.MemoryMap_init aw dw
  = Ok {| Mem.addr_width := aw; Mem.data_width := dw; Mem._frozen := false;
          Mem._resources := []; Mem._next_addr := 0 |}.
Proof.
  intros Haw Hdw. unfold Mem.MemoryMap_init.
  destruct (Z.leb_spec aw 0); [lia|]. destruct (Z.leb_spec dw 0); [lia|]. done.
Qed.

Lemma add_first_resource r size aw dw :
  1 <= size → size <= 2 ^ aw →
  let m0 := {| Mem.addr_width := aw; Mem.data_width := dw; Mem._frozen := false;
               Mem._resources := []; Mem._next_addr := 0 |} in
  Mem.add_resource r size None false m0 = (Mem.with_resource r 0 size m0, Ok (0, size)).
Proof.
  intros Hsize Hfit m0. unfold Mem.add_resource. simpl.
  destruct (Z.ltb_spec size 0); [lia|].
  rewrite Z.max_l, Z.add_0_l by lia.
  destruct (Z.ltb_spec (2 ^ aw) 0); [lia|].
  destruct (Z.ltb_spec (2 ^ aw) size); [lia|]. reflexivity.
Qed.

(** Conditions under which the construction goes through, and what it
    builds: the user map frozen at the end of the store and the core. *)
Lemma Core_init_succeeds config module pins c n (h : Mem.Store) bb rb :
  get_module litedram_modules config = Ok module →
  Cfg.user_data_width config ∈ [8; 16; 32; 64; 128] →
  0 < Cfg.module_bytes config →
  nbanks module = 2 ^ bb → 0 <= bb →
  Cfg.module_ranks config = 2 ^ rb → 0 <= rb →
  let g := geom_settings module in
  let bits := bankbits g + rowbits g + colbits g in
  let user_addr_width := rowbits g + colbits g + bb + Z.max rb 1 in
  let lanes := Z.log2 (Cfg.user_data_width config / 8) in
  0 <= bits →
  lanes < user_addr_width →
  Cfg.module_bytes config * 2 ^ bits <= 2 ^ user_addr_width →
  Core_init litedram_modules get_var_name config pins (VStr (String c n)) h
  = ((h ++ [Mem.freeze
              (Mem.with_resource "user_port_0" 0 (Cfg.module_bytes config * 2 ^ bits)
                 {| Mem.addr_width := user_addr_width; Mem.data_width := 8;
                    Mem._frozen := false; Mem._resources := [];
                    Mem._next_addr := 0 |})])%list,
     Ok {| config := config; name := String c n;
           size := Cfg.module_bytes config * 2 ^ bits;
           user_port :=
             {| NativePort.addr_width := user_addr_width - lanes;
                NativePort.data_width := Cfg.user_data_width config;
                NativePort.granularity := 8;
                NativePort._map := Some (length h) |};
           _ctrl_bus := None; _pins := pins |}).
Proof.
  intros Hmod Hudw Hbytes Hbanks Hbb Hranks Hrb g bits uaw lanes Hbits Hlanes Hfit.
  destruct (user_data_width_lanes _ Hudw) as (Hpos & Hland & Hl0 & Hlog).
  fold lanes in Hl0, Hlog.
  assert (Hsize : 1 <= Cfg.module_bytes config * 2 ^ bits).
  { assert (0 < 2 ^ bits) by (apply Z.pow_pos_nonneg; lia). nia. }
  unfold Core_init. simpl. rewrite Hmod, Hbanks, Hranks.
  rewrite !log2_int_pow2 by done. rewrite Hlog.
  fold g. fold uaw.
  rewrite NativePort_init_ok by (done || lia).
  rewrite MemoryMap_init_ok by lia.
  unfold pow2. fold bits. destruct (Z.ltb_spec bits 0); [lia|]. simpl.
  rewrite add_first_resource by (done || lia).
  simpl. rewrite insert_alloc.
  unfold NativePort.set_memory_map. simpl. rewrite lookup_alloc. simpl.
  rewrite Hlog. rewrite Z.max_r by lia.
  replace (uaw - lanes + lanes) with uaw by lia. rewrite Z.eqb_refl. simpl.
  rewrite insert_alloc. reflexivity.
Qed.

(** C4, amended: for a valid configuration and a geometry returned by the
    provider, the capacity of the core is the byte groups times two to the
    bank, row and column bits whenever the construction succeeds; and it
    succeeds when a name is given, the bank count and the rank count are
    powers of two, the bit counts are not negative, the user address width
    exceeds the byte-lane bits of the user data width and the capacity fits
    the address space of the user port.  The control bus of the new core is
    not populated. *)
Theorem Core_init_capacity (args : Cfg.Args) (config : Cfg.Config)
    (module : SDRAMModule) (pins nm : value) (h : Mem.Store) :
  Cfg.Config_init args = Ok config →
  get_module litedram_modules config = Ok module →
  let g := geom_settings module in
  let bits := bankbits g + rowbits g + colbits g in
  (∀ h' core,
     Core_init litedram_modules get_var_name config pins nm h = (h', Ok core) →
     size core = Cfg.module_bytes config * 2 ^ bits
     ∧ ctrl_bus core = Raise not_populated)
  ∧ (∀ c n bb rb,
       nm = VStr (String c n) →
       nbanks module = 2 ^ bb → 0 <= bb →
       Cfg.module_ranks config = 2 ^ rb → 0 <= rb →
       0 <= bits →
       Z.log2 (Cfg.user_data_width config / 8)
         < rowbits g + colbits g + bb + Z.max rb 1 →
       Cfg.module_bytes config * 2 ^ bits
         <= 2 ^ (rowbits g + colbits g + bb + Z.max rb 1) →
       ∃ h' core,
         Core_init litedram_modules get_var_name config pins nm h = (h', Ok core)
         ∧ size core = Cfg.module_bytes config * 2 ^ bits).
Proof.
  intros Hcfg Hmod g bits. split.
  - intros h' core Hinit.
    apply Core_init_ok_inv in Hinit as (module' & Hmod' & _ & Hsize & Hbus).
    rewrite Hmod in Hmod'. injection Hmod' as <-.
    split; [exact Hsize|]. unfold ctrl_bus. by rewrite Hbus.
  - intros c n bb rb -> Hbanks Hbb Hranks Hrb Hbits Hlanes Hfit.
    apply Config_init_ok_inv in Hcfg as (Hbytes & _ & Hudw & _).
    eexists _, _. split.
    + by apply (Core_init_succeeds config module pins c n h bb rb).
    + reflexivity.
Qed.

End CoreProps.

Lemma Core_init_capacity_witness :
  ∃ h' core,
    Litedram.Core_init Sample.modules Sample.no_var_name Sample.cfg VNone
      (VStr "dram") [] = (h', Ok core)
    ∧ Litedram.size core = 1 * 2 ^ 26.
Proof.
  apply (proj2 (Core_init_capacity Sample.modules Sample.no_var_name Sample.args
                  Sample.cfg (Sample.MT41K64M16 "DDR3") VNone (VStr "dram") []
                  eq_refl eq_refl) "d"%char "ram" 3 0 eq_refl eq_refl);
    simpl; try lia; try reflexivity.
  vm_compute. discriminate.
Defined.

(** C4, as stated, fails: three ranks are a valid configuration, and the
    construction of the core raises on them. *)
Lemma Core_init_three_ranks :
  let args := Sample.with_module_ranks (VInt 3) Sample.args in
  let config := Sample.cfg_of args "1:4" in
  Cfg.Config_init args = Ok config
  ∧ Litedram.get_module Sample.modules config = Ok (Sample.MT41K64M16 "DDR3")
  ∧ Litedram.Core_init Sample.modules Sample.no_var_name config VNone
      (VStr "dram") []
    = ([], Raise (ValueError "{} is not a power of 2" [VInt 3])).
Proof. vm_compute. repeat split; reflexivity. Qed.

(** ** The rows of the CSR listing *)

Section ReaderProps.
Import Text.

Context {S : Type}.
Variable body : list string -> S -> S * result unit.

(** The loop over the lazy reader runs its body on the rows read, and ends
    with the error of the body if there is one, with that of the reader
    otherwise. *)
Lemma for_rows_read_rows r lines s :
  for_rows body r lines s
  = match run_rows body (read_rows r lines).1 s with
    | (s', Ok _) => (s', (read_rows r lines).2)
    | (s', Raise e) => (s', Raise e)
    end.
Proof.
  revert r s. induction lines as [|line rest IH]; intros r s; simpl.
  - destruct (pending r); simpl; [|done].
    destruct (body _ s) as [s' [[]|e]]; done.
  - destruct (feed_line r line) as [r'|e]; simpl; [|done].
    destruct (bool_decide (state r' = START_RECORD)).
    + destruct (read_rows parse_reset rest) as [rows end_] eqn:E. simpl.
      destruct (body (fields r') s) as [s' [[]|e]]; [|done].
      rewrite IH, E. done.
    + apply IH.
Qed.

(** A property of the state that the body keeps is kept by the loop. *)
Lemma run_rows_invariant (P : S → Prop) rows s s' r :
  (∀ row s s' r, P s → body row s = (s', r) → P s') →
  P s → run_rows body rows s = (s', r) → P s'.
Proof.
  intros Hbody. revert s. induction rows as [|row rest IH]; intros s Hs; simpl.
  - by intros [= <- _].
  - destruct (body row s) as [s1 [[]|e]] eqn:E.
    + apply IH. by eapply Hbody.
    + intros [= <- _]. by eapply Hbody.
Qed.

(** A row on which the body fails makes the loop fail. *)
Lemma run_rows_fails rows row s :
  row ∈ rows →
  (∀ s, ∃ s' e, body row s = (s', Raise e)) →
  ∃ s' e, run_rows body rows s = (s', Raise e).
Proof.
  intros Hin Hfail. revert s.
  induction rows as [|row' rest IH]; intros s; [by apply elem_of_nil in Hin|].
  simpl. destruct (body row' s) as [s1 [[]|e]] eqn:E; [|by eexists _, _].
  apply elem_of_cons in Hin as [-> | Hin].
  - destruct (Hfail s) as (s' & e & E'). congruence.
  - by apply IH.
Qed.

(** The loop stops at the first row on which the body fails. *)
Lemma run_rows_first_failure pre row post s s1 s2 e :
  run_rows body pre s = (s1, Ok tt) →
  body row s1 = (s2, Raise e) →
  run_rows body (pre ++ row :: post) s = (s2, Raise e).
Proof.
  revert s. induction pre as [|row' pre IH]; intros s; simpl.
  - intros [= <-] E. by rewrite E.
  - destruct (body row' s) as [s' [[]|e']]; [|discriminate].
    apply IH.
Qed.

End ReaderProps.

(** ** The population of the control bus *)

Section PopulateProps.
Import Litedram.

Lemma bits_for_pos b : 1 <= b → 1 <= bits_for b.
Proof.
  intros Hb. unfold bits_for, log2_up, bit_length.
  destruct (Z.ltb_spec 0 b); [|lia].
  destruct (Z.eqb_spec (b + 1) 0); [lia|].
  destruct (Z.eqb_spec (b + 1 - 1) 0); [lia|].
  pose proof (Z.log2_nonneg (Z.abs (b + 1 - 1))). lia.
Qed.

Lemma add_resource_inv n sz a ext m m' r :
  ctrl_inv m → Mem.add_resource n sz a ext m = (m', r) → ctrl_inv m'.
Proof.
  intros [Hdw Haw]. unfold Mem.add_resource.
  destruct (Mem._frozen m); [by intros [= <- _]|].
  destruct (Mem.has_resource n m); [by intros [= <- _]|].
  set (a' := match a with Some a0 => a0 | None => Mem._next_addr m end).
  destruct (Z.ltb_spec a' 0); [by intros [= <- _]|].
  destruct (Z.ltb_spec sz 0); [by intros [= <- _]|].
  set (out := (2 ^ Mem.addr_width m <? a') || (2 ^ Mem.addr_width m <? a' + Z.max sz 1)).
  destruct (out && negb ext); [by intros [= <- _]|].
  assert (Hm1 : ctrl_inv (if out then Mem.with_addr_width (bits_for (a' + Z.max sz 1)) m
                          else m)).
  { destruct out; [|done]. split; [done|]. simpl. apply bits_for_pos. lia. }
  destruct (Mem.overlaps _ _ _); intros [= <- _]; [done|].
  destruct Hm1. by split.
Qed.

Lemma ctrl_row_inv cdw row m m' r :
  ctrl_inv m → ctrl_row cdw row m = (m', r) → ctrl_inv m'.
Proof.
  intros Hm. unfold ctrl_row.
  destruct row as [|[|c k] rest]; [by intros [= <- _]..|].
  destruct (Ascii.eqb c Text.HASH); [by intros [= <- _]|].
  destruct rest as [|n [|a [|sz [|at_ [|x rest]]]]]; try by intros [= <- _].
  destruct (bool_decide _); [|by intros [= <- _]].
  destruct (Text.py_int a 16); [|by intros [= <- _]].
  destruct (Text.py_int sz 10); [|by intros [= <- _]].
  destruct (Mem.add_resource _ _ _ _ _) as [m1 [?|?]] eqn:E;
    intros [= <- _]; by eapply add_resource_inv.
Qed.

Lemma empty_ctrl_map_inv : ctrl_inv empty_ctrl_map.
Proof. split; [reflexivity | simpl; lia]. Qed.

(** A row on which the body succeeds is skipped, or is a row of the
    recognized kind whose request the map has taken. *)
Lemma ctrl_row_ok cdw row m m' :
  Mem.data_width m = 8 → (8 | cdw) →
  ctrl_row cdw row m = (m', Ok tt) →
  if mapped_row row
  then ∃ req, request_of cdw row = Some req ∧ add_requests [req] m = (m', Ok tt)
  else m' = m.
Proof.
  intros Hdw Hdiv. unfold ctrl_row, mapped_row, request_of.
  destruct row as [|[|c k] rest]; [by intros [= <-]|discriminate|].
  destruct (Ascii.eqb_spec c Text.HASH) as [-> | Hc].
  { intros [= <-]. rewrite bool_decide_eq_false_2; [done|]. discriminate. }
  destruct rest as [|n [|a [|sz [|at_ [|x rest]]]]]; try discriminate.
  destruct (bool_decide _); [|by intros [= <-]].
  destruct (Text.py_int a 16) as [addr|]; [|discriminate].
  destruct (Text.py_int sz 10) as [size|]; [|discriminate].
  rewrite Hdw, Z.divide_div_mul_exact by (done || lia).
  destruct (Mem.add_resource _ _ _ _ _) as [m1 [?|?]] eqn:E; [|discriminate].
  intros [= <-]. eexists. split; [reflexivity|]. simpl. by rewrite E.
Qed.

Lemma add_requests_app reqs1 reqs2 m m1 :
  add_requests reqs1 m = (m1, Ok tt) →
  add_requests (reqs1 ++ reqs2) m = add_requests reqs2 m1.
Proof.
  revert m. induction reqs1 as [|[[n a] sz] reqs1 IH]; intros m; simpl.
  - by intros [= <-].
  - destruct (Mem.add_resource _ _ _ _ _) as [m' [?|?]]; [|discriminate]. apply IH.
Qed.

(** The rows on which the loop succeeds: the map has taken the requests of
    the rows of the recognized kind, in their order, and nothing else. *)
Lemma run_rows_requests cdw rows m m' :
  ctrl_inv m → (8 | cdw) →
  Text.run_rows (ctrl_row cdw) rows m = (m', Ok tt) →
  ∃ reqs,
    Forall2 (fun row req => request_of cdw row = Some req)
      (List.filter mapped_row rows) reqs
    ∧ add_requests reqs m = (m', Ok tt).
Proof.
  intros Hm Hdiv. revert m Hm.
  induction rows as [|row rest IH]; intros m Hm; simpl.
  - intros [= <-]. exists []. split; [constructor | done].
  - destruct (ctrl_row cdw row m) as [m1 [[]|e]] eqn:E; [|discriminate].
    intros Hrest.
    destruct (IH m1 (ctrl_row_inv _ _ _ _ _ Hm E) Hrest) as (reqs & Hreqs & Hadd).
    pose proof (ctrl_row_ok cdw row m m1 (proj1 Hm) Hdiv E) as Hrow.
    destruct (mapped_row row).
    + destruct Hrow as (req & Hreq & Hone). exists (req :: reqs).
      split; [by constructor|].
      change (req :: reqs) with ([req] ++ reqs)%list.
      by rewrite (add_requests_app _ _ _ _ Hone).
    + subst m1. by exists reqs.
Qed.

Lemma ctrl_row_skip cdw row m :
  well_formed row = true → mapped_row row = false →
  ctrl_row cdw row m = (m, Ok tt).
Proof.
  unfold well_formed, mapped_row, ctrl_row.
  destruct row as [|[|c k] rest]; [done|discriminate|].
  destruct (Ascii.eqb c Text.HASH); [done|]. simpl orb.
  destruct rest as [|n [|a [|sz [|at_ [|x rest]]]]]; try discriminate.
  by intros _ ->.
Qed.

Lemma ctrl_row_request cdw row m req m' :
  Mem.data_width m = 8 → (8 | cdw) →
  mapped_row row = true →
  request_of cdw row = Some req →
  add_requests [req] m = (m', Ok tt) →
  ctrl_row cdw row m = (m', Ok tt).
Proof.
  intros Hdw Hdiv. unfold mapped_row, request_of, ctrl_row.
  destruct row as [|k [|n [|a [|sz [|at_ [|x rest]]]]]]; try discriminate.
  intros Hk. apply bool_decide_eq_true in Hk as ->. simpl.
  destruct (Text.py_int a 16) as [addr|]; [|discriminate].
  destruct (Text.py_int sz 10) as [size|]; [|discriminate].
  intros [= <-]. simpl.
  rewrite Hdw, Z.divide_div_mul_exact by (done || lia).
  destruct (Mem.add_resource _ _ _ _ _) as [m1 [?|?]]; [|discriminate].
  by intros [= <-].
Qed.

(** Conversely, the loop succeeds on well-formed rows when the map takes
    the requests of the rows of the recognized kind. *)
Lemma run_rows_of_requests cdw rows reqs m m' :
  ctrl_inv m → (8 | cdw) →
  Forall (fun row => well_formed row = true) rows →
  Forall2 (fun row req => request_of cdw row = Some req)
    (List.filter mapped_row rows) reqs →
  add_requests reqs m = (m', Ok tt) →
  Text.run_rows (ctrl_row cdw) rows m = (m', Ok tt).
Proof.
  intros Hm Hdiv Hwf. revert reqs m Hm.
  induction Hwf as [|row rest Hrow Hrest IH]; intros reqs m Hm; simpl.
  - intros Hreqs. apply Forall2_nil_inv_l in Hreqs as ->. done.
  - destruct (mapped_row row) eqn:Hmapped.
    + intros Hreqs.
      apply Forall2_cons_inv_l in Hreqs as (req & reqs' & Hreq & Hreqs' & ->).
      change (req :: reqs') with ([req] ++ reqs')%list.
      destruct (add_requests [req] m) as [m1 [[]|e]] eqn:Hone.
      * rewrite (add_requests_app _ _ _ _ Hone). intros Hadd.
        rewrite (ctrl_row_request cdw row m req m1 (proj1 Hm) Hdiv Hmapped Hreq Hone).
        apply (IH reqs'); [|done..].
        destruct req as [[n a] sz]. simpl in Hone.
        destruct (Mem.add_resource _ _ _ _ _) as [m2 [?|?]] eqn:E; [|discriminate].
        injection Hone as <-. by eapply add_resource_inv.
      * destruct req as [[n a] sz]. simpl in *.
        destruct (Mem.add_resource _ _ _ _ _) as [m2 [?|?]]; discriminate.
    + intros Hreqs Hadd. rewrite (ctrl_row_skip cdw row m Hrow Hmapped).
      by apply (IH reqs).
Qed.

Lemma py_int_raise s base e :
  Text.py_int s base = Raise e → e = Text.invalid_literal base s.
Proof.
  unfold Text.py_int.
  destruct (Text.take_sign _) as [sign s1].
  destruct (Text.take_prefix base s1) as [|c s2] eqn:E.
  - destruct (Text.scan_digits _ _ _ _ _) as [[[n []] rest]|];
      [|by intros [= <-]..].
    destruct (Text.skip_spaces rest); [discriminate|by intros [= <-]].
  - assert (Hscan :
      match Text.scan_digits base 0 false false (String c s2) with
      | Some (n, true, rest) =>
          match Text.skip_spaces rest with
          | EmptyString => Ok (sign * n)
          | String _ _ => Raise (Text.invalid_literal base s)
          end
      | _ => Raise (Text.invalid_literal base s)
      end = Raise e → e = Text.invalid_literal base s).
    { destruct (Text.scan_digits _ _ _ _ _) as [[[n []] rest]|];
        [|by intros [= <-]..].
      destruct (Text.skip_spaces rest); [discriminate|by intros [= <-]]. }
    destruct c as [[] [] [] [] [] [] [] []]; try exact Hscan.
    by intros [= <-].
Qed.

(** On a malformed row the body fails with the error of the row, and
    leaves the map as it is. *)
Lemma ctrl_row_malformed cdw row m :
  malformed row = true → ctrl_row cdw row m = (m, Raise (row_error row)).
Proof.
  unfold malformed, ctrl_row, row_error.
  destruct row as [|[|c k] rest]; [discriminate..|].
  destruct (Ascii.eqb c Text.HASH); [discriminate|]. simpl negb. rewrite andb_true_l.
  destruct rest as [|n [|a [|sz [|at_ [|x rest]]]]]; try reflexivity.
  destruct (bool_decide _); [|discriminate]. rewrite andb_true_l.
  destruct (Text.py_int a 16) as [addr|e] eqn:Ea; simpl.
  - destruct (Text.py_int sz 10) as [size|e] eqn:Es; [discriminate|].
    intros _. by rewrite (py_int_raise _ _ _ Es).
  - intros _. by rewrite (py_int_raise _ _ _ Ea).
Qed.

Lemma row_error_is_ValueError row : ∃ msg args, row_error row = ValueError msg args.
Proof.
  unfold row_error.
  destruct row as [|k [|n [|a [|sz [|at_ [|x rest]]]]]];
    try (destruct (_ <? _)%nat; by eexists _, _).
  destruct (is_raise _); by eexists _, _.
Qed.

Lemma Wishbone_init_inv aw dw gr bus :
  Wishbone.init aw dw gr = Ok bus →
  bus = {| Wishbone.addr_width := aw; Wishbone.data_width := dw;
           Wishbone.granularity := gr; Wishbone._map := None |}
  ∧ 0 <= aw.
Proof.
  unfold Wishbone.init. destruct (Z.ltb_spec aw 0); [discriminate|].
  repeat match goal with
  | |- context [if ?b then _ else _] => destruct b; [discriminate|]
  end.
  by intros [= <-].
Qed.

(** The map the loop leaves always passes the dimension check of the bus
    that is made for it. *)
Lemma Wishbone_attach_ctrl_map (h : Mem.Store) m cdw ratio_bits bus :
  ctrl_inv m →
  log2_int (cdw / Mem.data_width m) = Ok ratio_bits →
  Wishbone.init (Mem.addr_width m - ratio_bits) cdw (Mem.data_width m) = Ok bus →
  Wishbone.set_memory_map (VRef (length h)) (h ++ [m])%list bus
  = ((h ++ [Mem.freeze m])%list, Wishbone.with_map (length h) bus, Ok tt).
Proof.
  intros [Hdw Haw] Hlog Hinit.
  apply Wishbone_init_inv in Hinit as [-> Hnn].
  unfold Wishbone.set_memory_map. simpl. rewrite lookup_alloc. simpl.
  rewrite Z.eqb_refl. simpl. rewrite Hlog.
  replace (Mem.addr_width m - ratio_bits + ratio_bits) with (Mem.addr_width m) by lia.
  rewrite Z.max_r by lia. rewrite Z.eqb_refl. simpl.
  by rewrite insert_alloc.
Qed.

(** [_populate_ctrl_map], step by step. *)
Lemma populate_unfold products (h : Mem.Store) self :
  let cdw := Cfg.csr_data_width (config self) in
  _populate_ctrl_map products h self
  = match BuildProducts_get (name self ++ "_csr.csv") products with
    | Raise e => ((h ++ [empty_ctrl_map])%list, self, Raise e)
    | Ok csr_csv =>
        match Text.for_rows (ctrl_row cdw) Text.parse_reset
                (Text.split_lines csr_csv) empty_ctrl_map with
        | (m, Raise e) => ((h ++ [m])%list, self, Raise e)
        | (m, Ok _) =>
            match log2_int (cdw / Mem.data_width m) with
            | Raise e => ((h ++ [m])%list, self, Raise e)
            | Ok ratio_bits =>
                match Wishbone.init (Mem.addr_width m - ratio_bits) cdw
                        (Mem.data_width m) with
                | Raise e => ((h ++ [m])%list, self, Raise e)
                | Ok bus =>
                    ((h ++ [Mem.freeze m])%list,
                     with_ctrl_bus (Wishbone.with_map (length h) bus) self, Ok tt)
                end
            end
        end
    end.
Proof.
  intros cdw. unfold _populate_ctrl_map. simpl. fold empty_ctrl_map. fold cdw.
  destruct (BuildProducts_get _ _) as [csv|]; [|done].
  destruct (Text.for_rows _ _ _ _) as [m [[]|e]] eqn:Hloop;
    rewrite insert_alloc; [|done].
  destruct (log2_int _) as [ratio_bits|] eqn:Hlog; [|done].
  destruct (Wishbone.init _ _ _) as [bus|] eqn:Hbus; [|done].
  rewrite (Wishbone_attach_ctrl_map h m cdw ratio_bits bus); [done| |done..].
  rewrite for_rows_read_rows in Hloop.
  destruct (Text.run_rows _ _ _) as [m1 [[]|?]] eqn:Hrun; [|discriminate].
  injection Hloop as <- _.
  eapply (run_rows_invariant (ctrl_row cdw) ctrl_inv); [|apply empty_ctrl_map_inv|done].
  intros ? ? ? ?. apply ctrl_row_inv.
Qed.


(** A population that succeeds: the listing, the map the loop made of it,
    the bus made for the map, and where they are. *)
Lemma populate_success products (h : Mem.Store) self h' self' :
  _populate_ctrl_map products h self = (h', self', Ok tt) →
  let cdw := Cfg.csr_data_width (config self) in
  ∃ csr_csv m bus,
    BuildProducts_get (name self ++ "_csr.csv") products = Ok csr_csv
    ∧ Text.for_rows (ctrl_row cdw) Text.parse_reset (Text.split_lines csr_csv)
        empty_ctrl_map = (m, Ok tt)
    ∧ h' = (h ++ [Mem.freeze m])%list
    ∧ self' = with_ctrl_bus bus self
    ∧ Wishbone._map bus = Some (length h)
    ∧ Wishbone.data_width bus = cdw
    ∧ Wishbone.granularity bus = 8.
Proof.
  rewrite populate_unfold. intros Hpop cdw. fold cdw in Hpop.
  destruct (BuildProducts_get _ _) as [csv|]; [|discriminate].
  destruct (Text.for_rows _ _ _ _) as [m [[]|?]] eqn:Hloop; [|discriminate].
  destruct (log2_int _) as [ratio_bits|]; [|discriminate].
  destruct (Wishbone.init _ _ _) as [bus|] eqn:Hbus; [|discriminate].
  injection Hpop as <- <-.
  apply Wishbone_init_inv in Hbus as [-> _].
  exists csv, m. eexists. repeat split; try reflexivity; [exact Hloop|]. simpl.
  rewrite for_rows_read_rows in Hloop.
  destruct (Text.run_rows _ _ _) as [m1 [[]|?]] eqn:Hrun; [|discriminate].
  injection Hloop as <- _.
  eapply (run_rows_invariant (ctrl_row cdw) ctrl_inv); [|apply empty_ctrl_map_inv|done].
  intros ? ? ? ?. apply ctrl_row_inv.
Qed.

Lemma csr_data_width_lanes cdw :
  cdw ∈ [8; 16; 32; 64] →
  (8 | cdw) ∧ log2_int (cdw / 8) = Ok (Z.log2 (cdw / 8))
  ∧ ∀ aw, 0 <= aw →
      Wishbone.init aw cdw 8
      = Ok {| Wishbone.addr_width := aw; Wishbone.data_width := cdw;
              Wishbone.granularity := 8; Wishbone._map := None |}.
Proof.
  rewrite !elem_of_cons, elem_of_nil.
  intros [-> | [-> | [-> | [-> | []]]]];
    (split; [first [by exists 1 | by exists 2 | by exists 4 | by exists 8]|]);
    (split; [reflexivity|]);
    intros aw Haw; unfold Wishbone.init;
    destruct (Z.ltb_spec aw 0); (lia || reflexivity).
Qed.

(** Conditions under which the population goes through, and what it
    builds. *)
Lemma populate_succeeds products (h : Mem.Store) self csr_csv rows reqs m :
  let cdw := Cfg.csr_data_width (config self) in
  cdw ∈ [8; 16; 32; 64] →
  BuildProducts_get (name self ++ "_csr.csv") products = Ok csr_csv →
  Text.csv_rows (Text.split_lines csr_csv) = (rows, Ok tt) →
  Forall (fun row => well_formed row = true) rows →
  Forall2 (fun row req => request_of cdw row = Some req)
    (List.filter mapped_row rows) reqs →
  add_requests reqs empty_ctrl_map = (m, Ok tt) →
  Z.log2 (cdw / 8) <= Mem.addr_width m →
  _populate_ctrl_map products h self
  = ((h ++ [Mem.freeze m])%list,
     with_ctrl_bus
       {| Wishbone.addr_width := Mem.addr_width m - Z.log2 (cdw / 8);
          Wishbone.data_width := cdw; Wishbone.granularity := 8;
          Wishbone._map := Some (length h) |} self,
     Ok tt).
Proof.
  intros cdw Hcdw Hget Hrows Hwf Hreqs Hadd Hfit.
  destruct (csr_data_width_lanes cdw Hcdw) as (Hdiv & Hlog & Hbus).
  pose proof (run_rows_of_requests cdw rows reqs empty_ctrl_map m
                empty_ctrl_map_inv Hdiv Hwf Hreqs Hadd) as Hrun.
  assert (Hm : ctrl_inv m).
  { eapply (run_rows_invariant (ctrl_row cdw) ctrl_inv);
      [|apply empty_ctrl_map_inv|exact Hrun].
    intros ? ? ? ?. apply ctrl_row_inv. }
  rewrite populate_unfold. fold cdw. rewrite Hget, for_rows_read_rows.
  unfold Text.csv_rows in Hrows. rewrite Hrows. simpl. rewrite Hrun.
  destruct Hm as [-> _]. rewrite Hlog, Hbus by lia. reflexivity.
Qed.

(** C2, amended: a population that succeeds has mapped exactly the rows of
    the listing whose kind is [csr_register]: the control map is the empty
    map of one address bit to which the requests of these rows were made in
    their order, each with the name of the row, at its address read in base
    16, with its size read in base 10 and scaled by the control data width
    over the 8 bits of the map, in extend mode; comment rows and rows of any
    other kind add nothing.  Conversely the population succeeds, with that
    map, when the rows are well formed, the map takes these requests and
    its address width covers the ratio of the widths.  In particular the row
    [csr_register,ctrl_status,0x10,1,ro], with a control data width of 32,
    adds a resource of 4 units named [ctrl_status] at address 16. *)
Theorem populate_maps_register_rows :
  (∀ products (h : Mem.Store) self h' self',
     Cfg.csr_data_width (config self) ∈ [8; 16; 32; 64] →
     _populate_ctrl_map products h self = (h', self', Ok tt) →
     ∃ csr_csv rows reqs m bus l,
       BuildProducts_get (name self ++ "_csr.csv") products = Ok csr_csv
       ∧ Text.csv_rows (Text.split_lines csr_csv) = (rows, Ok tt)
       ∧ Forall2 (fun row req =>
                    request_of (Cfg.csr_data_width (config self)) row = Some req)
           (List.filter mapped_row rows) reqs
       ∧ add_requests reqs empty_ctrl_map = (m, Ok tt)
       ∧ ctrl_bus self' = Ok bus
       ∧ Wishbone._map bus = Some l
       ∧ h' !! l = Some (Mem.freeze m))
  ∧ (∀ products (h : Mem.Store) self csr_csv rows reqs m,
       Cfg.csr_data_width (config self) ∈ [8; 16; 32; 64] →
       BuildProducts_get (name self ++ "_csr.csv") products = Ok csr_csv →
       Text.csv_rows (Text.split_lines csr_csv) = (rows, Ok tt) →
       Forall (fun row => well_formed row = true) rows →
       Forall2 (fun row req =>
                  request_of (Cfg.csr_data_width (config self)) row = Some req)
         (List.filter mapped_row rows) reqs →
       add_requests reqs empty_ctrl_map = (m, Ok tt) →
       Z.log2 (Cfg.csr_data_width (config self) / 8) <= Mem.addr_width m →
       ∃ bus,
         _populate_ctrl_map products h self
         = ((h ++ [Mem.freeze m])%list, with_ctrl_bus bus self, Ok tt)
         ∧ Wishbone._map bus = Some (length h))
  ∧ (∀ (products : BuildProducts) (h : Mem.Store) self,
       Cfg.csr_data_width (config self) = 32 →
       products !! (name self ++ "_csr.csv") = Some Sample.status_row →
       _populate_ctrl_map products h self
       = ((h ++ [Sample.status_map])%list,
          with_ctrl_bus (Sample.status_bus (length h)) self, Ok tt)).
Proof.
  split; [|split].
  - intros products h self h' self' Hcdw Hpop.
    apply populate_success in Hpop
      as (csv & m & bus & Hget & Hloop & -> & -> & Hmap & _ & _).
    rewrite for_rows_read_rows in Hloop.
    destruct (Text.run_rows _ _ _) as [m1 [[]|?]] eqn:Hrun; [|discriminate].
    injection Hloop as <- Hend.
    assert (Hdiv : (8 | Cfg.csr_data_width (config self))).
    { revert Hcdw. rewrite !elem_of_cons, elem_of_nil.
      intros [-> | [-> | [-> | [-> | []]]]];
        [by exists 1 | by exists 2 | by exists 4 | by exists 8]. }
    destruct (run_rows_requests _ _ _ _ empty_ctrl_map_inv Hdiv Hrun)
      as (reqs & Hreqs & Hadd).
    exists csv, (Text.read_rows Text.parse_reset (Text.split_lines csv)).1,
      reqs, m1, bus, (length h).
    split; [done|]. split.
    { unfold Text.csv_rows. rewrite <- Hend. by destruct (Text.read_rows _ _). }
    split; [done|]. split; [done|]. split; [done|]. split; [done|].
    apply lookup_alloc.
  - intros products h self csv rows reqs m Hcdw Hget Hrows Hwf Hreqs Hadd Hfit.
    eexists. split; [by eapply populate_succeeds|]. reflexivity.
  - intros products h self Hcdw Hprod.
    rewrite populate_unfold. unfold BuildProducts_get. rewrite Hprod, Hcdw.
    reflexivity.
Qed.

(** C7, amended: when the reader yields a malformed row (a row that is not
    a comment and has not five fields, or a row of kind [csr_register] whose
    address or size is not a number), the population fails and leaves the
    core as it was, so that a control bus that was not populated still is
    not.  When the rows before it pass, the error is the [ValueError] of
    that row: the unpacking error with the count of its fields, or the error
    of [int()] with the literal that is not a number. *)
Theorem populate_rejects_malformed_rows (products : BuildProducts)
    (h : Mem.Store) (self : Core) (csr_csv : string)
    (rows : list (list string)) (end_ : result unit) (row : list string) :
  BuildProducts_get (name self ++ "_csr.csv") products = Ok csr_csv →
  Text.csv_rows (Text.split_lines csr_csv) = (rows, end_) →
  row ∈ rows →
  malformed row = true →
  ∃ h' e,
    _populate_ctrl_map products h self = (h', self, Raise e)
    ∧ (_ctrl_bus self = None → ctrl_bus self = Raise not_populated)
    ∧ (∃ msg args, row_error row = ValueError msg args)
    ∧ (∀ pre post m,
         rows = (pre ++ row :: post)%list →
         Text.run_rows (ctrl_row (Cfg.csr_data_width (config self))) pre
           empty_ctrl_map = (m, Ok tt) →
         e = row_error row).
Proof.
  intros Hget Hrows Hin Hbad.
  rewrite populate_unfold, Hget, for_rows_read_rows.
  unfold Text.csv_rows in Hrows. rewrite Hrows. simpl.
  destruct (run_rows_fails (ctrl_row (Cfg.csr_data_width (config self)))
              rows row empty_ctrl_map Hin) as (m' & e & Hrun).
  { intros m. eexists _, _. by apply ctrl_row_malformed. }
  rewrite Hrun. eexists _, e. split; [reflexivity|].
  split; [intros Hnone; unfold ctrl_bus; by rewrite Hnone|].
  split; [apply row_error_is_ValueError|].
  intros pre post m -> Hpre.
  rewrite (run_rows_first_failure _ pre row post empty_ctrl_map m m (row_error row)
             Hpre (ctrl_row_malformed _ row m Hbad)) in Hrun.
  by injection Hrun as _ <-.
Qed.

End PopulateProps.

Lemma populate_maps_register_rows_witness :
  Litedram._populate_ctrl_map {[ "dram_csr.csv" := Sample.status_row ]}
    Sample.store (Sample.core "dram")
  = ((Sample.store ++ [Sample.status_map])%list,
     Litedram.with_ctrl_bus (Sample.status_bus 1) (Sample.core "dram"), Ok tt).
Proof.
  apply (proj2 (proj2 populate_maps_register_rows)
           {[ "dram_csr.csv" := Sample.status_row ]} Sample.store
           (Sample.core "dram") eq_refl).
  vm_compute. reflexivity.
Defined.

(** C2, as stated, fails: the row of kind [register] adds nothing. *)
Lemma register_kind_is_not_mapped :
  Litedram.ctrl_row 32 ["register"; "ctrl_status"; "0x10"; "1"; "ro"]
    Litedram.empty_ctrl_map = (Litedram.empty_ctrl_map, Ok tt)
  ∧ Text.csv_rows (Text.split_lines Sample.register_status_row)
    = ([["register"; "ctrl_status"; "0x10"; "1"; "ro"]], Ok tt)
  ∧ Litedram._populate_ctrl_map
      {[ "dram_csr.csv" :=
           Sample.reset_row ++ Sample.newline ++ Sample.register_status_row ]}
      Sample.store (Sample.core "dram")
    = ((Sample.store ++ [Sample.reset_map])%list,
       Litedram.with_ctrl_bus (Sample.reset_bus 1) (Sample.core "dram"), Ok tt).
Proof. vm_compute. repeat split; reflexivity. Qed.

Lemma populate_rejects_malformed_rows_witness :
  ∃ h' e,
    Litedram._populate_ctrl_map {[ "dram_csr.csv" := Sample.bad_row ]}
      Sample.store (Sample.core "dram")
    = (h', Sample.core "dram", Raise e)
    ∧ e = Text.invalid_literal 16 "ZZ".
Proof.
  destruct (populate_rejects_malformed_rows {[ "dram_csr.csv" := Sample.bad_row ]}
              Sample.store (Sample.core "dram") Sample.bad_row
              [["csr_register"; "bad_addr"; "ZZ"; "1"; "ro"]] (Ok tt)
              ["csr_register"; "bad_addr"; "ZZ"; "1"; "ro"])
    as (h' & e & Hpop & _ & _ & Herr).
  - vm_compute. reflexivity.
  - vm_compute. reflexivity.
  - apply list_elem_of_here.
  - vm_compute. reflexivity.
  - exists h', e. split; [exact Hpop|].
    apply (Herr [] [] Litedram.empty_ctrl_map); reflexivity.
Defined.

(** C7, as stated, fails: the row [register,bad_addr,ZZ,1,ro] is skipped,
    and the population succeeds. *)
Lemma register_bad_row_is_skipped :
  Litedram.ctrl_row 32 ["register"; "bad_addr"; "ZZ"; "1"; "ro"]
    Litedram.empty_ctrl_map = (Litedram.empty_ctrl_map, Ok tt)
  ∧ Text.csv_rows (Text.split_lines Sample.register_bad_row)
    = ([["register"; "bad_addr"; "ZZ"; "1"; "ro"]], Ok tt)
  ∧ Text.py_int "ZZ" 16 = Raise (Text.invalid_literal 16 "ZZ")
  ∧ Litedram._populate_ctrl_map
      {[ "dram_csr.csv" :=
           Sample.reset_row ++ Sample.newline ++ Sample.register_bad_row ]}
      Sample.store (Sample.core "dram")
    = ((Sample.store ++ [Sample.reset_map])%list,
       Litedram.with_ctrl_bus (Sample.reset_bus 1) (Sample.core "dram"), Ok tt)
  ∧ Litedram.ctrl_bus
      (Litedram.with_ctrl_bus (Sample.reset_bus 1) (Sample.core "dram"))
    = Ok (Sample.reset_bus 1).
Proof. vm_compute. repeat split; reflexivity. Qed.

(** ** The build and the control bus *)

Section BuildProps.
Import Litedram.

Variable litedram_modules : string -> option (Z -> string -> result SDRAMModule).
Variable get_var_name : result string.
Variable render_files : Core -> bool -> list (string * string).
Variable execute_local : BuildPlan -> string -> result BuildProducts.


End BuildProps.


(** * Further properties *)

#[local] Set Warnings "-clear-no-such-hyp".

(** ** The constructors of the configurations *)

Section ConfigMore.
Import Cfg More.

Lemma all_or_violation a :
  (∀ f, in_domain f (field_value a f)) ∨ (∃ f, ¬ in_domain f (field_value a f)).
Proof.
  destruct (decide (Forall (fun f => in_domain f (field_value a f)) all_fields))
    as [Hall | Hsome].
  - left. intros f. rewrite Forall_forall in Hall. apply Hall.
    destruct f; unfold all_fields; set_solver.
  - right. apply not_Forall_Exists in Hsome; [|intros f; apply _].
    apply Exists_exists in Hsome as (f & _ & Hf). by exists f.
Qed.

Lemma rate_of_valid_memtype v rate :
  one_of_strings ["DDR2"; "DDR3"; "DDR4"] v →
  (if eq_str v "DDR2" then Ok "1:2"
   else if eq_str v "DDR3" || eq_str v "DDR4" then Ok "1:4"
   else Raise (ValueError msg_memtype [v])) = Ok rate →
  rate = rate_of (as_str v).
Proof.
  destruct v; simpl; try done.
  rewrite !elem_of_cons, elem_of_nil.
  intros [-> | [-> | [-> | []]]]; vm_compute; by intros [= <-].
Qed.

Lemma Config_init_stores (a : Args) (cfg : Config) :
  Config_init a = Ok cfg
  ↔ (∀ f, in_domain f (field_value a f))
    ∧ a_memtype a = VStr (memtype cfg)
    ∧ _rate cfg = rate_of (memtype cfg)
    ∧ a_module_name a = VStr (module_name cfg)
    ∧ module_bytes cfg = as_int (a_module_bytes a)
    ∧ module_ranks cfg = as_int (a_module_ranks a)
    ∧ input_clk_freq cfg = as_int (a_input_clk_freq a)
    ∧ user_clk_freq cfg = as_int (a_user_clk_freq a)
    ∧ a_input_domain a = VStr (input_domain cfg)
    ∧ a_user_domain a = VStr (user_domain cfg)
    ∧ user_data_width cfg = as_int (a_user_data_width a)
    ∧ cmd_buffer_depth cfg = as_int (a_cmd_buffer_depth a)
    ∧ csr_data_width cfg = as_int (a_csr_data_width a).
Proof.
  split.
  - intros Hok.
    assert (Hall : ∀ f, in_domain f (field_value a f)).
    { destruct (all_or_violation a) as [|Hbad]; [done|].
      destruct (first_violation_exists a Hbad) as (g & Hg & Hpre).
      rewrite (Config_init_first_violation a g Hg Hpre) in Hok. discriminate. }
    split; [exact Hall|].
    pose proof (Hall f_memtype) as H0. pose proof (Hall f_module_name) as H1.
    pose proof (Hall f_input_domain) as H6. pose proof (Hall f_user_domain) as H7.
    simpl in H0, H1, H6, H7.
    unfold Config_init in Hok.
    destruct (if eq_str (a_memtype a) "DDR2" then _ else _) as [rate|] eqn:Hrate;
      simpl in Hok; [|discriminate].
    apply (rate_of_valid_memtype _ _ H0) in Hrate.
    repeat match type of Hok with
    | context [if ?b then _ else _] => destruct b; [discriminate|]
    end.
    injection Hok as <-. simpl.
    destruct (a_memtype a); try done. destruct (a_module_name a); try done.
    destruct (a_input_domain a); try done. destruct (a_user_domain a); try done.
  - intros (Hall & Hmem & Hrate & Hname & Hb & Hr & Hi & Hu & Hid & Hud & Hw & Hc & Hcsr).
    destruct (Config_init_all_valid a Hall) as [cfg' Hok].
    rewrite Hok. f_equal.
    pose proof (Hall f_memtype) as H0. simpl in H0.
    unfold Config_init in Hok.
    destruct (if eq_str (a_memtype a) "DDR2" then _ else _) as [rate|] eqn:Hrate';
      simpl in Hok; [|discriminate].
    apply (rate_of_valid_memtype _ _ H0) in Hrate'.
    repeat match type of Hok with
    | context [if ?b then _ else _] => destruct b; [discriminate|]
    end.
    injection Hok as <-. destruct cfg. simpl in *.
    rewrite Hmem, Hname, Hid, Hud in *. simpl in *. subst. reflexivity.
Qed.

(** [Config.__init__] returns a configuration exactly when every argument
    is in its declared domain; the configuration then stores the arguments
    as they were passed, and the rate 1:2 for DDR2 and 1:4 for DDR3 and
    DDR4. *)
Theorem Config_init_accepts_exactly_valid (a : Args) (cfg : Config) :
  Config_init a = Ok cfg
  ↔ (∀ f, in_domain f (field_value a f))
    ∧ a_memtype a = VStr (memtype cfg)
    ∧ _rate cfg = rate_of (memtype cfg)
    ∧ a_module_name a = VStr (module_name cfg)
    ∧ module_bytes cfg = as_int (a_module_bytes a)
    ∧ module_ranks cfg = as_int (a_module_ranks a)
    ∧ input_clk_freq cfg = as_int (a_input_clk_freq a)
    ∧ user_clk_freq cfg = as_int (a_user_clk_freq a)
    ∧ a_input_domain a = VStr (input_domain cfg)
    ∧ a_user_domain a = VStr (user_domain cfg)
    ∧ user_data_width cfg = as_int (a_user_data_width a)
    ∧ cmd_buffer_depth cfg = as_int (a_cmd_buffer_depth a)
    ∧ csr_data_width cfg = as_int (a_csr_data_width a).
Proof. apply Config_init_stores. Qed.

Lemma non_negative_check v :
  non_negative_integer v ↔ negb (is_int v) || (as_int v <? 0) = false.
Proof.
  unfold non_negative_integer.
  rewrite orb_false_iff, negb_false_iff, Z.ltb_ge. tauto.
Qed.

Lemma speedgrade_check v :
  one_of_strings speedgrades v ↔ negb (existsb (eq_str v) speedgrades) = false.
Proof.
  rewrite negb_false_iff. unfold speedgrades. simpl.
  destruct v; simpl; try (split; [tauto | discriminate]).
  rewrite !orb_true_iff, !bool_decide_eq_true, !elem_of_cons, elem_of_nil.
  intuition discriminate.
Qed.

(** [ECP5Config.__init__] validates the base arguments first: an error of
    the base class is raised as it is, whatever the initialization clock.
    Once the base arguments pass, it returns a configuration exactly when
    the initialization clock frequency is a positive integer, and raises the
    [ValueError] of that field otherwise. *)
Theorem ECP5Config_init_own_check (v : value) (a : Args) :
  (∀ e, Config_init a = Raise e → ECP5Config_init v a = Raise e)
  ∧ (∀ base, Config_init a = Ok base →
       (positive_integer v →
        ECP5Config_init v a
        = Ok {| ecp5_base := base; init_clk_freq := as_int v |})
       ∧ (¬ positive_integer v →
          ECP5Config_init v a
          = Raise (ValueError
                     "Init clock frequency must be a positive integer, not {!r}"
                     [v]))).
Proof.
  unfold ECP5Config_init. split.
  - by intros e ->.
  - intros base ->. simpl. split; intros H.
    + apply positive_check in H. by rewrite H.
    + rewrite positive_check in H. apply not_false_iff_true in H. by rewrite H.
Qed.

(** [Artix7Config.__init__] returns a configuration exactly when the base
    arguments are valid, the speed grade is one of -1, -2, -2L, -2G and -3,
    the command latency and the three impedances are integers that are not
    negative (0 is accepted), and the IODELAY clock frequency is a positive
    integer; the configuration stores these values. *)
Theorem Artix7Config_init_accepts_exactly_valid
    (sg lat nom wr ron_ iodelay : value) (a : Args) (cfg : Artix7Config) :
  Artix7Config_init sg lat nom wr ron_ iodelay a = Ok cfg
  ↔ Config_init a = Ok (a7_base cfg)
    ∧ one_of_strings speedgrades sg ∧ sg = VStr (speedgrade cfg)
    ∧ non_negative_integer lat ∧ cmd_latency cfg = as_int lat
    ∧ non_negative_integer nom ∧ rtt_nom cfg = as_int nom
    ∧ non_negative_integer wr ∧ rtt_wr cfg = as_int wr
    ∧ non_negative_integer ron_ ∧ ron cfg = as_int ron_
    ∧ positive_integer iodelay ∧ iodelay_clk_freq cfg = as_int iodelay.
Proof.
  unfold Artix7Config_init. split.
  - destruct (Config_init a) as [base|]; cbv [bind]; [|discriminate].
    destruct (negb (existsb (eq_str sg) speedgrades)) eqn:Hsg; [discriminate|].
    destruct (negb (is_int lat) || _) eqn:Hlat; [discriminate|].
    destruct (negb (is_int nom) || _) eqn:Hnom; [discriminate|].
    destruct (negb (is_int wr) || _) eqn:Hwr; [discriminate|].
    destruct (negb (is_int ron_) || _) eqn:Hron; [discriminate|].
    destruct (negb (is_int iodelay) || _) eqn:Hio; [discriminate|].
    intros [= <-]. simpl.
    apply speedgrade_check in Hsg. apply non_negative_check in Hlat, Hnom, Hwr, Hron.
    apply positive_check in Hio.
    repeat split; try done; try tauto.
    all: try (destruct Hlat, Hnom, Hwr, Hron, Hio; done).
    destruct sg; done.
  - intros (Hbase & Hsg & Hsg' & Hlat & Hlat' & Hnom & Hnom' & Hwr & Hwr'
            & Hron & Hron' & Hio & Hio').
    rewrite Hbase. cbv [bind].
    apply speedgrade_check in Hsg. apply non_negative_check in Hlat, Hnom, Hwr, Hron.
    apply positive_check in Hio.
    rewrite Hsg, Hlat, Hnom, Hwr, Hron, Hio.
    destruct cfg. simpl in *. subst. reflexivity.
Qed.

(** What a constructed configuration stores of the arguments the provider
    is asked with. *)
Lemma Config_init_provider_fields a cfg :
  Config_init a = Ok cfg →
  a_memtype a = VStr (memtype cfg) ∧ _rate cfg = rate_of (memtype cfg)
  ∧ a_module_name a = VStr (module_name cfg)
  ∧ user_clk_freq cfg = as_int (a_user_clk_freq a).
Proof.
  intros H. apply Config_init_stores in H. tauto.
Qed.

End ConfigMore.

Lemma ECP5Config_init_own_check_witness :
  Cfg.ECP5Config_init (VInt 25000000) Sample.args
  = Ok {| Cfg.ecp5_base := Sample.cfg; Cfg.init_clk_freq := 25000000 |}
  ∧ Cfg.ECP5Config_init (VInt 0) Sample.args
    = Raise (ValueError "Init clock frequency must be a positive integer, not {!r}"
               [VInt 0]).
Proof.
  split.
  - apply (proj2 (ECP5Config_init_own_check (VInt 25000000) Sample.args)
             Sample.cfg eq_refl).
    split; [reflexivity | simpl; lia].
  - apply (proj2 (ECP5Config_init_own_check (VInt 0) Sample.args)
             Sample.cfg eq_refl).
    intros [_ H]. simpl in H. lia.
Defined.

(** ** The native port *)

Section PortMore.
Import NativePort.

Lemma land_pow2_pred k : 0 <= k → Z.land (2 ^ k) (2 ^ k - 1) = 0.
Proof.
  intros Hk. replace (2 ^ k - 1) with (Z.ones k) by (rewrite Z.ones_equiv; lia).
  rewrite Z.land_ones by done. apply Z.mod_same.
  assert (0 < 2 ^ k) by (apply Z.pow_pos_nonneg; lia). lia.
Qed.

(** [NativePort.__init__] returns a port exactly when the address width is
    positive and the data width is a power of two (1, 2 and 4 included); the
    port has a granularity of 8 bits and no memory map.  Reading the
    [memory_map] of such a port ends in the [AttributeError] of the record,
    which tells that the record has no field of that name.  A non-positive
    address width is reported before the data width is looked at. *)
Theorem NativePort_init_accepts_powers_of_two (aw dw : Z) (port : NativePort) :
  (init aw dw = Ok port
   ↔ 0 < aw ∧ (∃ k, 0 <= k ∧ dw = 2 ^ k)
     ∧ port = {| addr_width := aw; data_width := dw; granularity := 8;
                 _map := None |})
  ∧ (init aw dw = Ok port →
     ∀ record_name,
       memory_map record_name port
       = Raise (AttributeError
                  "{} does not have a field '{}'. Did you mean one of: {}?"
                  [VStr (record_reference record_name); VStr "memory_map";
                   VStr "cmd, w, r"]))
  ∧ (aw <= 0 →
     init aw dw
     = Raise (ValueError "Address width must be a positive integer, not {!r}"
                [VInt aw])).
Proof.
  split; [split|split].
  - intros Hinit. pose proof (init_inv _ _ _ Hinit) as (Ha & Hd & Hm & Hpos & Hdpos & Hland).
    split; [done|]. split.
    + exists (Z.log2 dw). split; [apply Z.log2_nonneg|]. by apply land_pred_pow2.
    + rewrite NativePort_init_ok in Hinit by done. by injection Hinit as <-.
  - intros (Hpos & (k & Hk & ->) & ->). apply NativePort_init_ok; [done| |].
    + apply Z.pow_pos_nonneg; lia.
    + by apply land_pow2_pred.
  - intros Hinit record_name. apply init_inv in Hinit as (_ & _ & Hm & _).
    unfold memory_map. by rewrite Hm.
  - intros Haw. unfold init. destruct (Z.leb_spec aw 0); [done | lia].
Qed.

(** The [memory_map] setter changes nothing but the frozen flag of the map
    it attaches and the reference the port keeps: the store holds the same
    objects at the same references, every map keeps its widths and its
    resources, a frozen map stays frozen, and the port keeps its widths and
    its granularity.  When it raises, the store and the port are as they
    were. *)
Theorem set_memory_map_frame (v : value) (h h1 : Mem.Store)
    (port port1 : NativePort) (r : result unit) :
  set_memory_map v h port = (h1, port1, r) →
  length h1 = length h
  ∧ addr_width port1 = addr_width port
  ∧ data_width port1 = data_width port
  ∧ granularity port1 = granularity port
  ∧ (∀ l m, h !! l = Some m →
       ∃ m1, h1 !! l = Some m1
             ∧ Mem.addr_width m1 = Mem.addr_width m
             ∧ Mem.data_width m1 = Mem.data_width m
             ∧ Mem._resources m1 = Mem._resources m
             ∧ Mem._next_addr m1 = Mem._next_addr m
             ∧ (Mem._frozen m = true → Mem._frozen m1 = true)
             ∧ (v ≠ VRef l → m1 = m))
  ∧ (∀ e, r = Raise e → h1 = h ∧ port1 = port).
Proof.
  unfold set_memory_map.
  assert (Hsame : ∀ l m, h !! l = Some m →
            ∃ m1, h !! l = Some m1
                  ∧ Mem.addr_width m1 = Mem.addr_width m
                  ∧ Mem.data_width m1 = Mem.data_width m
                  ∧ Mem._resources m1 = Mem._resources m
                  ∧ Mem._next_addr m1 = Mem._next_addr m
                  ∧ (Mem._frozen m = true → Mem._frozen m1 = true)
                  ∧ (v ≠ VRef l → m1 = m)) by (intros l m Hl; by exists m).
  destruct (Mem.as_MemoryMap h v) as [[l0 m0]|] eqn:Hv;
    [|by intros [= <- <- <-]].
  destruct (negb (Mem.data_width m0 =? 8)); [by intros [= <- <- <-]|].
  destruct (log2_int _); [|by intros [= <- <- <-]].
  destruct (negb (Mem.addr_width m0 =? _)); [by intros [= <- <- <-]|].
  intros [= <- <- <-]. apply as_MemoryMap_Some in Hv as [-> Hl0].
  split; [apply length_insert|]. do 3 (split; [done|]).
  split; [|discriminate].
  intros l m Hl. destruct (decide (l = l0)) as [-> | Hne].
  - exists (Mem.freeze m0).
    rewrite list_lookup_insert_eq by (by eapply lookup_lt_Some).
    rewrite Hl0 in Hl. injection Hl as <-. repeat split; done.
  - exists m. rewrite list_lookup_insert_ne by done. repeat split; done.
Qed.

End PortMore.

Lemma set_memory_map_frame_witness :
  length [Mem.freeze (Sample.byte_map 4); Sample.byte_map 5]
  = length [Sample.byte_map 4; Sample.byte_map 5].
Proof.
  apply (set_memory_map_frame (VRef 0) [Sample.byte_map 4; Sample.byte_map 5]
           [Mem.freeze (Sample.byte_map 4); Sample.byte_map 5] Sample.byte_port
           (NativePort.with_map 0 Sample.byte_port) (Ok tt) eq_refl).
Defined.

(** ** The construction of the core, step by step *)

Section CoreMore.
Import Litedram More.

Variable litedram_modules : string -> option (Z -> string -> result SDRAMModule).
Variable get_var_name : result string.

Lemma add_resource_keeps_widths r size a m m1 res :
  Mem.add_resource r size a false m = (m1, res) →
  Mem.addr_width m1 = Mem.addr_width m ∧ Mem.data_width m1 = Mem.data_width m.
Proof.
  unfold Mem.add_resource.
  destruct (Mem._frozen m); [by intros [= <- _]|].
  destruct (Mem.has_resource r m); [by intros [= <- _]|].
  destruct (_ <? 0); [by intros [= <- _]|].
  destruct (size <? 0); [by intros [= <- _]|].
  destruct (_ || _); simpl; [by intros [= <- _]|].
  destruct (Mem.overlaps _ _ m); by intros [= <- _].
Qed.

(** The first resource of an empty map, without extension. *)
Lemma add_resource_empty r size aw dw :
  0 < aw →
  let m0 := {| Mem.addr_width := aw; Mem.data_width := dw; Mem._frozen := false;
               Mem._resources := []; Mem._next_addr := 0 |} in
  (∃ e, Mem.add_resource r size None false m0 = (m0, Raise e)
        ∧ (size < 0 ∨ 2 ^ aw < Z.max size 1))
  ∨ (Mem.add_resource r size None false m0
     = (Mem.with_resource r 0 (Z.max size 1) m0, Ok (0, Z.max size 1))
     ∧ 0 <= size ∧ Z.max size 1 <= 2 ^ aw).
Proof.
  intros Haw m0. unfold Mem.add_resource. simpl.
  assert (0 < 2 ^ aw) by (apply Z.pow_pos_nonneg; lia).
  destruct (Z.ltb_spec size 0); [left; eexists; split; [done | by left]|].
  rewrite Z.add_0_l.
  destruct (Z.ltb_spec (2 ^ aw) 0); [lia|].
  destruct (Z.ltb_spec (2 ^ aw) (Z.max size 1)); simpl.
  - left. eexists. split; [done | by right].
  - right. done.
Qed.

(** [Core.__init__], step by step: the attachment of the user map cannot
    fail once the map has taken its resource. *)
Lemma Core_init_unfold config pins nm (h : Mem.Store) :
  Core_init litedram_modules get_var_name config pins nm h
  = match resolve_name get_var_name nm with
    | Raise e => (h, Raise e)
    | Ok self_name =>
    match get_module litedram_modules config with
    | Raise e => (h, Raise e)
    | Ok module =>
    match log2_int (nbanks module) with
    | Raise e => (h, Raise e)
    | Ok bank_bits =>
    match log2_int (Cfg.module_ranks config) with
    | Raise e => (h, Raise e)
    | Ok rank_bits =>
    match log2_int (Cfg.user_data_width config / 8) with
    | Raise e => (h, Raise e)
    | Ok lanes =>
    let uaw := user_addr_width module bank_bits rank_bits in
    match NativePort.init (uaw - lanes) (Cfg.user_data_width config) with
    | Raise e => (h, Raise e)
    | Ok port =>
    match Mem.MemoryMap_init uaw 8 with
    | Raise e => (h, Raise e)
    | Ok m0 =>
    match pow2 (geom_bits module) with
    | None =>
        ((h ++ [m0])%list,
         Raise (ValueError "Size must be a non-negative integer, not {!r}" []))
    | Some p =>
    match Mem.add_resource "user_port_0" (Cfg.module_bytes config * p) None false m0
    with
    | (m1, Raise e) => ((h ++ [m1])%list, Raise e)
    | (m1, Ok _) =>
        ((h ++ [Mem.freeze m1])%list,
         Ok {| config := config; name := self_name;
               size := Cfg.module_bytes config * p;
               user_port := NativePort.with_map (length h) port;
               _ctrl_bus := None; _pins := pins |})
    end end end end end end end end end.
Proof.
  unfold Core_init, resolve_name, user_addr_width, geom_bits.
  destruct (if negb (bool_decide (nm = VNone)) && negb (is_str nm) then _ else _);
    [|done].
  destruct (get_module litedram_modules config) as [module|]; [|done].
  destruct (log2_int (nbanks module)) as [bank_bits|]; [|done].
  destruct (log2_int (Cfg.module_ranks config)) as [rank_bits|]; [|done].
  destruct (log2_int (Cfg.user_data_width config / 8)) as [lanes|] eqn:Hlanes; [|done].
  cbv zeta.
  destruct (NativePort.init _ _) as [port|] eqn:Hport; [|done].
  destruct (Mem.MemoryMap_init _ _) as [m0|] eqn:Hm0; [|done].
  unfold Mem.alloc.
  destruct (pow2 _) as [p|]; simpl; [|done].
  destruct (Mem.add_resource _ _ _ _ _) as [m1 [?|?]] eqn:Hadd;
    rewrite insert_alloc; [|done].
  apply add_resource_keeps_widths in Hadd as [Haw Hdw].
  apply init_inv in Hport as (Hpa & Hpd & _ & Hpos & _).
  assert (Hm0' : Mem.addr_width m0
                 = rowbits (geom_settings module) + colbits (geom_settings module)
                   + bank_bits + Z.max rank_bits 1 ∧ Mem.data_width m0 = 8
                 ∧ 0 < Mem.addr_width m0).
  { unfold Mem.MemoryMap_init in Hm0.
    destruct (Z.leb_spec (rowbits (geom_settings module)
                          + colbits (geom_settings module)
                          + bank_bits + Z.max rank_bits 1) 0); [discriminate|].
    simpl in Hm0. by injection Hm0 as <-. }
  destruct Hm0' as (Haw0 & Hdw0 & Hpos0). rewrite Haw0 in Hpos0.
  unfold NativePort.set_memory_map. simpl. rewrite lookup_alloc.
  rewrite Hdw, Hdw0. simpl. rewrite Hpd, Hlanes, Hpa, Haw, Haw0.
  replace (_ - lanes + lanes)
    with (rowbits (geom_settings module) + colbits (geom_settings module)
          + bank_bits + Z.max rank_bits 1) by lia.
  rewrite (Z.max_r 1) by lia. rewrite Z.eqb_refl. simpl.
  by rewrite insert_alloc.
Qed.

(** The name of a core is the [name] argument when it is a string that is
    not empty; [None] and the empty string both leave the choice to the
    tracer, whose failure is then the failure of the construction.  A name
    that is neither [None] nor a string is refused with a [TypeError] before
    the configuration is looked at, and the store is left as it was. *)
Theorem Core_init_name (config : Cfg.Config) (pins nm : value) (h : Mem.Store) :
  (nm ≠ VNone → is_str nm = false →
   Core_init litedram_modules get_var_name config pins nm h
   = (h, Raise (TypeError "Name must be a string, not {!r}" [nm])))
  ∧ (∀ h' core,
       Core_init litedram_modules get_var_name config pins nm h = (h', Ok core) →
       (∃ c n, nm = VStr (String c n) ∧ name core = String c n)
       ∨ ((nm = VNone ∨ nm = VStr EmptyString) ∧ get_var_name = Ok (name core)))
  ∧ (∀ e, nm = VNone ∨ nm = VStr EmptyString →
       get_var_name = Raise e →
       Core_init litedram_modules get_var_name config pins nm h = (h, Raise e)).
Proof.
  rewrite Core_init_unfold. unfold resolve_name. split; [|split].
  - intros Hnone Hstr. rewrite bool_decide_eq_false_2, Hstr by done. reflexivity.
  - intros h' core.
    destruct nm as [| | |[|c n]|]; simpl;
      try (intros [= _ ?]; discriminate).
    all: destruct get_var_name as [tname|] eqn:Htr;
      try (intros [= _ ?]; discriminate).
    all: repeat match goal with
         | |- context [match ?x with _ => _ end] =>
             destruct x; try (intros [= _ ?]; discriminate)
         end.
    all: intros [= _ <-]; simpl; eauto 10.
  - intros e [-> | ->] ->; reflexivity.
Qed.

(** For a valid configuration whose module the provider knows, and a name
    that is given, [Core.__init__] succeeds exactly when the bank count and
    the rank count pass [log2_int] (powers of two, or no bank at all), the
    bit counts of the geometry do not sum to a negative number, the user
    address width exceeds the byte-lane bits of the user data width, and the
    capacity is at most two to the user address width. *)
Theorem Core_init_succeeds_exactly (args : Cfg.Args) (config : Cfg.Config)
    (module : SDRAMModule) (pins : value) (c : ascii) (n : string)
    (h : Mem.Store) :
  Cfg.Config_init args = Ok config →
  get_module litedram_modules config = Ok module →
  (∃ h' core,
     Core_init litedram_modules get_var_name config pins (VStr (String c n)) h
     = (h', Ok core))
  ↔ ∃ bank_bits rank_bits,
      log2_int (nbanks module) = Ok bank_bits
      ∧ log2_int (Cfg.module_ranks config) = Ok rank_bits
      ∧ 0 <= geom_bits module
      ∧ Z.log2 (Cfg.user_data_width config / 8)
        < user_addr_width module bank_bits rank_bits
      ∧ Cfg.module_bytes config * 2 ^ geom_bits module
        <= 2 ^ user_addr_width module bank_bits rank_bits.
Proof.
  intros Hcfg Hmod.
  apply Config_init_ok_inv in Hcfg as (Hbytes & _ & Hudw & _).
  destruct (user_data_width_lanes _ Hudw) as (Hpos & Hland & Hl0 & Hlog).
  rewrite Core_init_unfold, Hmod. unfold resolve_name. simpl.
  rewrite Hlog. unfold pow2.
  split.
  - intros (h' & core & Hinit).
    destruct (log2_int (nbanks module)) as [bb|]; [|by injection Hinit].
    destruct (log2_int (Cfg.module_ranks config)) as [rb|]; [|by injection Hinit].
    cbv zeta in Hinit.
    destruct (NativePort.init _ _) as [port|] eqn:Hport; [|by injection Hinit].
    apply init_inv in Hport as (_ & _ & _ & Hgt & _).
    destruct (Mem.MemoryMap_init _ _) as [m0|] eqn:Hm0; [|by injection Hinit].
    rewrite MemoryMap_init_ok in Hm0 by lia. injection Hm0 as <-.
    destruct (Z.ltb_spec (geom_bits module) 0); [by injection Hinit|].
    destruct (add_resource_empty "user_port_0"
                (Cfg.module_bytes config * 2 ^ geom_bits module)
                (user_addr_width module bb rb) 8 ltac:(lia))
      as [(e & Hadd & _) | (Hadd & Hsize & Hfit)];
      rewrite Hadd in Hinit; [by injection Hinit|].
    exists bb, rb. repeat split; (done || lia).
  - intros (bb & rb & -> & -> & Hbits & Hlanes & Hfit). cbv zeta.
    rewrite NativePort_init_ok by (done || lia).
    rewrite MemoryMap_init_ok by lia.
    destruct (Z.ltb_spec (geom_bits module) 0); [lia|].
    assert (1 <= Cfg.module_bytes config * 2 ^ geom_bits module).
    { assert (0 < 2 ^ geom_bits module) by (apply Z.pow_pos_nonneg; lia). nia. }
    destruct (add_resource_empty "user_port_0"
                (Cfg.module_bytes config * 2 ^ geom_bits module)
                (user_addr_width module bb rb) 8 ltac:(lia))
      as [(e & _ & [? | ?]) | (Hadd & _)]; [lia..|].
    rewrite Hadd. by eexists _, _.
Qed.

Lemma Core_init_user_port_facts (args : Cfg.Args) (config : Cfg.Config)
    (pins nm : value) (h h' : Mem.Store) (core : Core) :
  Cfg.Config_init args = Ok config →
  Core_init litedram_modules get_var_name config pins nm h = (h', Ok core) →
  ∃ module bank_bits rank_bits m,
    get_module litedram_modules config = Ok module
    ∧ log2_int (nbanks module) = Ok bank_bits
    ∧ log2_int (Cfg.module_ranks config) = Ok rank_bits
    ∧ NativePort.data_width (user_port core) = Cfg.user_data_width config
    ∧ NativePort.granularity (user_port core) = 8
    ∧ NativePort.addr_width (user_port core)
      = user_addr_width module bank_bits rank_bits
        - Z.log2 (Cfg.user_data_width config / 8)
    ∧ 0 < NativePort.addr_width (user_port core)
    ∧ (∀ record_name,
         NativePort.memory_map record_name (user_port core) = Ok (length h))
    ∧ h' = (h ++ [m])%list
    ∧ Mem._frozen m = true
    ∧ Mem.data_width m = 8
    ∧ Mem.addr_width m = user_addr_width module bank_bits rank_bits
    ∧ Mem.addr_width m = NativePort.map_addr_width (user_port core)
    ∧ 2 ^ Mem.addr_width m
      = 2 ^ NativePort.addr_width (user_port core)
        * (Cfg.user_data_width config / 8)
    ∧ Mem._resources m = [("user_port_0", (0, size core))]
    ∧ 0 < size core <= 2 ^ Mem.addr_width m.
Proof.
  intros Hcfg Hinit.
  apply Config_init_ok_inv in Hcfg as (Hbytes & _ & Hudw & _).
  destruct (user_data_width_lanes _ Hudw) as (Hpos & Hland & Hl0 & Hlog).
  rewrite Core_init_unfold in Hinit.
  destruct (resolve_name _ _); [|by injection Hinit].
  destruct (get_module _ _) as [module|]; [|by injection Hinit].
  destruct (log2_int (nbanks module)) as [bb|] eqn:Hbb; [|by injection Hinit].
  destruct (log2_int (Cfg.module_ranks config)) as [rb|] eqn:Hrb;
    [|by injection Hinit].
  rewrite Hlog in Hinit. cbv zeta in Hinit.
  destruct (NativePort.init _ _) as [port|] eqn:Hport; [|by injection Hinit].
  pose proof (init_inv _ _ _ Hport) as (Hpa & Hpd & _ & Hgt & _).
  rewrite NativePort_init_ok in Hport by done. injection Hport as <-.
  simpl in Hpa, Hpd.
  destruct (Mem.MemoryMap_init _ _) as [m0|] eqn:Hm0; [|by injection Hinit].
  rewrite MemoryMap_init_ok in Hm0 by lia. injection Hm0 as <-.
  unfold pow2 in Hinit.
  destruct (Z.ltb_spec (geom_bits module) 0); [by injection Hinit|].
  assert (Hsize : 1 <= Cfg.module_bytes config * 2 ^ geom_bits module).
  { assert (0 < 2 ^ geom_bits module) by (apply Z.pow_pos_nonneg; lia). nia. }
  destruct (add_resource_empty "user_port_0"
              (Cfg.module_bytes config * 2 ^ geom_bits module)
              (user_addr_width module bb rb) 8 ltac:(lia))
    as [(e & Hadd & _) | (Hadd & _ & Hfit)];
    rewrite Hadd in Hinit; [by injection Hinit|].
  injection Hinit as <- <-. simpl.
  rewrite Z.max_l in * by lia.
  eexists module, bb, rb, _. repeat split; try done; try lia.
  - unfold NativePort.map_addr_width. simpl. lia.
  - assert (Hq : Cfg.user_data_width config / 8
                 = 2 ^ Z.log2 (Cfg.user_data_width config / 8)).
    { revert Hudw. rewrite !elem_of_cons, elem_of_nil.
      intros [-> | [-> | [-> | [-> | [-> | []]]]]]; reflexivity. }
    change (2 ^ user_addr_width module bb rb
            = 2 ^ (user_addr_width module bb rb
                   - Z.log2 (Cfg.user_data_width config / 8))
              * (Cfg.user_data_width config / 8)).
    rewrite Hq at 2. rewrite <- Z.pow_add_r by lia. f_equal. lia.
Qed.

(** The user port of a core that has been constructed from a valid
    configuration: it has the user data width, and its address width is the
    user address width less the byte-lane bits, so that its words cover the
    bytes of the map exactly.  Its memory map is the object allocated at
    the end of the store: frozen, byte wide, of the user address width (the
    width the port expects of its map), with the one resource [user_port_0]
    from 0 to the capacity, which it can hold. *)
Theorem Core_init_user_port (args : Cfg.Args) (config : Cfg.Config)
    (pins nm : value) (h h' : Mem.Store) (core : Core) :
  Cfg.Config_init args = Ok config →
  Core_init litedram_modules get_var_name config pins nm h = (h', Ok core) →
  ∃ module bank_bits rank_bits m,
    get_module litedram_modules config = Ok module
    ∧ log2_int (nbanks module) = Ok bank_bits
    ∧ log2_int (Cfg.module_ranks config) = Ok rank_bits
    ∧ NativePort.data_width (user_port core) = Cfg.user_data_width config
    ∧ NativePort.granularity (user_port core) = 8
    ∧ NativePort.addr_width (user_port core)
      = user_addr_width module bank_bits rank_bits
        - Z.log2 (Cfg.user_data_width config / 8)
    ∧ 0 < NativePort.addr_width (user_port core)
    ∧ (∀ record_name,
         NativePort.memory_map record_name (user_port core) = Ok (length h))
    ∧ h' = (h ++ [m])%list
    ∧ Mem._frozen m = true
    ∧ Mem.data_width m = 8
    ∧ Mem.addr_width m = user_addr_width module bank_bits rank_bits
    ∧ Mem.addr_width m = NativePort.map_addr_width (user_port core)
    ∧ 2 ^ Mem.addr_width m
      = 2 ^ NativePort.addr_width (user_port core)
        * (Cfg.user_data_width config / 8)
    ∧ Mem._resources m = [("user_port_0", (0, size core))]
    ∧ 0 < size core <= 2 ^ Mem.addr_width m.
Proof. apply Core_init_user_port_facts. Qed.

(** [Core.__init__] never touches the objects of the store: whatever it
    returns, the store is the one it was given, followed by at most one new
    map, and by exactly one when the construction succeeds. *)
Theorem Core_init_extends_store (config : Cfg.Config) (pins nm : value)
    (h h' : Mem.Store) (r : result Core) :
  Core_init litedram_modules get_var_name config pins nm h = (h', r) →
  ∃ extra, h' = (h ++ extra)%list
           ∧ (length extra <= 1)%nat
           ∧ (∀ core, r = Ok core → length extra = 1%nat).
Proof.
  rewrite Core_init_unfold.
  assert (Hnone : ∀ e, (h, @Raise Core e) = (h', r) →
            ∃ extra, h' = (h ++ extra)%list ∧ (length extra <= 1)%nat
                     ∧ (∀ core, r = Ok core → length extra = 1%nat)).
  { intros e [= <- <-]. exists []. rewrite app_nil_r.
    split; [done|]. split; [simpl; lia | discriminate]. }
  assert (Hone : ∀ m r0, ((h ++ [m])%list, r0) = (h', r) →
            ∃ extra, h' = (h ++ extra)%list ∧ (length extra <= 1)%nat
                     ∧ (∀ core, r = Ok core → length extra = 1%nat)).
  { intros m r0 [= <- <-]. exists [m]. split; [done|]. split; [simpl; lia | done]. }
  destruct (resolve_name _ _); [|by apply Hnone].
  destruct (get_module _ _) as [module|]; [|by apply Hnone].
  destruct (log2_int (nbanks module)); [|by apply Hnone].
  destruct (log2_int (Cfg.module_ranks config)); [|by apply Hnone].
  destruct (log2_int (Cfg.user_data_width config / 8)); [|by apply Hnone].
  cbv zeta.
  destruct (NativePort.init _ _); [|by apply Hnone].
  destruct (Mem.MemoryMap_init _ _); [|by apply Hnone].
  destruct (pow2 _); [|by apply Hone].
  destruct (Mem.add_resource _ _ _ _ _) as [m1 [?|?]]; by apply Hone.
Qed.

End CoreMore.

Lemma Core_init_succeeds_exactly_witness :
  ∃ h' core,
    Litedram.Core_init Sample.modules Sample.no_var_name Sample.cfg VNone
      (VStr "dram") Sample.store = (h', Ok core).
Proof.
  apply (proj2 (Core_init_succeeds_exactly Sample.modules Sample.no_var_name
                  Sample.args Sample.cfg (Sample.MT41K64M16 "DDR3") VNone
                  "d"%char "ram" Sample.store eq_refl eq_refl)).
  exists 3, 0. vm_compute. repeat split; congruence.
Defined.

Lemma Core_init_user_port_witness :
  ∃ m, Mem._resources m = [("user_port_0", (0, Litedram.size (Sample.core "dram")))]
       ∧ Sample.store = ([] ++ [m])%list.
Proof.
  destruct (Core_init_user_port Sample.modules Sample.no_var_name Sample.args
              Sample.cfg VNone (VStr "dram") [] Sample.store (Sample.core "dram")
              eq_refl ltac:(vm_compute; reflexivity))
    as (module & bb & rb & m & H).
  exists m. split; [apply H | apply H].
Defined.

Lemma Core_init_extends_store_witness :
  ∃ extra, Sample.store = ([] ++ extra)%list ∧ (length extra <= 1)%nat.
Proof.
  destruct (Core_init_extends_store Sample.modules Sample.no_var_name Sample.cfg
              VNone (VStr "dram") [] Sample.store (Ok (Sample.core "dram"))
              ltac:(vm_compute; reflexivity))
    as (extra & Hstore & Hlen & _).
  exists extra. split; [exact Hstore | exact Hlen].
Defined.

(** ** More on the population of the control bus *)

Section PopulateMore.
Import Litedram More.

(** [_populate_ctrl_map] reads one artifact only, the listing named after
    the core: two bundles that agree on it give the same result.  When the
    bundle has no such artifact, the error of the bundle is raised and the
    core is left as it was. *)
Theorem populate_reads_only_listing (products products' : BuildProducts)
    (h : Mem.Store) (self : Core) :
  (products !! (name self ++ "_csr.csv") = products' !! (name self ++ "_csr.csv") →
   _populate_ctrl_map products h self = _populate_ctrl_map products' h self)
  ∧ (products !! (name self ++ "_csr.csv") = None →
     _populate_ctrl_map products h self
     = ((h ++ [empty_ctrl_map])%list, self,
        Raise (FileNotFoundError (name self ++ "_csr.csv")))).
Proof.
  rewrite !populate_unfold. unfold BuildProducts_get. split.
  - by intros ->.
  - by intros ->.
Qed.

(** A row whose first field is empty (a line that starts with a comma)
    stops the population with an [IndexError], whatever the number of its
    fields, when the rows before it pass; the core is left as it was. *)
Theorem populate_empty_first_field (products : BuildProducts) (h : Mem.Store)
    (self : Core) (csr_csv : string) (pre post : list (list string))
    (rest : list string) (end_ : result unit) (m : Mem.MemoryMap) :
  BuildProducts_get (name self ++ "_csr.csv") products = Ok csr_csv →
  Text.csv_rows (Text.split_lines csr_csv)
  = ((pre ++ (EmptyString :: rest) :: post)%list, end_) →
  Text.run_rows (ctrl_row (Cfg.csr_data_width (config self))) pre empty_ctrl_map
  = (m, Ok tt) →
  _populate_ctrl_map products h self
  = ((h ++ [m])%list, self, Raise (IndexError "string index out of range")).
Proof.
  intros Hget Hrows Hpre.
  rewrite populate_unfold, Hget, for_rows_read_rows.
  unfold Text.csv_rows in Hrows. rewrite Hrows. simpl.
  by rewrite (run_rows_first_failure _ pre (EmptyString :: rest) post
                empty_ctrl_map m m (IndexError "string index out of range") Hpre).
Qed.

Lemma populate_frame_facts (products : BuildProducts) (h h' : Mem.Store)
    (self self' : Core) (r : result unit) :
  _populate_ctrl_map products h self = (h', self', r) →
  (∃ m, h' = (h ++ [m])%list ∧ Mem.data_width m = 8 ∧ 1 <= Mem.addr_width m
        ∧ (r = Ok tt →
           Mem._frozen m = true
           ∧ ∃ bus ratio_bits,
               _ctrl_bus self' = Some bus
               ∧ Wishbone._map bus = Some (length h)
               ∧ Wishbone.data_width bus = Cfg.csr_data_width (config self)
               ∧ Wishbone.granularity bus = 8
               ∧ log2_int (Cfg.csr_data_width (config self) / 8) = Ok ratio_bits
               ∧ Wishbone.addr_width bus = Mem.addr_width m - ratio_bits
               ∧ 0 <= Wishbone.addr_width bus))
  ∧ config self' = config self ∧ name self' = name self
  ∧ size self' = size self ∧ user_port self' = user_port self
  ∧ _pins self' = _pins self
  ∧ (∀ e, r = Raise e → self' = self).
Proof.
  rewrite populate_unfold.
  destruct (BuildProducts_get _ _) as [csv|].
  2:{ intros [= <- <- <-]. split; [|done].
      exists empty_ctrl_map. repeat split; (done || discriminate). }
  destruct (Text.for_rows _ _ _ _) as [m res] eqn:Hloop.
  assert (Hm : ctrl_inv m).
  { rewrite for_rows_read_rows in Hloop.
    destruct (Text.run_rows _ _ _) as [m1 res1] eqn:Hrun.
    assert (ctrl_inv m1).
    { eapply (run_rows_invariant (ctrl_row _) ctrl_inv);
        [|apply empty_ctrl_map_inv|exact Hrun].
      intros ? ? ? ?. apply ctrl_row_inv. }
    destruct res1 as [[]|]; by injection Hloop as <- _. }
  destruct Hm as [Hdw Haw].
  destruct res as [[]|e].
  2:{ intros [= <- <- <-]. split; [|done]. exists m. repeat split; (done || discriminate). }
  rewrite Hdw.
  destruct (log2_int _) as [ratio_bits|] eqn:Hlog.
  2:{ intros [= <- <- <-]. split; [|done]. exists m. repeat split; (done || discriminate). }
  destruct (Wishbone.init _ _ _) as [bus|] eqn:Hbus.
  2:{ intros [= <- <- <-]. split; [|done]. exists m. repeat split; (done || discriminate). }
  apply Wishbone_init_inv in Hbus as [-> Hnn].
  intros [= <- <- <-]. split; [|repeat split; (done || discriminate)].
  exists (Mem.freeze m). split; [done|]. split; [done|]. split; [done|].
  intros _. split; [done|]. eexists _, ratio_bits. repeat split; done.
Qed.

(** Whatever it returns, [_populate_ctrl_map] allocates exactly one map, a
    byte-wide map, at the end of the store, and touches nothing else: the
    objects of the store, and the configuration, the name, the capacity,
    the user port and the pins of the core are as they were.  When it
    raises, the control bus is as it was too; when it returns, the control
    bus is a new bus of the control data width and of granularity 8, whose
    address width is that of the map less the bits of the width ratio, and
    whose map is the new object, frozen. *)
Theorem populate_frame (products : BuildProducts) (h h' : Mem.Store)
    (self self' : Core) (r : result unit) :
  _populate_ctrl_map products h self = (h', self', r) →
  (∃ m, h' = (h ++ [m])%list ∧ Mem.data_width m = 8 ∧ 1 <= Mem.addr_width m
        ∧ (r = Ok tt →
           Mem._frozen m = true
           ∧ ∃ bus ratio_bits,
               _ctrl_bus self' = Some bus
               ∧ Wishbone._map bus = Some (length h)
               ∧ Wishbone.data_width bus = Cfg.csr_data_width (config self)
               ∧ Wishbone.granularity bus = 8
               ∧ log2_int (Cfg.csr_data_width (config self) / 8) = Ok ratio_bits
               ∧ Wishbone.addr_width bus = Mem.addr_width m - ratio_bits
               ∧ 0 <= Wishbone.addr_width bus))
  ∧ config self' = config self ∧ name self' = name self
  ∧ size self' = size self ∧ user_port self' = user_port self
  ∧ _pins self' = _pins self
  ∧ (∀ e, r = Raise e → self' = self).
Proof. apply populate_frame_facts. Qed.

(** The population does not look at the control bus the core has: on a
    core that has one already it does what it does on the core without it,
    replacing the bus when it returns and keeping it when it raises. *)
Theorem populate_replaces_bus (products : BuildProducts) (h : Mem.Store)
    (self : Core) (bus : Wishbone.Interface) :
  _populate_ctrl_map products h (with_ctrl_bus bus self)
  = match _populate_ctrl_map products h self with
    | (h', self', Ok _) => (h', self', Ok tt)
    | (h', _, Raise e) => (h', with_ctrl_bus bus self, Raise e)
    end.
Proof.
  rewrite !populate_unfold. simpl.
  repeat match goal with
  | |- context [match ?x with _ => _ end] => destruct x; try reflexivity
  end.
Qed.

End PopulateMore.

Lemma populate_reads_only_listing_witness :
  Litedram._populate_ctrl_map ∅ Sample.store (Sample.core "dram")
  = ((Sample.store ++ [Litedram.empty_ctrl_map])%list, Sample.core "dram",
     Raise (FileNotFoundError "dram_csr.csv")).
Proof.
  apply (proj2 (populate_reads_only_listing ∅ ∅ Sample.store (Sample.core "dram"))).
  vm_compute. reflexivity.
Defined.

Lemma populate_empty_first_field_witness :
  Litedram._populate_ctrl_map
    {[ "dram_csr.csv" := Sample.reset_row ++ Sample.newline ++ ",a,b,c,d" ]}
    Sample.store (Sample.core "dram")
  = ((Sample.store ++ [More.unfrozen_reset_map])%list, Sample.core "dram",
     Raise (IndexError "string index out of range")).
Proof.
  apply (populate_empty_first_field
           {[ "dram_csr.csv" := Sample.reset_row ++ Sample.newline ++ ",a,b,c,d" ]}
           Sample.store (Sample.core "dram")
           (Sample.reset_row ++ Sample.newline ++ ",a,b,c,d")
           [["csr_register"; "ctrl_reset"; "0x0"; "1"; "rw"]] []
           ["a"; "b"; "c"; "d"] (Ok tt) More.unfrozen_reset_map);
    vm_compute; reflexivity.
Defined.

Lemma populate_frame_witness :
  Litedram.user_port (Litedram.with_ctrl_bus (Sample.status_bus 1) (Sample.core "dram"))
  = Litedram.user_port (Sample.core "dram").
Proof.
  apply (populate_frame {[ "dram_csr.csv" := Sample.status_row ]} Sample.store
           (Sample.store ++ [Sample.status_map])%list (Sample.core "dram")
           (Litedram.with_ctrl_bus (Sample.status_bus 1) (Sample.core "dram"))
           (Ok tt)).
  vm_compute. reflexivity.
Defined.

(** ** More on the builder and on the build *)

Section BuildMore.
Import Litedram More.

Variable render_files : Core -> bool -> list (string * string).
Variable execute_local : BuildPlan -> string -> result BuildProducts.

(** Whatever [prepare] returns, the namespace it leaves is the namespace
    it found with the name of the core: a refusal means that the name was
    there already. *)
Lemma prepare_namespace core sim name_force self self' r :
  prepare render_files core sim name_force self = (self', r) →
  namespace self' = {[ name core ]} ∪ namespace self.
Proof.
  unfold prepare.
  destruct (bool_decide (name core ∈ namespace self)) eqn:Hin; simpl.
  - destruct name_force; simpl; intros [= <- _]; [done|].
    apply bool_decide_eq_true in Hin. apply leibniz_equiv. set_solver.
  - by intros [= <- _].
Qed.

(** When the name of the core is free, or [name_force] is passed, a build
    that is executed claims the name however it ends.  A failure of the
    executor is raised as it is and leaves the store and the core as they
    were; otherwise the build ends as the population of the control bus
    from the products does, and returns the products.  In every case a
    further build of the core on the builder it leaves, without
    [name_force], is refused with the name conflict before anything is
    executed. *)
Theorem build_claims_name_however_it_ends (builder : Builder)
    (build_dir : string) (sim name_force : bool) (h : Mem.Store) (self : Core) :
  name self ∉ namespace builder ∨ name_force = true →
  let plan := {| script := "build_" ++ name self; files := render_files self sim |} in
  let builder' := {| namespace := {[ name self ]} ∪ namespace builder |} in
  (∀ e, execute_local plan build_dir = Raise e →
     build render_files execute_local builder true build_dir sim name_force h self
     = (h, self, builder', Raise e))
  ∧ (∀ products, execute_local plan build_dir = Ok products →
       build render_files execute_local builder true build_dir sim name_force h self
       = match _populate_ctrl_map products h self with
         | (h', self', Ok _) => (h', self', builder', Ok (Products products))
         | (h', self', Raise e) => (h', self', builder', Raise e)
         end)
  ∧ (∀ h' self' builder'' r,
       build render_files execute_local builder true build_dir sim name_force h self
       = (h', self', builder'', r) →
       builder'' = builder'
       ∧ name self' = name self
       ∧ ∀ other_executor do_build' build_dir' sim',
           build render_files other_executor builder'' do_build' build_dir' sim'
             false h' self'
           = (h', self', builder'', Raise (name_conflict (name self)))).
Proof.
  intros Hfree plan builder'.
  pose proof (prepare_success render_files self sim name_force builder Hfree) as Hprep.
  fold plan builder' in Hprep.
  split; [|split].
  - intros e He. unfold build. by rewrite Hprep, He.
  - intros products Hp. unfold build. rewrite Hprep, Hp. simpl.
    by destruct (_populate_ctrl_map products h self) as [[h' self'] [[]|e]].
  - intros h' self' builder'' r. unfold build at 1. rewrite Hprep. simpl.
    assert (Hretry : ∀ h0 (self0 : Core), name self0 = name self →
              ∀ other_executor do_build' build_dir' sim',
                build render_files other_executor builder' do_build' build_dir' sim'
                  false h0 self0
                = (h0, self0, builder', Raise (name_conflict (name self)))).
    { intros h0 self0 Hname other_executor do_build' build_dir' sim'. unfold build.
      rewrite (prepare_conflict render_files self0 sim' builder'), Hname; [done|].
      rewrite Hname. simpl. apply elem_of_union_l, elem_of_singleton. reflexivity. }
    destruct (execute_local plan build_dir) as [products|e].
    + destruct (_populate_ctrl_map products h self) as [[h1 self1] res] eqn:Hpop.
      pose proof (populate_frame_facts _ _ _ _ _ _ Hpop) as (_ & _ & Hname & _).
      destruct res as [[]|e]; intros [= <- <- <- <-];
        (split; [done|]); (split; [done|]); by apply Hretry.
    + intros [= <- <- <- <-]. split; [done|]. split; [done|]. by apply Hretry.
Qed.

(** After any sequence of calls of [prepare], the namespace is the one the
    builder had with the names of all the cores of the calls, refused or
    not.  A call is refused exactly when [name_force] is not passed and the
    name of its core was in the namespace at first or is the name of the
    core of an earlier call; otherwise it returns the plan of its core. *)
Theorem prepare_all_namespace (calls : list (Core * bool * bool))
    (self self' : Builder) (results : list (result BuildPlan)) :
  prepare_all render_files calls self = (self', results) →
  namespace self' = list_to_set ((fun call => name call.1.1) <$> calls) ∪ namespace self
  ∧ length results = length calls
  ∧ ∀ i core sim name_force,
      calls !! i = Some (core, sim, name_force) →
      let taken :=
        name core ∈ namespace self
        ∨ name core ∈ (fun call => name call.1.1) <$> take i calls in
      (name_force = false ∧ taken
       ∧ results !! i = Some (Raise (name_conflict (name core))))
      ∨ (¬ (name_force = false ∧ taken)
         ∧ results !! i
           = Some (Ok {| script := "build_" ++ name core;
                         files := render_files core sim |})).
Proof.
  revert self self' results.
  induction calls as [|[[core0 sim0] force0] rest IH]; intros self self' results; simpl.
  - intros [= <- <-]. split; [apply leibniz_equiv; set_solver|]. split; [done|].
    intros i ? ? ? Hi. by rewrite lookup_nil in Hi.
  - destruct (prepare render_files core0 sim0 force0 self) as [self1 r0] eqn:Hprep.
    destruct (prepare_all render_files rest self1) as [self2 rs] eqn:Hrest.
    intros [= <- <-].
    destruct (IH _ _ _ Hrest) as (Hns & Hlen & Hidx).
    pose proof (prepare_namespace _ _ _ _ _ _ Hprep) as Hns1.
    split; [rewrite Hns, Hns1; apply leibniz_equiv; set_solver|].
    split; [simpl; by rewrite Hlen|].
    intros [|i] core sim name_force Hi; simpl in Hi |- *.
    + injection Hi as -> -> ->. unfold prepare in Hprep.
      destruct (decide (name core ∈ namespace self)) as [Hin | Hout].
      * rewrite bool_decide_eq_true_2 in Hprep by done.
        destruct name_force; simpl in Hprep; injection Hprep as <- <-.
        -- right. split; [intros [? _]; discriminate | done].
        -- left. split; [done|]. split; [by left | done].
      * rewrite bool_decide_eq_false_2 in Hprep by done. simpl in Hprep.
        injection Hprep as <- <-. right. split; [|done].
        intros (_ & [? | Hnil]); [done|]. by apply elem_of_nil in Hnil.
    + destruct (Hidx i core sim name_force Hi) as [(Hf & Htaken & Hres) | (Hnot & Hres)].
      * left. split; [done|]. split; [|done].
        rewrite Hns1 in Htaken. set_solver.
      * right. split; [|done]. intros (Hf & Htaken). apply Hnot. split; [done|].
        rewrite Hns1. set_solver.
Qed.

End BuildMore.

Lemma build_claims_name_however_it_ends_witness :
  Litedram.build Sample.no_files (fun _ _ => Raise (FileNotFoundError "sh"))
    Litedram.Builder_init true "build/litedram" false false Sample.store
    (Sample.core "dram")
  = (Sample.store, Sample.core "dram",
     {| Litedram.namespace := {[ "dram" ]} ∪ ∅ |}, Raise (FileNotFoundError "sh")).
Proof.
  refine (proj1 (build_claims_name_however_it_ends Sample.no_files
                   (fun _ _ => Raise (FileNotFoundError "sh")) Litedram.Builder_init
                   "build/litedram" false false Sample.store (Sample.core "dram")
                   _) _ _).
  - left. apply (bool_decide_eq_false_1 _). vm_compute. reflexivity.
  - reflexivity.
Defined.

Lemma prepare_all_namespace_witness :
  ∃ self' results,
    More.prepare_all Sample.no_files
      [(Sample.core "a", false, false); (Sample.core "a", false, false)]
      Litedram.Builder_init = (self', results)
    ∧ length results = 2%nat.
Proof.
  destruct (More.prepare_all Sample.no_files
              [(Sample.core "a", false, false); (Sample.core "a", false, false)]
              Litedram.Builder_init) as [self' results] eqn:Hall.
  exists self', results. split; [reflexivity|].
  apply (prepare_all_namespace Sample.no_files _ _ _ _ Hall).
Defined.

(** ** The life cycle of a core *)

Section LifeCycle.
Import Litedram More.

Variable litedram_modules : string -> option (Z -> string -> result SDRAMModule).
Variable get_var_name : result string.
Variable render_files : Core -> bool -> list (string * string).
Variable execute_local : BuildPlan -> string -> result BuildProducts.

(** A build never touches the user port of a core or its memory map: after
    any build of a core that has been constructed, whatever its outcome,
    the user port is the same and still reads the same frozen map, with its
    one resource, from the store.  When the build returns products, the
    control bus keeps its own map, another object of the store. *)
Theorem build_keeps_user_map (args : Cfg.Args) (config : Cfg.Config)
    (pins nm : value) (h0 h h' : Mem.Store) (self self' : Core)
    (builder builder' : Builder) (do_build : bool) (build_dir : string)
    (sim name_force : bool) (r : result BuildResult) :
  Cfg.Config_init args = Ok config →
  Core_init litedram_modules get_var_name config pins nm h0 = (h, Ok self) →
  build render_files execute_local builder do_build build_dir sim name_force h self
  = (h', self', builder', r) →
  user_port self' = user_port self
  ∧ size self' = size self
  ∧ ∃ m, (∀ record_name,
            NativePort.memory_map record_name (user_port self') = Ok (length h0))
         ∧ h !! length h0 = Some m
         ∧ h' !! length h0 = Some m
         ∧ Mem._frozen m = true
         ∧ Mem._resources m = [("user_port_0", (0, size self'))]
         ∧ (∀ products, r = Ok (Products products) →
              ∃ bus ctrl_map,
                ctrl_bus self' = Ok bus
                ∧ Wishbone._map bus = Some (length h)
                ∧ length h ≠ length h0
                ∧ h' !! length h = Some ctrl_map
                ∧ Mem._frozen ctrl_map = true).
Proof.
  intros Hcfg Hinit Hbuild.
  destruct (Core_init_user_port_facts _ _ _ _ _ _ _ _ _ Hcfg Hinit)
    as (module & bb & rb & m & _ & _ & _ & _ & _ & _ & _ & Hmap & -> & Hfrozen
        & _ & _ & _ & _ & Hres & _).
  assert (Hm : ∀ extra : Mem.Store, ((h0 ++ [m]) ++ extra)%list !! length h0 = Some m).
  { intros extra. rewrite <- app_assoc. by apply list_lookup_middle. }
  assert (Hlen : length (h0 ++ [m])%list ≠ length h0)
    by (rewrite length_app; simpl; lia).
  assert (Hsame : (h0 ++ [m])%list !! length h0 = Some m) by apply lookup_alloc.
  unfold build in Hbuild.
  destruct (prepare _ _ _ _ _) as [b1 [plan|e]].
  2:{ injection Hbuild as <- <- <- <-. split; [done|]. split; [done|].
      exists m. repeat split; (done || discriminate). }
  destruct do_build; simpl in Hbuild.
  2:{ injection Hbuild as <- <- <- <-. split; [done|]. split; [done|].
      exists m. repeat split; (done || discriminate). }
  destruct (execute_local plan build_dir) as [products|e].
  2:{ injection Hbuild as <- <- <- <-. split; [done|]. split; [done|].
      exists m. repeat split; (done || discriminate). }
  destruct (_populate_ctrl_map products _ self) as [[h1 self1] res] eqn:Hpop.
  destruct (populate_frame_facts _ _ _ _ _ _ Hpop)
    as ((mc & -> & _ & _ & Hok) & _ & _ & Hsize & Hport & _).
  destruct res as [[]|e]; injection Hbuild as <- <- <- <-.
  - destruct (Hok eq_refl) as (Hfc & bus & ratio & Hbus & Hbmap & _).
    split; [done|]. split; [done|].
    exists m. rewrite Hport, Hsize. repeat split; try done.
    intros products' _. exists bus, mc. unfold ctrl_bus. rewrite Hbus.
    repeat split; try done. apply lookup_alloc.
  - split; [done|]. split; [done|].
    exists m. rewrite Hport, Hsize. repeat split; (done || discriminate).
Qed.

End LifeCycle.

Lemma build_keeps_user_map_witness :
  ∃ m, Sample.store !! 0%nat = Some m
       ∧ (Sample.store ++ [Sample.status_map])%list !! 0%nat = Some m
       ∧ Mem._resources m = [("user_port_0", (0, 67108864))].
Proof.
  destruct (build_keeps_user_map Sample.modules Sample.no_var_name Sample.no_files
              (Sample.executor Sample.status_row) Sample.args Sample.cfg VNone
              (VStr "dram") [] Sample.store
              (Sample.store ++ [Sample.status_map])%list (Sample.core "dram")
              (Litedram.with_ctrl_bus (Sample.status_bus 1) (Sample.core "dram"))
              Litedram.Builder_init
              {| Litedram.namespace := {[ "dram" ]} ∪ ∅ |}
              true "build/litedram" false false
              (Ok (Litedram.Products {[ "dram_csr.csv" := Sample.status_row ]})))
    as (_ & _ & m & _ & Hh & Hh' & _ & Hres & _).
  - reflexivity.
  - vm_compute. reflexivity.
  - vm_compute. reflexivity.
  - exists m. split; [exact Hh|]. split; [exact Hh' | exact Hres].
Defined.

(** ** The commands of the build script *)

Section Commands.
Import More.

Lemma space_is_whitespace : is_whitespace SPACE = true.
Proof. reflexivity. Qed.

Lemma LF_is_whitespace : is_whitespace Text.LF = true.
Proof. reflexivity. Qed.

Lemma collapse_single_spaced b s : single_spaced b (collapse b s) = true.
Proof.
  revert b. induction s as [|c s IH]; intros b; simpl; [done|].
  destruct (is_whitespace c) eqn:Hc.
  - destruct b; [apply IH|]. simpl. apply IH.
  - simpl. destruct (Ascii.eqb_spec c SPACE) as [-> | _]; [discriminate|].
    rewrite Hc. simpl. apply IH.
Qed.

Lemma collapse_idempotent b s : collapse b (collapse b s) = collapse b s.
Proof.
  revert b. induction s as [|c s IH]; intros b; simpl; [done|].
  destruct (is_whitespace c) eqn:Hc.
  - destruct b; [apply IH|]. simpl. by rewrite IH.
  - simpl. rewrite Hc. by rewrite IH.
Qed.

(** A text that is single spaced holds no line feed. *)
Lemma single_spaced_split_lines b s :
  single_spaced b s = true → Text.split_lines s = [s].
Proof.
  revert b. induction s as [|c s IH]; intros b; simpl; [done|].
  destruct (Ascii.eqb_spec c SPACE) as [-> | Hne].
  - intros H. apply andb_true_iff in H as [_ H]. by rewrite (IH _ H).
  - intros H. apply andb_true_iff in H as [Hc H].
    destruct (Ascii.eqb_spec c Text.LF) as [-> | _]; [discriminate|].
    by rewrite (IH _ H).
Qed.

Lemma split_lines_nonempty s : Text.split_lines s ≠ [].
Proof.
  destruct s as [|c s]; simpl; [done|].
  destruct (Ascii.eqb c Text.LF); [done|]. by destruct (Text.split_lines s).
Qed.

Lemma split_lines_app s t :
  Text.split_lines s = [s] →
  Text.split_lines (s ++ String Text.LF t) = s :: Text.split_lines t.
Proof.
  induction s as [|c s IH]; simpl.
  { intros _. reflexivity. }
  destruct (Ascii.eqb c Text.LF) eqn:Hc; [discriminate|].
  destruct (Text.split_lines s) as [|x [|y xs]] eqn:Hs;
    [by apply split_lines_nonempty in Hs| |discriminate].
  intros [= ->]. by rewrite IH.
Qed.

Lemma split_join_lines commands :
  commands ≠ [] →
  Forall (fun c => Text.split_lines c = [c]) commands →
  Text.split_lines (join_lines commands) = commands.
Proof.
  intros Hne Hall. induction Hall as [|c rest Hc Hrest IH]; [done|].
  destruct rest as [|c' rest']; [exact Hc|].
  change (join_lines (c :: c' :: rest'))
    with (c ++ String Text.LF (join_lines (c' :: rest'))).
  rewrite split_lines_app by done. by rewrite IH.
Qed.

(** [re.sub(r"\s+", " ", s)] leaves a text whose only white space is single
    spaces, and leaves such a text as it is; so every command that
    [emit_commands] renders takes exactly one line of the script, in the
    order of the templates: the lines of the script are the normalized
    commands. *)
Theorem emit_commands_one_line_each (render : string -> nat -> string)
    (command_templates : list string) :
  command_templates ≠ [] →
  let commands :=
    imap (fun index command_tpl => normalize_space (render command_tpl (S index)))
      command_templates in
  Text.split_lines (emit_commands render command_templates) = commands
  ∧ length commands = length command_templates
  ∧ Forall (fun command => single_spaced false command = true) commands
  ∧ (∀ s, single_spaced false (normalize_space s) = true
          ∧ normalize_space (normalize_space s) = normalize_space s).
Proof.
  intros Hne commands.
  assert (Hall : Forall (fun command => single_spaced false command = true) commands).
  { apply Forall_forall. intros command Hin.
    apply list_elem_of_lookup in Hin as [i Hi]. unfold commands in Hi.
    rewrite list_lookup_imap in Hi.
    destruct (command_templates !! i); [|discriminate].
    injection Hi as <-. apply collapse_single_spaced. }
  split; [|split; [|split]].
  - unfold emit_commands. fold commands. apply split_join_lines.
    + intros Hnil. apply (f_equal length) in Hnil. unfold commands in Hnil.
      rewrite length_imap in Hnil. by destruct command_templates.
    + eapply Forall_impl; [exact Hall|]. intros c. apply single_spaced_split_lines.
  - apply length_imap.
  - exact Hall.
  - intros s. split; [apply collapse_single_spaced | apply collapse_idempotent].
Qed.

End Commands.

Lemma emit_commands_one_line_each_witness :
  Text.split_lines
    (More.emit_commands (fun tpl _ => tpl)
       ["python -m litedram.gen" ++ Sample.newline ++ "    --name dram"; "make  all"])
  = ["python -m litedram.gen --name dram"; "make all"].
Proof.
  apply (emit_commands_one_line_each (fun tpl _ => tpl)
           ["python -m litedram.gen" ++ Sample.newline ++ "    --name dram";
            "make  all"]).
  discriminate.
Defined.

(** ** The request to the geometry provider *)

Section ProviderMore.
Import Litedram More.

Variable litedram_modules : string -> option (Z -> string -> result SDRAMModule).
Variable get_var_name : result string.

(** The module of a configuration is asked of the provider under the
    module name that was passed, at the user clock frequency (not the input
    one) and at the rate of the memory type.  A name the provider does not
    know is an [AttributeError], an error of the class of the module is
    raised as it is, and either makes the construction of a core fail with
    the same error, before anything is allocated in the store. *)
Theorem get_module_request (a : Cfg.Args) (config : Cfg.Config) :
  Cfg.Config_init a = Ok config →
  (litedram_modules (as_str (Cfg.a_module_name a)) = None →
   get_module litedram_modules config
   = Raise (AttributeError "module 'litedram.modules' has no attribute {!r}"
              [Cfg.a_module_name a]))
  ∧ (∀ module_class,
       litedram_modules (as_str (Cfg.a_module_name a)) = Some module_class →
       get_module litedram_modules config
       = match module_class (as_int (Cfg.a_user_clk_freq a))
                 (rate_of (as_str (Cfg.a_memtype a))) with
         | Raise e => Raise e
         | Ok module =>
             if bool_decide (memtype module = as_str (Cfg.a_memtype a))
             then Ok module else Raise AssertionError
         end)
  ∧ (∀ e pins c n (h : Mem.Store),
       get_module litedram_modules config = Raise e →
       Core_init litedram_modules get_var_name config pins (VStr (String c n)) h
       = (h, Raise e)).
Proof.
  intros Hcfg.
  apply Config_init_provider_fields in Hcfg
    as (Hmem & Hrate & Hname & Hclk).
  rewrite Hname, Hmem. simpl.
  split; [|split].
  - intros Hnone. unfold get_module. by rewrite Hnone.
  - intros module_class Hclass. unfold get_module.
    rewrite Hclass, Hclk, Hrate. by destruct (module_class _ _).
  - intros e pins c n h Hget. rewrite Core_init_unfold. simpl. by rewrite Hget.
Qed.

End ProviderMore.

Lemma get_module_request_witness :
  Litedram.get_module (fun _ => None) Sample.cfg
  = Raise (AttributeError "module 'litedram.modules' has no attribute {!r}"
             [VStr "MT41K64M16"]).
Proof.
  apply (proj1 (get_module_request (fun _ => None) Sample.no_var_name Sample.args
                  Sample.cfg eq_refl)).
  reflexivity.
Defined.

(** ** Sample runs *)

Lemma Config_init_accepts_exactly_valid_witness :
  Cfg.Config_init Sample.args = Ok Sample.cfg.
Proof.
  apply (proj2 (Config_init_accepts_exactly_valid Sample.args Sample.cfg)).
  split; [|repeat split].
  intros f. apply (bool_decide_eq_true_1 _). destruct f; vm_compute; reflexivity.
Defined.

Lemma Artix7Config_init_accepts_exactly_valid_witness :
  Cfg.Artix7Config_init (VStr "-1") (VInt 0) (VInt 60) (VInt 60) (VInt 34)
    (VInt 200000000) Sample.args
  = Ok {| Cfg.a7_base := Sample.cfg; Cfg.speedgrade := "-1"; Cfg.cmd_latency := 0;
          Cfg.rtt_nom := 60; Cfg.rtt_wr := 60; Cfg.ron := 34;
          Cfg.iodelay_clk_freq := 200000000 |}.
Proof.
  apply (proj2 (Artix7Config_init_accepts_exactly_valid (VStr "-1") (VInt 0)
                  (VInt 60) (VInt 60) (VInt 34) (VInt 200000000) Sample.args _)).
  simpl. unfold More.non_negative_integer, Cfg.positive_integer. simpl.
  repeat split; try reflexivity; try lia.
  apply list_elem_of_here.
Defined.

Lemma NativePort_init_accepts_powers_of_two_witness :
  let port := {| NativePort.addr_width := 23; NativePort.data_width := 128;
                 NativePort.granularity := 8; NativePort._map := None |} in
  NativePort.init 23 128 = Ok port
  ∧ NativePort.memory_map None port
    = Raise (AttributeError
               "{} does not have a field '{}'. Did you mean one of: {}?"
               [VStr "Unnamed record"; VStr "memory_map"; VStr "cmd, w, r"]).
Proof.
  intros port.
  assert (Hinit : NativePort.init 23 128 = Ok port).
  { apply (proj2 (proj1 (NativePort_init_accepts_powers_of_two 23 128 port))).
    split; [lia|]. split; [|reflexivity]. exists 7. split; [lia | reflexivity]. }
  split; [exact Hinit|].
  exact (proj1 (proj2 (NativePort_init_accepts_powers_of_two 23 128 port))
           Hinit None).
Defined.

Lemma Core_init_name_witness :
  Litedram.Core_init Sample.modules Sample.no_var_name Sample.cfg VNone (VInt 3)
    Sample.store
  = (Sample.store, Raise (TypeError "Name must be a string, not {!r}" [VInt 3])).
Proof.
  apply (proj1 (Core_init_name Sample.modules Sample.no_var_name Sample.cfg VNone
                  (VInt 3) Sample.store)); [discriminate | reflexivity].
Defined.

Lemma populate_replaces_bus_witness :
  Litedram._populate_ctrl_map ∅ Sample.store
    (Litedram.with_ctrl_bus (Sample.status_bus 1) (Sample.core "dram"))
  = ((Sample.store ++ [Litedram.empty_ctrl_map])%list,
     Litedram.with_ctrl_bus (Sample.status_bus 1) (Sample.core "dram"),
     Raise (FileNotFoundError "dram_csr.csv")).
Proof.
  rewrite (populate_replaces_bus ∅ Sample.store (Sample.core "dram")
             (Sample.status_bus 1)).
  vm_compute. reflexivity.
Defined.
